(** * LinkedIn scraper: a shallow embedding of the extraction pipeline

    The development follows the Python package [linkedin_scraper]:
    - [PyStr], [PyDict]  the [str] and [dict] methods the package calls
                         (ASCII text);
    - [Bs]               the BeautifulSoup tree and the queries used on it;
    - [Py]               exceptions, the file system seen through [os] and
                         [open];
    - [SkillsScraper], [ExperienceScraper], [EducationScraper],
      [LanguageScraper], [LicenseCertificationScraper], [ProjectScraper]
                         the six section scrapers, one class per file;
    - [CurrentCompanies] extract_current_companies.py;
    - [About]            about_scraper.py;
    - [ProfileBuilder]   the class [LinkedInProfileScraper] of
                         profile_builder.py, under the name main.py gives it;
    - [Nav]              [LinkedinAuthenticator] of authenticator.py and
                         [LinkedinProfileScraper] of profile_scraper.py.

    The HTML parser itself ([BeautifulSoup(text, 'html.parser')]) is a
    third-party library: it is a parameter [parse] of every function that
    builds a soup from text.  Printing and logging are left out, except
    where a property speaks of them. *)

From stdpp Require Import base strings list gmap pretty.
From Stdlib Require Import Ascii.

Local Open Scope string_scope.
Local Open Scope list_scope.

(** ** Python strings *)

Module PyStr.

(** [str.isspace] on one ASCII character: TAB..CR, FS..US and SPACE. *)
Definition isspace (c : ascii) : bool :=
  let n := nat_of_ascii c in
  ((9 <=? n)%nat && (n <=? 13)%nat) || ((28 <=? n)%nat && (n <=? 32)%nat).

Definition isupper (c : ascii) : bool :=
  let n := nat_of_ascii c in (65 <=? n)%nat && (n <=? 90)%nat.

Definition islower (c : ascii) : bool :=
  let n := nat_of_ascii c in (97 <=? n)%nat && (n <=? 122)%nat.

Definition isdigit (c : ascii) : bool :=
  let n := nat_of_ascii c in (48 <=? n)%nat && (n <=? 57)%nat.

Definition lower_char (c : ascii) : ascii :=
  if isupper c then ascii_of_nat (nat_of_ascii c + 32) else c.

Definition upper_char (c : ascii) : ascii :=
  if islower c then ascii_of_nat (nat_of_ascii c - 32) else c.

(** [s.lower()] *)
Fixpoint lower (s : string) : string :=
  match s with
  | EmptyString => EmptyString
  | String c r => String (lower_char c) (lower r)
  end.

(** [s.lstrip()], [s.rstrip()], [s.strip()] *)
Fixpoint lstrip (s : string) : string :=
  match s with
  | EmptyString => EmptyString
  | String c r => if isspace c then lstrip r else s
  end.

Fixpoint rstrip (s : string) : string :=
  match s with
  | EmptyString => EmptyString
  | String c r =>
      match rstrip r with
      | EmptyString => if isspace c then EmptyString else String c EmptyString
      | r' => String c r'
      end
  end.

Definition strip (s : string) : string := rstrip (lstrip s).

(** [s.startswith(p)] *)
Definition startswith (p s : string) : bool := String.prefix p s.

(** [sub in s] *)
Fixpoint contains (sub s : string) : bool :=
  String.prefix sub s ||
  match s with
  | EmptyString => false
  | String _ r => contains sub r
  end.

(** [s.endswith(p)] *)
Definition endswith (p s : string) : bool :=
  let n := String.length s in
  let k := String.length p in
  (k <=? n)%nat && String.eqb (String.substring (n - k) k s) p.

(** [s.replace(old, new)] for a non-empty [old]: occurrences are replaced
    from the left and do not overlap.  [skip] counts the characters of an
    occurrence that are still to be passed over. *)
Fixpoint replace_from (old new s : string) (skip : nat) : string :=
  match s with
  | EmptyString => EmptyString
  | String c r =>
      match skip with
      | S k => replace_from old new r k
      | O =>
          if String.prefix old s
          then new +:+ replace_from old new r (String.length old - 1)
          else String c (replace_from old new r 0)
      end
  end.

Definition replace (old new s : string) : string := replace_from old new s 0.

(** [sep.join(parts)] *)
Fixpoint join (sep : string) (parts : list string) : string :=
  match parts with
  | [] => ""
  | [p] => p
  | p :: rest => p +:+ sep +:+ join sep rest
  end.

(** [s.split()]: the maximal runs of non-space characters.  [cur] is the
    run being read, in reverse. *)
Fixpoint split_from (s : string) (cur : list ascii) : list string :=
  let flush (k : list string) :=
    match cur with
    | [] => k
    | _ => String.string_of_list_ascii (rev cur) :: k
    end in
  match s with
  | EmptyString => flush []
  | String c r =>
      if isspace c then flush (split_from r [])
      else split_from r (c :: cur)
  end.

Definition split (s : string) : list string := split_from s [].

(** [s.split(sep)] for a non-empty [sep]: the pieces between the occurrences
    of [sep], read from the left.  [skip] counts the characters of an
    occurrence still to be passed over, [cur] is the piece being read, in
    reverse. *)
Fixpoint split_on_from (sep s : string) (skip : nat) (cur : list ascii) : list string :=
  match s with
  | EmptyString => [String.string_of_list_ascii (rev cur)]
  | String c r =>
      match skip with
      | S k => split_on_from sep r k cur
      | O =>
          if String.prefix sep s
          then String.string_of_list_ascii (rev cur)
               :: split_on_from sep r (String.length sep - 1) []
          else split_on_from sep r 0 (c :: cur)
      end
  end.

Definition split_on (sep s : string) : list string := split_on_from sep s 0 [].

(** [s.rstrip(chars)] for a single character. *)
Fixpoint rstrip_char (ch : ascii) (s : string) : string :=
  match s with
  | EmptyString => EmptyString
  | String c r =>
      match rstrip_char ch r with
      | EmptyString => if Ascii.eqb c ch then EmptyString else String c EmptyString
      | r' => String c r'
      end
  end.

(** [s.title()]: a letter that follows a letter is lowered, any other
    letter is raised. *)
Fixpoint title_from (s : string) (prev_cased : bool) : string :=
  match s with
  | EmptyString => EmptyString
  | String c r =>
      let cased := isupper c || islower c in
      String (if prev_cased then lower_char c else upper_char c)
             (title_from r cased)
  end.

Definition title (s : string) : string := title_from s false.

(** Truth value of a string: [bool(s)]. *)
Definition truthy (s : string) : bool :=
  match s with EmptyString => false | _ => true end.

End PyStr.

(** ** The BeautifulSoup tree *)

Module Bs.

(** A parsed page.  [Text] is a [NavigableString]; [Comment] stands for the
    strings that [get_text] and [stripped_strings] pass over (comments,
    doctype, script and style text); [Elem] is a [Tag] with its attributes
    as written in the page.  The [BeautifulSoup] object itself is the
    [Elem] named "[document]". *)
#[warnings="-register-all"]
Inductive node : Type :=
| Text (s : string)
| Comment (s : string)
| Elem (tag : string) (attrs : list (string * string)) (children : list node).

Definition document (children : list node) : node := Elem "[document]" [] children.

(** [tag.descendants]: every node below [n], in document order. *)
Fixpoint descendants (n : node) : list node :=
  match n with
  | Elem _ _ kids => flat_map (fun k => k :: descendants k) kids
  | _ => []
  end.

Definition is_tag (n : node) : bool :=
  match n with Elem _ _ _ => true | _ => false end.

Definition name_is (t : string) (n : node) : bool :=
  match n with Elem t' _ _ => String.eqb t' t | _ => false end.

Definition name_in (ts : list string) (n : node) : bool :=
  existsb (fun t => name_is t n) ts.

Fixpoint assoc (k : string) (l : list (string * string)) : option string :=
  match l with
  | [] => None
  | (k', v) :: r => if String.eqb k' k then Some v else assoc k r
  end.

(** [tag.get(name)] *)
Definition get (name : string) (n : node) : option string :=
  match n with Elem _ attrs _ => assoc name attrs | _ => None end.

(** [find(..., attrs={name: value})] on a single-valued attribute. *)
Definition attr_is (name value : string) (n : node) : bool :=
  match get name n with Some v => String.eqb v value | None => false end.

(** The [class] attribute is multi-valued: BeautifulSoup keeps it as the list
    of its whitespace-separated tokens. *)
Definition classes (n : node) : option (list string) :=
  match get "class" n with Some v => Some (PyStr.split v) | None => None end.

(** [class_=f] for a function or a compiled pattern [f]: the test is tried on
    each token, then on the tokens joined by one space; a tag with no [class]
    attribute does not match. *)
Definition class_matches (f : string -> bool) (n : node) : bool :=
  match classes n with
  | Some toks => existsb f toks || f (PyStr.join " " toks)
  | None => false
  end.

(** [class_=re.compile(r'.*sub.*')]: the pattern is searched, so it holds
    exactly when [sub] occurs. *)
Definition class_re (sub : string) : node -> bool :=
  class_matches (PyStr.contains sub).

(** [class_='a b c']: a plain string is compared with each token and with the
    joined tokens. *)
Definition class_eq (value : string) : node -> bool :=
  class_matches (String.eqb value).

(** The CSS selector [tag.c1.c2...]: the tag name and every listed class
    among the tokens. *)
Definition css (tag : string) (cls : list string) (n : node) : bool :=
  name_is tag n &&
  match classes n with
  | Some toks => forallb (fun c => existsb (String.eqb c) toks) cls
  | None => match cls with [] => true | _ => false end
  end.

(** [tag.find_all(...)], [tag.select(...)]: the matching tags below [n]. *)
Definition find_all (p : node -> bool) (n : node) : list node :=
  List.filter (fun d => is_tag d && p d) (descendants n).

(** [tag.find(...)], [tag.select_one(...)] *)
Definition find (p : node -> bool) (n : node) : option node :=
  head (find_all p n).

(** The strings [get_text] sees, in document order. *)
Definition strings (n : node) : list string :=
  flat_map (fun d => match d with Text s => [s] | _ => [] end) (descendants n).

(** [tag.stripped_strings] *)
Definition stripped_strings (n : node) : list string :=
  List.filter PyStr.truthy (map PyStr.strip (strings n)).

(** [tag.get_text(separator=sep, strip=True)] *)
Definition get_text_strip (sep : string) (n : node) : string :=
  PyStr.join sep (stripped_strings n).

(** [tag.text] *)
Definition text (n : node) : string := PyStr.join "" (strings n).

(** The first tag below [n] that satisfies [p], with the siblings that follow
    it: what [find] returns, together with what [find_next_sibling] then
    walks through. *)
Fixpoint find_with_siblings (p : node -> bool) (n : node) : option (node * list node) :=
  match n with
  | Elem _ _ kids =>
      (fix among (l : list node) : option (node * list node) :=
         match l with
         | [] => None
         | k :: rest =>
             if is_tag k && p k then Some (k, rest)
             else match find_with_siblings p k with
                  | Some r => Some r
                  | None => among rest
                  end
         end) kids
  | _ => None
  end.

(** [tag.find_next_sibling(...)] over the following siblings [sibs]. *)
Fixpoint find_next_sibling (p : node -> bool) (sibs : list node) : option (node * list node) :=
  match sibs with
  | [] => None
  | s :: rest => if is_tag s && p s then Some (s, rest) else find_next_sibling p rest
  end.

End Bs.

(** ** Exceptions and the file system *)

Module Py.

(** The exceptions the package can meet; all derive from [Exception]. *)
Inductive exn : Type :=
| ValueError (msg : string)
| RuntimeError (msg : string)
| OSError (msg : string)
| TimeoutError (msg : string).

Definition message (e : exn) : string :=
  match e with
  | ValueError m | RuntimeError m | OSError m | TimeoutError m => m
  end.

Inductive result (A : Type) : Type :=
| Ok (a : A)
| Raise (e : exn).
Arguments Ok {A} a.
Arguments Raise {A} e.

Definition bind {A B} (r : result A) (k : A -> result B) : result B :=
  match r with Ok a => k a | Raise e => Raise e end.

(** What a path names.  A file system is a finite map from paths to
    entries. *)
Inductive entry : Type :=
| File (content : string)
| Dir (names : list string).

(** [os.path.exists(p)] *)
Definition exists_ (fs : gmap string entry) (p : string) : bool :=
  match fs !! p with Some _ => true | None => false end.

(** [open(p, 'r', encoding='utf-8').read()] *)
Definition read (fs : gmap string entry) (p : string) : result string :=
  match fs !! p with
  | Some (File c) => Ok c
  | Some (Dir _) => Raise (OSError ("Is a directory: " +:+ p))
  | None => Raise (OSError ("No such file or directory: " +:+ p))
  end.

(** [os.listdir(p)] *)
Definition listdir (fs : gmap string entry) (p : string) : result (list string) :=
  match fs !! p with
  | Some (Dir names) => Ok names
  | Some (File _) => Raise (OSError ("Not a directory: " +:+ p))
  | None => Raise (OSError ("No such file or directory: " +:+ p))
  end.

(** [os.path.join(a, b)] for a relative [b] *)
Definition join (a b : string) : string :=
  if PyStr.truthy a
  then if PyStr.endswith "/" a then a +:+ b else a +:+ "/" +:+ b
  else b.

(** [os.path.basename(p)]: what follows the last slash. *)
Fixpoint basename (p : string) : string :=
  match p with
  | EmptyString => EmptyString
  | String c r =>
      if PyStr.contains "/" p
      then basename r
      else p
  end.

End Py.

#[global] Instance result_ret : MRet Py.result := @Py.Ok.
#[global] Instance result_bind : MBind Py.result := fun A B k r => Py.bind r k.

(** ** Python dictionaries with string keys and values

    A [dict] keeps its keys in insertion order, and the assembler iterates
    over them: the mapping of captured documents is an association list. *)

Module PyDict.

Definition t := list (string * string).

(** [d[k]] / [d.get(k)] *)
Definition get (k : string) (d : t) : option string := Bs.assoc k d.

(** [k in d] *)
Definition mem (k : string) (d : t) : bool :=
  match get k d with Some _ => true | None => false end.

(** [d.keys()] *)
Definition keys (d : t) : list string := map fst d.

(** [bool(d)] *)
Definition truthy (d : t) : bool :=
  match d with [] => false | _ => true end.

(** [d[k] = v]: an existing key keeps its place, a new one goes last. *)
Fixpoint set (k v : string) (d : t) : t :=
  match d with
  | [] => [(k, v)]
  | (k', v') :: r => if String.eqb k' k then (k, v) :: r else (k', v') :: set k v r
  end.

End PyDict.

(** ** The section scrapers
    (skills_scraper.py, experience_scraper.py, education_scraper.py,
    language_scraper.py, license_certification_scraper.py,
    project_scraper.py) *)

Module SectionScraper.

(** An instance of one of the six classes. *)
Record t : Type := Build { html_content : string; soup : Bs.node }.

(** [__init__(self, html_file=None, html_content=None)]: the same text in
    the six files.  [None] and the empty string are both false. *)
Definition init (parse : string -> Bs.node) (fs : gmap string Py.entry)
    (html_file html_content : option string) : Py.result t :=
  match html_content with
  | Some (String c r) => Py.Ok (Build (String c r) (parse (String c r)))
  | _ =>
      match html_file with
      | Some (String c r) =>
          content ← Py.read fs (String c r);
          Py.Ok (Build content (parse content))
      | _ => Py.Raise (Py.ValueError "Either html_file or html_content must be provided")
      end
  end.

(** [soup.find('main', attrs={'aria-label': label})] *)
Definition find_main (label : string) (soup : Bs.node) : option Bs.node :=
  Bs.find (fun n => Bs.name_is "main" n && Bs.attr_is "aria-label" label n) soup.

End SectionScraper.

Module SkillsScraper.
Definition init := SectionScraper.init.

Definition extract_skills (self : SectionScraper.t) : list string :=
  let skills := [] in
  match SectionScraper.find_main "Skills" (SectionScraper.soup self) with
  | None => skills
  | Some main_section =>
      let skills_text := Bs.get_text_strip " | " main_section in
      skills ++ [skills_text]
  end.

Definition scrape_skills (self : SectionScraper.t) : list string := extract_skills self.
End SkillsScraper.

Module ExperienceScraper.
Definition init := SectionScraper.init.

Definition extract_experience (self : SectionScraper.t) : list string :=
  let experiences := [] in
  match SectionScraper.find_main "Experience" (SectionScraper.soup self) with
  | None => experiences
  | Some main_section =>
      let experience_text := Bs.get_text_strip " | " main_section in
      experiences ++ [experience_text]
  end.
End ExperienceScraper.

Module EducationScraper.
Definition init := SectionScraper.init.

Definition extract_education (self : SectionScraper.t) : list string :=
  let education := [] in
  match SectionScraper.find_main "Education" (SectionScraper.soup self) with
  | None => education
  | Some main_section =>
      let education_text := Bs.get_text_strip " | " main_section in
      education ++ [education_text]
  end.

Definition scrape_education (self : SectionScraper.t) : list string := extract_education self.
End EducationScraper.

Module LanguageScraper.
Definition init := SectionScraper.init.

Definition extract_languages (self : SectionScraper.t) : list string :=
  let languages := [] in
  let found :=
    match SectionScraper.find_main "Languages" (SectionScraper.soup self) with
    | Some m => Some m
    | None => SectionScraper.find_main "Language" (SectionScraper.soup self)
    end in
  match found with
  | None => languages
  | Some main_section =>
      let language_text := Bs.get_text_strip " | " main_section in
      languages ++ [language_text]
  end.

Definition scrape_languages (self : SectionScraper.t) : list string := extract_languages self.
End LanguageScraper.

Module LicenseCertificationScraper.
Definition init := SectionScraper.init.

Definition extract_licenses_certifications (self : SectionScraper.t) : list string :=
  let certifications := [] in
  let found :=
    match SectionScraper.find_main "Licenses & certifications" (SectionScraper.soup self) with
    | Some m => Some m
    | None =>
        match SectionScraper.find_main "Licenses & Certifications" (SectionScraper.soup self) with
        | Some m => Some m
        | None => SectionScraper.find_main "Licenses" (SectionScraper.soup self)
        end
    end in
  match found with
  | None => certifications
  | Some main_section =>
      let certs_text := Bs.get_text_strip " | " main_section in
      certifications ++ [certs_text]
  end.
End LicenseCertificationScraper.

Module ProjectScraper.
Definition init := SectionScraper.init.

Definition extract_projects (self : SectionScraper.t) : list string :=
  let projects := [] in
  match SectionScraper.find_main "Projects" (SectionScraper.soup self) with
  | None => projects
  | Some main_section =>
      let projects_text := Bs.get_text_strip " | " main_section in
      projects ++ [projects_text]
  end.

Definition scrape_projects (self : SectionScraper.t) : list string := extract_projects self.
End ProjectScraper.

(** ** extract_current_companies.py *)

Module CurrentCompanies.

(** The argument of [extract_current_companies] is untyped: a string, or
    anything else. *)
Inductive arg : Type :=
| Str (s : string)
| NotStr.

(** What the function hands back: [set(company_urls)] on the normal path,
    the empty list literal from the handler. *)
Inductive urls : Type :=
| UrlSet (s : gset string)
| UrlList (l : list string).

(** [href=lambda x: x and '/company/' in x] *)
Definition company_href (n : Bs.node) : bool :=
  match Bs.get "href" n with
  | Some x => PyStr.truthy x && PyStr.contains "/company/" x
  | None => false
  end.

(** One turn of the loop over the experience items: the URL the item adds,
    if it adds one. *)
Definition item_url (item : Bs.node) : option string :=
  match Bs.find (Bs.css "span" ["pvs-entity__caption-wrapper"]) item with
  | None => None
  | Some date_el =>
      if negb (PyStr.contains "present" (PyStr.lower (Bs.get_text_strip "" date_el)))
      then None
      else
        match Bs.find (fun n => Bs.name_is "a" n && company_href n) item with
        | Some link =>
            match Bs.get "href" link with
            | Some url =>
                if PyStr.truthy url
                then Some (if negb (PyStr.startswith "http" url)
                           then "https://www.linkedin.com" +:+ url
                           else url)
                else None
            | None => None
            end
        | None => None
        end
  end.

Fixpoint collect (items : list Bs.node) (company_urls : list string) : list string :=
  match items with
  | [] => company_urls
  | item :: rest =>
      match item_url item with
      | Some url => collect rest (company_urls ++ [url])
      | None => collect rest company_urls
      end
  end.

(** The first statement of the [try]: the text to parse. *)
Definition load (fs : gmap string Py.entry) (html_source : arg) : Py.result string :=
  match html_source with
  | Str s => if Py.exists_ fs s then Py.read fs s else Py.Ok s
  | NotStr => Py.Raise (Py.ValueError "html_source must be a file path or HTML content string")
  end.

(** [soup.select('li.pvs-list__paged-list-item')] *)
Definition experience_items (soup : Bs.node) : list Bs.node :=
  Bs.find_all (Bs.css "li" ["pvs-list__paged-list-item"]) soup.

(** The body of the [try]. *)
Definition body (parse : string -> Bs.node) (fs : gmap string Py.entry)
    (html_source : arg) : Py.result (gset string) :=
  html_content ← load fs html_source;
  let soup := parse html_content in
  let company_urls := collect (experience_items soup) [] in
  Py.Ok (list_to_set company_urls).

(** [extract_current_companies(html_source)]: the value returned and the
    lines printed. *)
Definition extract_current_companies (parse : string -> Bs.node)
    (fs : gmap string Py.entry) (html_source : arg) : Py.result urls * list string :=
  match body parse fs html_source with
  | Py.Ok s => (Py.Ok (UrlSet s), [])
  | Py.Raise e => (Py.Ok (UrlList []), ["Error: " +:+ Py.message e])
  end.

End CurrentCompanies.

(** ** about_scraper.py *)

Module About.

(** The dictionary [company_info]: nine keys set by [extract_company_info],
    and ['source'], absent until [process_about_file] adds it. *)
Record CompanyInfo : Type := Build {
  name : string;
  overview : string;
  website : string;
  industry : string;
  company_size : string;
  headquarters : string;
  founded : string;
  specialties : string;
  verified_date : string;
  source : option string
}.

Definition empty : CompanyInfo := Build "" "" "" "" "" "" "" "" "" None.

Definition set_name (v : string) (c : CompanyInfo) : CompanyInfo :=
  Build v (overview c) (website c) (industry c) (company_size c) (headquarters c)
        (founded c) (specialties c) (verified_date c) (source c).
Definition set_overview (v : string) (c : CompanyInfo) : CompanyInfo :=
  Build (name c) v (website c) (industry c) (company_size c) (headquarters c)
        (founded c) (specialties c) (verified_date c) (source c).
Definition set_website (v : string) (c : CompanyInfo) : CompanyInfo :=
  Build (name c) (overview c) v (industry c) (company_size c) (headquarters c)
        (founded c) (specialties c) (verified_date c) (source c).
Definition set_industry (v : string) (c : CompanyInfo) : CompanyInfo :=
  Build (name c) (overview c) (website c) v (company_size c) (headquarters c)
        (founded c) (specialties c) (verified_date c) (source c).
Definition set_company_size (v : string) (c : CompanyInfo) : CompanyInfo :=
  Build (name c) (overview c) (website c) (industry c) v (headquarters c)
        (founded c) (specialties c) (verified_date c) (source c).
Definition set_headquarters (v : string) (c : CompanyInfo) : CompanyInfo :=
  Build (name c) (overview c) (website c) (industry c) (company_size c) v
        (founded c) (specialties c) (verified_date c) (source c).
Definition set_founded (v : string) (c : CompanyInfo) : CompanyInfo :=
  Build (name c) (overview c) (website c) (industry c) (company_size c) (headquarters c)
        v (specialties c) (verified_date c) (source c).
Definition set_specialties (v : string) (c : CompanyInfo) : CompanyInfo :=
  Build (name c) (overview c) (website c) (industry c) (company_size c) (headquarters c)
        (founded c) v (verified_date c) (source c).
Definition set_verified_date (v : string) (c : CompanyInfo) : CompanyInfo :=
  Build (name c) (overview c) (website c) (industry c) (company_size c) (headquarters c)
        (founded c) (specialties c) v (source c).
Definition set_source (v : string) (c : CompanyInfo) : CompanyInfo :=
  Build (name c) (overview c) (website c) (industry c) (company_size c) (headquarters c)
        (founded c) (specialties c) (verified_date c) (Some v).

(** [any(company_info.values())] over the nine keys of [extract_company_info]. *)
Definition any_value (c : CompanyInfo) : bool :=
  PyStr.truthy (name c) || PyStr.truthy (overview c) || PyStr.truthy (website c)
  || PyStr.truthy (industry c) || PyStr.truthy (company_size c)
  || PyStr.truthy (headquarters c) || PyStr.truthy (founded c)
  || PyStr.truthy (specialties c) || PyStr.truthy (verified_date c).

Definition name_selectors : list (string * list string) :=
  [ ("h1", ["org-top-card-summary__title"]);
    ("h1", ["org-top-card-summary__title"; "t-24"; "t-black"; "t-bold"]);
    ("h1", ["ember-view"; "t-24"; "t-black"; "t-bold"]);
    ("h1", ["text-heading-xlarge"; "inline"; "t-24"; "v-align-middle"; "break-words"]) ].

Definition overview_selectors : list (string * list string) :=
  [ ("p", ["break-words"; "white-space-pre-wrap"]);
    ("div", ["org-about-us-organization-description__text"]);
    ("div", ["org-about-module__description"]);
    ("div", ["org-about-module__text"]);
    ("div", ["org-page-details__description-content"]) ].

Definition newline : string := String (ascii_of_nat 10) EmptyString.

(** The loop over [name_selectors]: the first selector with a match sets the
    name and ends the loop. *)
Fixpoint extract_name (soup : Bs.node) (selectors : list (string * list string))
    (company_info : CompanyInfo) : CompanyInfo :=
  match selectors with
  | [] => company_info
  | (tag, cls) :: rest =>
      match Bs.find (Bs.css tag cls) soup with
      | Some name_tag => set_name (Bs.get_text_strip "" name_tag) company_info
      | None => extract_name soup rest company_info
      end
  end.

(** The loop over [overview_selectors]: the first selector whose matches
    carry some text sets the overview and ends the loop. *)
Fixpoint extract_overview (soup : Bs.node) (selectors : list (string * list string))
    (company_info : CompanyInfo) : CompanyInfo :=
  match selectors with
  | [] => company_info
  | (tag, cls) :: rest =>
      let overview_tags := Bs.find_all (Bs.css tag cls) soup in
      let overview_text :=
        PyStr.join newline (map (Bs.get_text_strip newline) overview_tags) in
      match overview_tags with
      | [] => extract_overview soup rest company_info
      | _ =>
          if PyStr.truthy overview_text
          then set_overview overview_text company_info
          else extract_overview soup rest company_info
      end
  end.

(** The [if]/[elif] chain of the definition-list pass. *)
Definition dl_assign (label value : string) (company_info : CompanyInfo) : CompanyInfo :=
  if PyStr.contains "website" label then set_website value company_info
  else if PyStr.contains "industry" label then set_industry value company_info
  else if PyStr.contains "company size" label || PyStr.contains "employees" label
       then set_company_size value company_info
  else if PyStr.contains "headquarters" label || PyStr.contains "location" label
       then set_headquarters value company_info
  else if PyStr.contains "founded" label || PyStr.contains "year founded" label
       then set_founded value company_info
  else if PyStr.contains "specialties" label then set_specialties value company_info
  else if PyStr.contains "verified" label then set_verified_date value company_info
  else company_info.

(** [zip(dt_elements, dd_elements)] of every [dl], in document order, each
    pair read as [(label, value)]. *)
Definition dl_pairs (soup : Bs.node) : list (string * string) :=
  flat_map
    (fun dl =>
       map (fun '(dt, dd) =>
              (PyStr.lower (Bs.get_text_strip "" dt), Bs.get_text_strip newline dd))
           (combine (Bs.find_all (Bs.name_is "dt") dl) (Bs.find_all (Bs.name_is "dd") dl)))
    (Bs.find_all (Bs.name_is "dl") soup).

Definition extract_details (soup : Bs.node) (company_info : CompanyInfo) : CompanyInfo :=
  fold_left (fun c '(label, value) => dl_assign label value c) (dl_pairs soup) company_info.

(** [class_=lambda c: c and (a in c or b in c)] *)
Definition class_has_either (a b : string) : Bs.node -> bool :=
  Bs.class_matches (fun c => PyStr.truthy c && (PyStr.contains a c || PyStr.contains b c)).

(** The [if]/[elif] chain of the heading pass. *)
Definition heading_assign (label value : string) (company_info : CompanyInfo) : CompanyInfo :=
  if PyStr.contains "about" label && negb (PyStr.truthy (overview company_info))
       then set_overview value company_info
  else if PyStr.contains "website" label then set_website value company_info
  else if PyStr.contains "industry" label then set_industry value company_info
  else if PyStr.contains "size" label || PyStr.contains "employees" label
       then set_company_size value company_info
  else if PyStr.contains "headquarters" label || PyStr.contains "location" label
       then set_headquarters value company_info
  else if PyStr.contains "founded" label then set_founded value company_info
  else if PyStr.contains "specialties" label then set_specialties value company_info
  else company_info.

(** One turn of the loop over the labelled sections. *)
Definition heading_step (company_info : CompanyInfo) (section : Bs.node) : CompanyInfo :=
  match Bs.find (Bs.name_in ["h2"; "h3"]) section with
  | Some heading =>
      let label := PyStr.lower (Bs.get_text_strip "" heading) in
      match Bs.find (fun n => Bs.name_in ["p"; "div"] n && class_has_either "description" "text" n)
                    section with
      | Some content_div =>
          let value := Bs.get_text_strip newline content_div in
          heading_assign label value company_info
      | None => company_info
      end
  | None => company_info
  end.

Definition labelled_sections (soup : Bs.node) : list Bs.node :=
  Bs.find_all (fun n => Bs.name_in ["section"; "div"] n
                        && class_has_either "org-about-module" "org-page-details" n) soup.

(** [extract_company_info(html_content)] once the page is parsed: the name,
    overview and definition-list passes, then the heading pass if they left
    every value empty.  Nothing in the body of its [try] raises in this
    model, so the handler is not reached. *)
Definition selector_passes (soup : Bs.node) : CompanyInfo :=
  let company_info := empty in
  let company_info := extract_name soup name_selectors company_info in
  let company_info := extract_overview soup overview_selectors company_info in
  extract_details soup company_info.

Definition extract_company_info_soup (soup : Bs.node) : CompanyInfo :=
  let company_info := selector_passes soup in
  if negb (any_value company_info)
  then fold_left heading_step (labelled_sections soup) company_info
  else company_info.

Definition extract_company_info (parse : string -> Bs.node) (html_content : string)
    : CompanyInfo :=
  extract_company_info_soup (parse html_content).

(** [process_about_file(file_path_or_content)].  [None] is Python's [None]. *)
Definition process_about_file (parse : string -> Bs.node) (fs : gmap string Py.entry)
    (file_path_or_content : string) : option CompanyInfo :=
  let attempt : Py.result (option CompanyInfo) :=
    '(html_content, source_name) ←
      (if Py.exists_ fs file_path_or_content
       then html_content ← Py.read fs file_path_or_content;
            Py.Ok (html_content, Py.basename file_path_or_content)
       else Py.Ok (file_path_or_content, "in_memory_content"));
    if negb (PyStr.truthy html_content) then Py.Ok None
    else
      let company_info := extract_company_info parse html_content in
      let company_info := set_source source_name company_info in
      let company_info :=
        if negb (PyStr.truthy (name company_info)) && negb (PyStr.truthy (overview company_info))
        then
          if negb (String.eqb source_name "in_memory_content") && PyStr.contains "_" source_name
          then
            let company_name :=
              PyStr.title (PyStr.replace "-" " " (hd "" (PyStr.split_on "_" source_name))) in
            if PyStr.truthy company_name then set_name company_name company_info
            else company_info
          else company_info
        else company_info in
      Py.Ok (Some company_info) in
  match attempt with
  | Py.Ok r => r
  | Py.Raise _ => None
  end.

End About.

(** ** profile_builder.py: the assembler [LinkedInProfileScraper] *)

Module ProfileBuilder.

(** The values a profile dictionary holds. *)
#[warnings="-register-all"]
Inductive value : Type :=
| VNone
| VStr (s : string)
| VList (items : list value)
| VDict (entries : list (string * value)).

Definition of_opt (o : option string) : value :=
  match o with Some s => VStr s | None => VNone end.

Definition of_strings (l : list string) : value := VList (map VStr l).

Definition of_company (c : About.CompanyInfo) : value :=
  VDict ([ ("name", VStr (About.name c));
           ("overview", VStr (About.overview c));
           ("website", VStr (About.website c));
           ("industry", VStr (About.industry c));
           ("company_size", VStr (About.company_size c));
           ("headquarters", VStr (About.headquarters c));
           ("founded", VStr (About.founded c));
           ("specialties", VStr (About.specialties c));
           ("verified_date", VStr (About.verified_date c)) ]
         ++ match About.source c with
            | Some s => [("source", VStr s)]
            | None => []
            end).

(** An instance of the class. *)
Record t : Type := Build {
  html_content_dict : list (string * string);
  html_content : string;
  soup : Bs.node;
  session_dir : option string
}.

Section with_environment.

(** The HTML parser, the file system, and the directory of the package
    ([os.path.dirname(os.path.abspath(__file__))]). *)
Context (parse : string -> Bs.node) (fs : gmap string Py.entry) (package_dir : string).

(** [__init__(self, html_file=None, session_dir=None, html_content=None,
    html_content_dict=None)] *)
Definition init (html_file session_dir html_content : option string)
    (html_content_dict : option (list (string * string))) : Py.result t :=
  let d := match html_content_dict with
           | Some (x :: r) => x :: r
           | _ => []
           end in
  match html_content with
  | Some (String c r) =>
      Py.Ok (Build d (String c r) (parse (String c r)) session_dir)
  | _ =>
      match html_file with
      | Some (String c r) =>
          content ← Py.read fs (String c r);
          let d := if negb (PyDict.mem "profile_html" d)
                   then PyDict.set "profile_html" content d else d in
          Py.Ok (Build d content (parse content) session_dir)
      | _ =>
          match PyDict.get "profile_html" d with
          | Some content => Py.Ok (Build d content (parse content) session_dir)
          | None =>
              Py.Raise (Py.ValueError
                "Either html_file, html_content, or html_content_dict with 'profile_html' key must be provided")
          end
      end
  end.

(** [re.sub(r'^\(\d+\)\s*', '', name)]: a leading "(digits)" and the
    white space after it are dropped. *)
Fixpoint skip_digits (s : string) : nat * string :=
  match s with
  | String c r =>
      if PyStr.isdigit c then let '(k, r') := skip_digits r in (S k, r') else (O, s)
  | EmptyString => (O, s)
  end.

Definition drop_leading_count (s : string) : string :=
  match s with
  | String "("%char r =>
      match skip_digits r with
      | (S _, String ")"%char r') => PyStr.lstrip r'
      | _ => s
      end
  | _ => s
  end.

Definition extract_name (self : t) : option string :=
  match Bs.find (Bs.name_is "title") (soup self) with
  | Some name_elem =>
      let name := PyStr.strip (PyStr.replace " | LinkedIn" "" (Bs.text name_elem)) in
      let name := PyStr.strip (drop_leading_count name) in
      Some name
  | None =>
      match Bs.find (fun n => Bs.name_is "h1" n && Bs.class_re "text-heading-xlarge" n)
                    (soup self) with
      | Some name_elem => Some (PyStr.strip (Bs.text name_elem))
      | None => None
      end
  end.

Definition extract_headline (self : t) : option string :=
  match Bs.find (fun n => Bs.name_is "div" n && Bs.class_re "text-body-medium" n)
                (soup self) with
  | Some headline_elem => Some (PyStr.strip (Bs.text headline_elem))
  | None => None
  end.

(** [self.soup.find_all('section', class_=re.compile(r'.*pv-profile-card.*'))] *)
Definition all_sections (self : t) : list Bs.node :=
  Bs.find_all (fun n => Bs.name_is "section" n && Bs.class_re "pv-profile-card" n) (soup self).

(** [section.find(['h2', 'h1'], class_=re.compile(r'.*heading.*'))] *)
Definition header_of (section : Bs.node) : option Bs.node :=
  Bs.find (fun n => Bs.name_in ["h2"; "h1"] n && Bs.class_re "heading" n) section.

(** [header and word in header.get_text(strip=True)] *)
Definition header_has (word : string) (section : Bs.node) : bool :=
  match header_of section with
  | Some header => PyStr.contains word (Bs.get_text_strip "" header)
  | None => false
  end.

Definition full_text_of (section : Bs.node) : string := Bs.get_text_strip " | " section.

(** The [try] block of a section whose text says "Show all": the captured
    document under [key] if the mapping has it, else the file [file_name] of
    the session directory if there is one.  [new] and [run] are the
    constructor and the method of the section's scraper class.  [Some l] is
    [return l]; [None] is falling out of the block, by finding no source or
    through the handler. *)
Definition expanded (self : t) (key file_name : string)
    (new : option string -> option string -> Py.result SectionScraper.t)
    (run : SectionScraper.t -> list string) : option (list string) :=
  let attempt : Py.result (option (list string)) :=
    if PyDict.truthy (html_content_dict self) && PyDict.mem key (html_content_dict self)
    then
      scraper ← new None (PyDict.get key (html_content_dict self));
      Py.Ok (Some (run scraper))
    else
      match session_dir self with
      | Some (String c r) =>
          let file := Py.join (String c r) file_name in
          if Py.exists_ fs file
          then scraper ← new (Some file) None;
               Py.Ok (Some (run scraper))
          else Py.Ok None
      | _ => Py.Ok None
      end in
  match attempt with
  | Py.Ok r => r
  | Py.Raise _ => None
  end.

(** The loop of [extract_experiences]; [experiences] is the list built so
    far.  A section that is not expanded is appended and the loop goes on. *)
Fixpoint experiences_loop (self : t) (sections : list Bs.node) (experiences : list string)
    : list string :=
  match sections with
  | [] => experiences
  | section :: rest =>
      if header_has "Experience" section
      then
        let full_text := full_text_of section in
        let returned :=
          if PyStr.contains "Show all" full_text
          then expanded self "experiences_expanded_html" "experiences_expanded_html.txt"
                 (ExperienceScraper.init parse fs) ExperienceScraper.extract_experience
          else None in
        match returned with
        | Some l => l
        | None => experiences_loop self rest (experiences ++ [full_text])
        end
      else experiences_loop self rest experiences
  end.

Definition extract_experiences (self : t) : list string :=
  experiences_loop self (all_sections self) [].

Fixpoint education_loop (self : t) (sections : list Bs.node) (education : list string)
    : list string :=
  match sections with
  | [] => education
  | section :: rest =>
      if header_has "Education" section
      then
        let full_text := full_text_of section in
        let returned :=
          if PyStr.contains "Show all" full_text
          then expanded self "education_expanded_html" "education_expanded_html.txt"
                 (EducationScraper.init parse fs) EducationScraper.scrape_education
          else None in
        match returned with
        | Some l => l
        | None => education_loop self rest (education ++ [full_text])
        end
      else education_loop self rest education
  end.

Definition extract_education (self : t) : list string :=
  education_loop self (all_sections self) [].

(** The loop of [extract_skills]: the first section with the heading ends
    it, expanded or not. *)
Fixpoint skills_loop (self : t) (sections : list Bs.node) (skills : list string)
    : list string :=
  match sections with
  | [] => skills
  | section :: rest =>
      if header_has "Skills" section
      then
        let full_text := full_text_of section in
        let returned :=
          if PyStr.contains "Show all" full_text
          then expanded self "skills_expanded_html" "skills_expanded_html.txt"
                 (SkillsScraper.init parse fs) SkillsScraper.scrape_skills
          else None in
        match returned with
        | Some l => l
        | None => skills ++ [full_text]
        end
      else skills_loop self rest skills
  end.

Definition extract_skills (self : t) : list string :=
  skills_loop self (all_sections self) [].

Fixpoint languages_loop (self : t) (sections : list Bs.node) (languages : list string)
    : list string :=
  match sections with
  | [] => languages
  | section :: rest =>
      if header_has "Languages" section
      then
        let full_text := full_text_of section in
        let returned :=
          if PyStr.contains "Show all" full_text
          then expanded self "languages_expanded_html" "languages_expanded_html.txt"
                 (LanguageScraper.init parse fs) LanguageScraper.scrape_languages
          else None in
        match returned with
        | Some l => l
        | None => languages ++ [full_text]
        end
      else languages_loop self rest languages
  end.

Definition extract_languages (self : t) : list string :=
  languages_loop self (all_sections self) [].

Fixpoint licenses_loop (self : t) (sections : list Bs.node) (licenses : list string)
    : list string :=
  match sections with
  | [] => licenses
  | section :: rest =>
      if header_has "Licenses" section || header_has "Certifications" section
      then
        let full_text := full_text_of section in
        let returned :=
          if PyStr.contains "Show all" full_text
          then expanded self "licenses_and_certifications_expanded_html"
                 "licenses_and_certifications_expanded_html.txt"
                 (LicenseCertificationScraper.init parse fs)
                 LicenseCertificationScraper.extract_licenses_certifications
          else None in
        match returned with
        | Some l => l
        | None => licenses ++ [full_text]
        end
      else licenses_loop self rest licenses
  end.

Definition extract_licenses_certifications (self : t) : list string :=
  licenses_loop self (all_sections self) [].

Fixpoint projects_loop (self : t) (sections : list Bs.node) (projects : list string)
    : list string :=
  match sections with
  | [] => projects
  | section :: rest =>
      if header_has "Projects" section
      then
        let full_text := full_text_of section in
        let returned :=
          if PyStr.contains "Show all" full_text
          then expanded self "projects_expanded_html" "projects_expanded_html.txt"
                 (ProjectScraper.init parse fs) ProjectScraper.scrape_projects
          else None in
        match returned with
        | Some l => l
        | None => projects ++ [full_text]
        end
      else projects_loop self rest projects
  end.

Definition extract_projects (self : t) : list string :=
  projects_loop self (all_sections self) [].

(** The keys of the resolved company documents. *)
Definition company_keys (self : t) : list string :=
  List.filter
    (fun k => PyStr.startswith "company_" k && PyStr.endswith "_html" k
              && negb (PyStr.endswith "_main_html" k)
              && negb (PyStr.endswith "_about_html" k))
    (PyDict.keys (html_content_dict self)).

(** The loop over [company_keys]; [processed_companies] is the set of names
    already taken. *)
Fixpoint companies_loop (self : t) (keys : list string)
    (companies : list About.CompanyInfo) (processed_companies : gset string)
    : list About.CompanyInfo :=
  match keys with
  | [] => companies
  | key :: rest =>
      let company_info :=
        match PyDict.get key (html_content_dict self) with
        | Some content => About.process_about_file parse fs content
        | None => None
        end in
      match company_info with
      | Some company_info =>
          if PyStr.truthy (About.name company_info)
             && negb (bool_decide (About.name company_info ∈ processed_companies))
          then companies_loop self rest (companies ++ [company_info])
                 ({[About.name company_info]} ∪ processed_companies)
          else companies_loop self rest companies processed_companies
      | None => companies_loop self rest companies processed_companies
      end
  end.

(** The loop over about-files, of the session directory or of the legacy
    one. *)
Fixpoint files_loop (paths : list string) (companies : list About.CompanyInfo)
    : list About.CompanyInfo :=
  match paths with
  | [] => companies
  | file_path :: rest =>
      match About.process_about_file parse fs file_path with
      | Some company_info => files_loop rest (companies ++ [company_info])
      | None => files_loop rest companies
      end
  end.

(** [about_dir.glob('*_about.txt')]: nothing when [about_dir] is no
    directory. *)
Definition glob_about (about_dir : string) : list string :=
  match fs !! about_dir with
  | Some (Py.Dir names) =>
      map (Py.join about_dir) (List.filter (PyStr.endswith "_about.txt") names)
  | _ => []
  end.

Definition legacy_dir : string :=
  Py.join (Py.join package_dir "html_pages") "company_about_pages".

(** The body of the [try] of [extract_companies]. *)
Definition extract_companies_body (self : t) : Py.result (list About.CompanyInfo) :=
  let companies := [] in
  let in_memory :=
    if PyDict.truthy (html_content_dict self) then company_keys self else [] in
  match in_memory with
  | _ :: _ => Py.Ok (companies_loop self in_memory companies ∅)
  | [] =>
      let session_company_dir :=
        match session_dir self with
        | Some (String c r) =>
            let company_dir := Py.join (String c r) "company_about_pages" in
            if Py.exists_ fs company_dir then Some company_dir else None
        | _ => None
        end in
      match session_company_dir with
      | Some company_dir =>
          names ← Py.listdir fs company_dir;
          let about_files := List.filter (PyStr.endswith "_about.txt") names in
          Py.Ok (files_loop (map (Py.join company_dir) about_files) companies)
      | None =>
          if Py.exists_ fs legacy_dir
          then Py.Ok (files_loop (glob_about legacy_dir) companies)
          else Py.Ok companies
      end
  end.

Definition extract_companies (self : t) : list About.CompanyInfo :=
  match extract_companies_body self with
  | Py.Ok companies => companies
  | Py.Raise _ => []
  end.

(** [clean_text] of [extract_about] *)
Definition clean_text (text : string) : option string :=
  if negb (PyStr.truthy text) then None
  else Some (PyStr.strip (PyStr.join " " (PyStr.split (PyStr.replace "&amp;" "&" text)))).

Definition extract_about (self : t) : option string :=
  match Bs.find_with_siblings (fun n => Bs.name_is "div" n && Bs.attr_is "id" "about" n)
          (soup self) with
  | None => None
  | Some (about_anchor, after_anchor) =>
  match Bs.find_next_sibling
          (fun n => Bs.name_is "div" n
                    && Bs.class_re "escTwakvXlHtkbumLjULwyNILFHqFbANpitf" n)
          after_anchor with
  | None => None
  | Some (parent_container, after_container) =>
  match Bs.find_next_sibling
          (fun n => Bs.name_is "div" n && Bs.class_eq "display-flex ph5 pv3" n)
          after_container with
  | None => None
  | Some (content_div, _) =>
  match Bs.find (fun n => Bs.name_is "div" n && Bs.class_re "inline-show-more-text" n)
          content_div with
  | None => None
  | Some text_div =>
      let visible_text :=
        match Bs.find (fun n => Bs.name_is "span" n && Bs.attr_is "aria-hidden" "true" n)
                text_div with
        | Some visible_span => PyStr.join " " (Bs.stripped_strings visible_span)
        | None => ""
        end in
      let hidden_text :=
        match Bs.find (fun n => Bs.name_is "span" n && Bs.class_eq "visually-hidden" n)
                text_div with
        | Some hidden_span => PyStr.join " " (Bs.stripped_strings hidden_span)
        | None => ""
        end in
      let result :=
        match clean_text visible_text with
        | Some (String c r) => Some (String c r)
        | _ => clean_text hidden_text
        end in
      match result with
      | Some (String c r) => Some (String c r)
      | _ => None
      end
  end end end end.

(** [scrape_profile(self)]: the dictionary literal, key by key. *)
Definition scrape_profile (self : t) : list (string * value) :=
  [ ("name", of_opt (extract_name self));
    ("headline", of_opt (extract_headline self));
    ("about", of_opt (extract_about self));
    ("experiences", of_strings (extract_experiences self));
    ("education", of_strings (extract_education self));
    ("skills", of_strings (extract_skills self));
    ("languages", of_strings (extract_languages self));
    ("licenses-certifications", of_strings (extract_licenses_certifications self));
    ("projects", of_strings (extract_projects self));
    ("current_companies", VList (map of_company (extract_companies self))) ].

End with_environment.
End ProfileBuilder.

(** ** authenticator.py and profile_scraper.py: the navigation controller

    The browser is outside the package.  A run is followed through the list
    of the calls made to it; what each call answers, and whether it raises,
    is fixed by a [world]. *)

Module Nav.

Inductive call : Type :=
| StartPlaywright
| Launch
| NewContext
| AddInitScript
| NewPage
| Goto (url : string)
| WaitForTimeout
| Sleep
| WaitForLoadState
| WaitForSelector (selector : string)
| GetAttribute (selector name : string)
| QuerySelector (selector : string)
| QuerySelectorAll (selector : string)
| Fill (selector : string)
| Click (selector : string)
| PageUrl
| Content
| GoBack
| WriteFile (path : string)
| MakeDirs (path : string)
| ContextClose
| BrowserClose.

(** The answers of the browser and of the operating system, each a function
    of the calls made before. *)
Record world : Type := World {
  environ : string -> option string;
  raises : list call -> call -> option Py.exn;
  page_content : list call -> string;
  page_url : list call -> string;
  attribute : list call -> string -> string -> option string;
  found : list call -> string -> bool
}.

(** The calls made so far, the mapping [self.html_content], and the files. *)
Record state : Type := State {
  trace : list call;
  html_content : list (string * string);
  files : gmap string Py.entry
}.

Definition M (A : Type) : Type := state -> Py.result A * state.

Definition ret {A} (a : A) : M A := fun s => (Py.Ok a, s).

Definition bind {A B} (m : M A) (k : A -> M B) : M B :=
  fun s => match m s with
           | (Py.Ok a, s') => k a s'
           | (Py.Raise e, s') => (Py.Raise e, s')
           end.

Definition raise {A} (e : Py.exn) : M A := fun s => (Py.Raise e, s).

(** [try: m  except Exception as e: h(e)] *)
Definition try_except {A} (m : M A) (h : Py.exn -> M A) : M A :=
  fun s => match m s with
           | (Py.Ok a, s') => (Py.Ok a, s')
           | (Py.Raise e, s') => h e s'
           end.

Notation "x <~ m ; k" := (bind m (fun x => k))
  (at level 100, m at next level, right associativity).
Notation "m ;; k" := (bind m (fun _ => k))
  (at level 100, right associativity).

Section with_world.
Context (w : world) (parse : string -> Bs.node).

(** One call to the browser or to the operating system.  Selectors are
    passed as text; where the source quotes inside a selector with double
    quotes, single quotes are written here. *)
Definition perform (c : call) : M unit :=
  fun s =>
    let s' := State (trace s ++ [c]) (html_content s) (files s) in
    match raises w (trace s) c with
    | Some e => (Py.Raise e, s')
    | None => (Py.Ok tt, s')
    end.

(** [await page.content()] *)
Definition content : M string :=
  fun s => bind (perform Content) (fun _ => ret (page_content w (trace s))) s.

(** [page.url] *)
Definition url : M string :=
  fun s => bind (perform PageUrl) (fun _ => ret (page_url w (trace s))) s.

(** [await element.get_attribute(name)] *)
Definition get_attribute (selector name : string) : M (option string) :=
  fun s => bind (perform (GetAttribute selector name))
                (fun _ => ret (attribute w (trace s) selector name)) s.

(** [await page.query_selector(selector)]: whether an element is found. *)
Definition query_selector (selector : string) : M bool :=
  fun s => bind (perform (QuerySelector selector)) (fun _ => ret (found w (trace s) selector)) s.

Definition query_selector_all (selector : string) : M bool :=
  fun s => bind (perform (QuerySelectorAll selector))
                (fun _ => ret (found w (trace s) selector)) s.

(** [self.html_content[k] = v] *)
Definition store (k v : string) : M unit :=
  fun s => (Py.Ok tt, State (trace s) (PyDict.set k v (html_content s)) (files s)).

Definition stored : M (list (string * string)) :=
  fun s => (Py.Ok (html_content s), s).

Definition the_files : M (gmap string Py.entry) :=
  fun s => (Py.Ok (files s), s).

(** [with open(path, 'w', encoding='utf-8') as f: f.write(text)] *)
Definition write (path text : string) : M unit :=
  perform (WriteFile path) ;;
  fun s => (Py.Ok tt, State (trace s) (html_content s) (<[path := Py.File text]> (files s))).

(** [x or os.environ.get(name)] then the truth test on it. *)
Definition credential (given : option string) (name : string) : option string :=
  match given with
  | Some (String c r) => Some (String c r)
  | _ => match environ w name with
         | Some (String c r) => Some (String c r)
         | _ => None
         end
  end.

(** *** authenticator.py *)

(** [LinkedinAuthenticator.login(email, password)]; the browser, the context
    and the page it returns are the ones later calls act on. *)
Definition login (email password : option string) : M unit :=
  match credential email "LINKEDIN_EMAIL", credential password "LINKEDIN_PASSWORD" with
  | Some email, Some password =>
      try_except
        (perform StartPlaywright ;;
         perform Launch ;;
         perform NewContext ;;
         perform AddInitScript ;;
         perform NewPage ;;
         try_except
           (perform (Goto "https://www.linkedin.com/login") ;;
            perform WaitForTimeout ;;
            perform (Fill "input[name='session_key']") ;;
            perform Sleep ;;
            perform (Fill "input[name='session_password']") ;;
            perform Sleep ;;
            perform (Click "button[type='submit']") ;;
            perform Sleep ;;
            perform WaitForLoadState ;;
            current_url <~ url ;
            if PyStr.contains "checkpoint" current_url || PyStr.contains "login" current_url
            then raise (Py.RuntimeError "Login challenge detected")
            else ret tt)
           (fun nav_error => raise nav_error))
        (fun e => raise (Py.RuntimeError ("LinkedIn login failed: " +:+ Py.message e)))
  | _, _ => raise (Py.ValueError "LinkedIn credentials are required")
  end.

(** *** profile_scraper.py *)

(** The fields of the controller set by [__init__]. *)
Context (debug_mode : bool) (html_pages_dir : string).

Definition section_selectors (section : string) : list string :=
  if String.eqb section "experiences" then
    [ "#navigation-index-see-all-experiences";
      "//span[text()[contains(., 'Show all') and contains(., 'experiences')]]/ancestor::a" ]
  else if String.eqb section "skills" then
    [ "a[id*='navigation-index-Show-all'][id*='-skills']";
      "//span[text()[contains(., 'Show all') and contains(., 'skills')]]/ancestor::a" ]
  else if String.eqb section "education" then
    [ "#navigation-index-see-all-education";
      "//span[text()[contains(., 'Show all') and contains(., 'educations')]]/ancestor::a" ]
  else if String.eqb section "languages" then
    [ "#navigation-index-see-all-languages";
      "//span[text()[contains(., 'Show all') and contains(., 'languages')]]/ancestor::a";
      "//a[contains(@href, '/details/languages')]" ]
  else if String.eqb section "projects" then
    [ "#navigation-index-see-all-projects";
      "//span[text()[contains(., 'Show all') and contains(., 'projects')]]/ancestor::a";
      "//a[contains(@href, '/details/projects')]" ]
  else if String.eqb section "licenses_and_certifications" then
    [ "#navigation-index-see-all-licenses-and-certifications";
      "//span[text()[contains(., 'Show all') and (contains(., 'licenses') or contains(., 'certifications'))]]/ancestor::a";
      "//a[contains(@href, '/details/certifications')]";
      "//a[contains(@href, '/details/licenses')]" ]
  else [].

Definition when (b : bool) (m : M unit) : M unit := if b then m else ret tt.

(** The inner [try] of [_expand_and_capture_section] for one selector;
    [true] is its [return], [false] is going on to the next selector. *)
Definition try_selector (section selector : string) : M bool :=
  perform (WaitForSelector selector) ;;
  href <~ get_attribute selector "href" ;
  match href with
  | Some (String c r) =>
      perform (Goto (String c r)) ;;
      perform WaitForLoadState ;;
      perform WaitForTimeout ;;
      expanded_html <~ content ;
      store (section +:+ "_expanded_html") expanded_html ;;
      when debug_mode
        (write (Py.join html_pages_dir (section +:+ "_expanded_html.txt")) expanded_html) ;;
      perform GoBack ;;
      perform WaitForTimeout ;;
      ret true
  | _ => ret false
  end.

Fixpoint try_selectors (section : string) (selectors : list string) : M unit :=
  match selectors with
  | [] => ret tt
  | selector :: rest =>
      returned <~ try_except (try_selector section selector) (fun _ => ret false) ;
      if (returned : bool) then ret tt else try_selectors section rest
  end.

Definition _expand_and_capture_section (section : string) : M unit :=
  try_except
    (perform WaitForLoadState ;;
     perform WaitForTimeout ;;
     try_selectors section (section_selectors section))
    (fun _ => ret tt).

Definition about_selectors : list string :=
  [ "a.org-page-navigation__item-anchor:has-text('About')";
    "a[href*='/about/']:has-text('About')";
    "a[href*='/about']";
    "//a[contains(@href, '/about') and contains(text(), 'About')]";
    "a.ember-view[href*='about']" ].

(** One turn of the loop over [about_selectors]; [Some url] is its [break]. *)
Definition about_link_with (selector : string) : M (option string) :=
  about_element <~
    (if PyStr.startswith "//" selector
     then query_selector_all ("xpath=" +:+ selector)
     else query_selector selector) ;
  if (about_element : bool) then
    about_href <~ get_attribute selector "href" ;
    match about_href with
    | Some (String c r) =>
        ret (Some (if negb (PyStr.startswith "http" (String c r))
                   then "https://www.linkedin.com" +:+ String c r
                   else String c r))
    | _ => ret None
    end
  else ret None.

Fixpoint about_link (selectors : list string) : M (option string) :=
  match selectors with
  | [] => ret None
  | selector :: rest =>
      about_url <~ try_except (about_link_with selector) (fun _ => ret None) ;
      match about_url with
      | Some u => ret (Some u)
      | None => about_link rest
      end
  end.

(** The body of the loop of [scrape_company_about_pages] for the [i]-th URL.
    The [try] around the about page is written in two parts, before and
    after [about_html] is assigned; an exception in either ends it. *)
Definition scrape_company (i : nat) (company_url : string) : M unit :=
  try_except
    (let company_name :=
       if PyStr.contains "/company/" company_url
       then hd "" (PyStr.split_on "/" (nth 1 (PyStr.split_on "/company/" company_url) ""))
       else "unknown_company" in
     let company_pages_dir := Py.join html_pages_dir "company_about_pages" in
     perform (Goto company_url) ;;
     perform WaitForTimeout ;;
     main_company_html <~ content ;
     store ("company_" +:+ pretty i +:+ "_main_html") main_company_html ;;
     when debug_mode
       (write (Py.join company_pages_dir (company_name +:+ "_main.txt")) main_company_html) ;;
     about_url <~ about_link about_selectors ;
     let about_url :=
       match about_url with
       | Some u => Some u
       | None =>
           if PyStr.contains "/company/" company_url
           then Some (PyStr.rstrip_char "/" (hd "" (PyStr.split_on "?" company_url))
                      +:+ "/about/")
           else None
       end in
     about_html <~
       match about_url with
       | Some u =>
           about_html <~
             try_except
               (perform (Goto u) ;;
                perform WaitForTimeout ;;
                about_html <~ content ;
                ret (Some about_html))
               (fun _ => ret None) ;
           match about_html with
           | Some h =>
               try_except
                 (store ("company_" +:+ pretty i +:+ "_about_html") h ;;
                  when debug_mode
                    (write (Py.join company_pages_dir (company_name +:+ "_about.txt")) h))
                 (fun _ => ret tt) ;;
               ret (Some h)
           | None => ret None
           end
       | None => ret None
       end ;
     match about_html with
     | Some (String c r) => store ("company_" +:+ pretty i +:+ "_html") (String c r)
     | _ => store ("company_" +:+ pretty i +:+ "_html") main_company_html
     end ;;
     perform WaitForTimeout)
    (fun _ => ret tt).

(** [for i, company_url in enumerate(company_urls)] from index [i] on. *)
Fixpoint scrape_companies_from (i : nat) (company_urls : list string) : M unit :=
  match company_urls with
  | [] => ret tt
  | company_url :: rest =>
      scrape_company i company_url ;;
      scrape_companies_from (S i) rest
  end.

Definition scrape_company_about_pages : M unit :=
  try_except
    (d <~ stored ;
     fs <~ the_files ;
     let source :=
       if PyDict.mem "experiences_expanded_html" d
       then default "" (PyDict.get "experiences_expanded_html" d)
       else default "" (PyDict.get "profile_html" d) in
     let company_urls :=
       match fst (CurrentCompanies.extract_current_companies parse fs
                    (CurrentCompanies.Str source)) with
       | Py.Ok (CurrentCompanies.UrlSet urls) => elements urls
       | Py.Ok (CurrentCompanies.UrlList urls) => urls
       | Py.Raise _ => []
       end in
     match company_urls with
     | [] => ret tt
     | _ =>
         when debug_mode (perform (MakeDirs (Py.join html_pages_dir "company_about_pages"))) ;;
         scrape_companies_from 0 company_urls
     end)
    (fun _ => ret tt).

(** [scrape_profile(self, profile_url, email, password, scrape_companies)] *)
Definition scrape_profile (profile_url : string) (email password : option string)
    (scrape_companies : bool) : M (bool * list (string * string)) :=
  match credential email "LINKEDIN_EMAIL", credential password "LINKEDIN_PASSWORD" with
  | Some email, Some password =>
      login (Some email) (Some password) ;;
      try_except
        (perform (Goto profile_url) ;;
         perform WaitForTimeout ;;
         profile_html <~ content ;
         store "profile_html" profile_html ;;
         when debug_mode (write (Py.join html_pages_dir "profile_html.txt") profile_html) ;;
         _expand_and_capture_section "experiences" ;;
         _expand_and_capture_section "skills" ;;
         _expand_and_capture_section "education" ;;
         _expand_and_capture_section "languages" ;;
         _expand_and_capture_section "projects" ;;
         _expand_and_capture_section "licenses_and_certifications" ;;
         when scrape_companies scrape_company_about_pages ;;
         perform ContextClose ;;
         perform BrowserClose ;;
         d <~ stored ;
         ret (true, d))
        (fun e => raise e)
  | _, _ =>
      raise (Py.ValueError
        "LinkedIn credentials must be provided either as arguments or through LINKEDIN_EMAIL and LINKEDIN_PASSWORD environment variables")
  end.

(** A run starts with no call made and an empty mapping. *)
Definition start (fs : gmap string Py.entry) : state := State [] [] fs.

End with_world.
End Nav.

(** ** Sample pages

    Small pages, each with the tree [html.parser] builds for it, used to run
    the functions above on concrete input.  [Sample.parse] reads these pages;
    any other text is read as one bare string. *)

Module Sample.

Definition profile_text : string :=
  "<html><head><title>(3) Ada Lovelace | LinkedIn</title></head><body><section class='artdeco-card pv-profile-card'><h2 class='pvs-header__title text-heading-large'>Experience</h2><span>Engineer at Acme</span><a href='/in/ada/details/experience/'>Show all 5 experiences</a></section></body></html>".

Definition profile_tree : Bs.node :=
  Bs.document
    [Bs.Elem "html" []
       [Bs.Elem "head" [] [Bs.Elem "title" [] [Bs.Text "(3) Ada Lovelace | LinkedIn"]];
        Bs.Elem "body" []
          [Bs.Elem "section" [("class", "artdeco-card pv-profile-card")]
             [Bs.Elem "h2" [("class", "pvs-header__title text-heading-large")]
                [Bs.Text "Experience"];
              Bs.Elem "span" [] [Bs.Text "Engineer at Acme"];
              Bs.Elem "a" [("href", "/in/ada/details/experience/")]
                [Bs.Text "Show all 5 experiences"]]]]].

Definition experience_text : string :=
  "<main aria-label='Experience'><ul><li class='pvs-list__paged-list-item'><a href='/company/acme/'>Acme</a><span class='pvs-entity__caption-wrapper'>Jan 2020 - Present</span></li><li class='pvs-list__paged-list-item'><a href='https://www.linkedin.com/company/babbage/'>Babbage</a><span class='pvs-entity__caption-wrapper'>Mar 2015 - Dec 2019</span></li><li class='pvs-list__paged-list-item'><a href='/company/acme/'>Acme</a><span class='pvs-entity__caption-wrapper'>Feb 2021 - Present</span></li></ul></main>".

Definition experience_item (href company caption : string) : Bs.node :=
  Bs.Elem "li" [("class", "pvs-list__paged-list-item")]
    [Bs.Elem "a" [("href", href)] [Bs.Text company];
     Bs.Elem "span" [("class", "pvs-entity__caption-wrapper")] [Bs.Text caption]].

Definition experience_tree : Bs.node :=
  Bs.document
    [Bs.Elem "main" [("aria-label", "Experience")]
       [Bs.Elem "ul" []
          [experience_item "/company/acme/" "Acme" "Jan 2020 - Present";
           experience_item "https://www.linkedin.com/company/babbage/" "Babbage"
             "Mar 2015 - Dec 2019";
           experience_item "/company/acme/" "Acme" "Feb 2021 - Present"]]].

(** A current position at a company that has no company page. *)
Definition freelance_text : string :=
  "<ul><li class='pvs-list__paged-list-item'><span>Freelance</span><span class='pvs-entity__caption-wrapper'>Jan 2020 - Present</span></li></ul>".

Definition freelance_item : Bs.node :=
  Bs.Elem "li" [("class", "pvs-list__paged-list-item")]
    [Bs.Elem "span" [] [Bs.Text "Freelance"];
     Bs.Elem "span" [("class", "pvs-entity__caption-wrapper")] [Bs.Text "Jan 2020 - Present"]].

Definition freelance_tree : Bs.node :=
  Bs.document [Bs.Elem "ul" [] [freelance_item]].

Definition about_dl_text : string :=
  "<dl><dt>Website</dt><dd>example.com</dd><dt>Industry</dt><dd>Software</dd></dl>".

Definition about_dl_tree : Bs.node :=
  Bs.document
    [Bs.Elem "dl" []
       [Bs.Elem "dt" [] [Bs.Text "Website"]; Bs.Elem "dd" [] [Bs.Text "example.com"];
        Bs.Elem "dt" [] [Bs.Text "Industry"]; Bs.Elem "dd" [] [Bs.Text "Software"]]].

Definition about_two_sites_text : string :=
  "<dl><dt>Website</dt><dd>example.com</dd><dt>Careers website</dt><dd>jobs.example.org</dd></dl>".

Definition about_two_sites_tree : Bs.node :=
  Bs.document
    [Bs.Elem "dl" []
       [Bs.Elem "dt" [] [Bs.Text "Website"]; Bs.Elem "dd" [] [Bs.Text "example.com"];
        Bs.Elem "dt" [] [Bs.Text "Careers website"];
        Bs.Elem "dd" [] [Bs.Text "jobs.example.org"]]].

Definition about_section : Bs.node :=
  Bs.Elem "section" [("class", "org-about-module__margin-bottom")]
    [Bs.Elem "h2" [] [Bs.Text "About"];
     Bs.Elem "p" [("class", "description")] [Bs.Text "We build engines."]].

Definition about_heading_text : string :=
  "<section class='org-about-module__margin-bottom'><h2>About</h2><p class='description'>We build engines.</p></section>".

Definition about_heading_tree : Bs.node := Bs.document [about_section].

Definition about_named_text : string :=
  "<h1 class='org-top-card-summary__title'>Acme</h1><section class='org-about-module__margin-bottom'><h2>About</h2><p class='description'>We build engines.</p></section>".

Definition about_named_tree : Bs.node :=
  Bs.document
    [Bs.Elem "h1" [("class", "org-top-card-summary__title")] [Bs.Text "Acme"];
     about_section].

(** A company page with an overview and no name. *)
Definition about_nameless_text : string :=
  "<p class='break-words white-space-pre-wrap'>Makers of difference engines.</p>".

Definition about_nameless_tree : Bs.node :=
  Bs.document
    [Bs.Elem "p" [("class", "break-words white-space-pre-wrap")]
       [Bs.Text "Makers of difference engines."]].

Definition blank_text : string := "<html><body></body></html>".

Definition blank_tree : Bs.node :=
  Bs.document [Bs.Elem "html" [] [Bs.Elem "body" [] []]].

Definition pages : list (string * Bs.node) :=
  [ (profile_text, profile_tree);
    (experience_text, experience_tree);
    (freelance_text, freelance_tree);
    (about_dl_text, about_dl_tree);
    (about_two_sites_text, about_two_sites_tree);
    (about_heading_text, about_heading_tree);
    (about_named_text, about_named_tree);
    (about_nameless_text, about_nameless_tree);
    (blank_text, blank_tree) ].

Fixpoint lookup_page (s : string) (l : list (string * Bs.node)) : option Bs.node :=
  match l with
  | [] => None
  | (text, tree) :: r => if String.eqb text s then Some tree else lookup_page s r
  end.

Definition parse (s : string) : Bs.node :=
  match lookup_page s pages with
  | Some tree => tree
  | None => match s with
            | EmptyString => Bs.document []
            | _ => Bs.document [Bs.Text s]
            end
  end.

(** The mapping the controller hands over after expanding the experience
    section, and the same mapping with an empty expanded document. *)
Definition captured : list (string * string) :=
  [("profile_html", profile_text); ("experiences_expanded_html", experience_text)].

Definition captured_empty : list (string * string) :=
  [("profile_html", profile_text); ("experiences_expanded_html", "")].

(** The mapping after two current companies were visited: the first gave
    a page with a name, the second a page with an overview and no name; a
    third key holds the first page once more. *)
Definition captured_companies : list (string * string) :=
  [ ("profile_html", profile_text);
    ("company_0_main_html", blank_text);
    ("company_0_about_html", about_named_text);
    ("company_0_html", about_named_text);
    ("company_1_main_html", about_nameless_text);
    ("company_1_html", about_nameless_text);
    ("company_2_html", about_named_text) ].

(** A session directory with two saved about-pages and one main page. *)
Definition session_files : gmap string Py.entry :=
  {[ "session/company_about_pages" :=
       Py.Dir ["acme-corp_about.txt"; "acme-corp_main.txt"; "babbage_about.txt"];
     "session/company_about_pages/acme-corp_about.txt" := Py.File blank_text;
     "session/company_about_pages/acme-corp_main.txt" := Py.File blank_text;
     "session/company_about_pages/babbage_about.txt" := Py.File about_named_text ]}.

(** [LinkedInProfileScraper(html_content_dict=d, session_dir=dir)] for a
    mapping [d] whose profile is [profile_text]. *)
Definition assembler (d : list (string * string)) (dir : option string) : ProfileBuilder.t :=
  ProfileBuilder.Build d profile_text profile_tree dir.

(** The experience block of the sample profile. *)
Definition experience_block : Bs.node :=
  Bs.Elem "section" [("class", "artdeco-card pv-profile-card")]
    [Bs.Elem "h2" [("class", "pvs-header__title text-heading-large")]
       [Bs.Text "Experience"];
     Bs.Elem "span" [] [Bs.Text "Engineer at Acme"];
     Bs.Elem "a" [("href", "/in/ada/details/experience/")]
       [Bs.Text "Show all 5 experiences"]].

(** Three worlds for the controller.  In each the login page works and
    leads to the feed, pages read as [blank_text], and no "show all" link or
    "About" link is on any page.  In the first nothing raises; in the second
    loading the profile times out; in the third the click on the login
    button fails. *)
Definition profile_url : string := "https://www.linkedin.com/in/ada/".

Definition calm (raises : list Nav.call -> Nav.call -> option Py.exn) : Nav.world :=
  Nav.World (fun _ => None) raises (fun _ => blank_text)
    (fun _ => "https://www.linkedin.com/feed/") (fun _ _ _ => None) (fun _ _ => false).

Definition no_link (c : Nav.call) : option Py.exn :=
  match c with
  | Nav.WaitForSelector _ => Some (Py.TimeoutError "Timeout 5000ms exceeded.")
  | _ => None
  end.

Definition world_ok : Nav.world := calm (fun _ c => no_link c).

Definition world_profile_timeout : Nav.world :=
  calm (fun _ c =>
          match c with
          | Nav.Goto url =>
              if String.eqb url profile_url
              then Some (Py.TimeoutError "Timeout 45000ms exceeded.")
              else None
          | _ => no_link c
          end).

Definition world_login_fails : Nav.world :=
  calm (fun _ c =>
          match c with
          | Nav.Click _ => Some (Py.TimeoutError "Timeout 30000ms exceeded.")
          | _ => no_link c
          end).

End Sample.

(** ** Notions used to state the properties *)

Module Props.

(** The six multi-item sections of a profile. *)
Inductive section_kind : Type :=
| Experiences | Education | Skills | Languages | Licenses | Projects.

(** The [aria-label]s a section's scraper accepts on [<main>], in the order
    it tries them. *)
Definition anchors (k : section_kind) : list string :=
  match k with
  | Experiences => ["Experience"]
  | Education => ["Education"]
  | Skills => ["Skills"]
  | Languages => ["Languages"; "Language"]
  | Licenses => ["Licenses & certifications"; "Licenses & Certifications"; "Licenses"]
  | Projects => ["Projects"]
  end.

(** The scraper class of a section: its constructor and the method the
    assembler calls. *)
Definition constructor (k : section_kind) :=
  match k with
  | Experiences => ExperienceScraper.init
  | Education => EducationScraper.init
  | Skills => SkillsScraper.init
  | Languages => LanguageScraper.init
  | Licenses => LicenseCertificationScraper.init
  | Projects => ProjectScraper.init
  end.

Definition extractor (k : section_kind) : SectionScraper.t -> list string :=
  match k with
  | Experiences => ExperienceScraper.extract_experience
  | Education => EducationScraper.scrape_education
  | Skills => SkillsScraper.scrape_skills
  | Languages => LanguageScraper.scrape_languages
  | Licenses => LicenseCertificationScraper.extract_licenses_certifications
  | Projects => ProjectScraper.scrape_projects
  end.

(** A section extractor applied to a document given as a file, as text, or
    not at all: build the scraper, then call its method. *)
Definition run_extractor (parse : string -> Bs.node) (fs : gmap string Py.entry)
    (k : section_kind) (html_file html_content : option string) : Py.result (list string) :=
  self ← constructor k parse fs html_file html_content;
  Py.Ok (extractor k self).

(** [n] is the structural anchor of section [k]: a [<main>] whose
    [aria-label] is one of the accepted labels. *)
Definition is_anchor (k : section_kind) (n : Bs.node) : Prop :=
  exists attrs children label,
    n = Bs.Elem "main" attrs children /\ In label (anchors k)
    /\ Bs.assoc "aria-label" attrs = Some label.

Definition lacks_anchor (k : section_kind) (soup : Bs.node) : Prop :=
  forall n, In n (Bs.descendants soup) -> ~ is_anchor k n.

(** [None] or the empty string: what Python's [if x:] rejects. *)
Definition falsy (x : option string) : Prop := x = None \/ x = Some "".

(** The assembler's method for a section, the key of its expanded document
    in the mapping, and its test on a block's heading. *)
Definition assembled (parse : string -> Bs.node) (fs : gmap string Py.entry)
    (k : section_kind) (self : ProfileBuilder.t) : list string :=
  match k with
  | Experiences => ProfileBuilder.extract_experiences parse fs self
  | Education => ProfileBuilder.extract_education parse fs self
  | Skills => ProfileBuilder.extract_skills parse fs self
  | Languages => ProfileBuilder.extract_languages parse fs self
  | Licenses => ProfileBuilder.extract_licenses_certifications parse fs self
  | Projects => ProfileBuilder.extract_projects parse fs self
  end.

Definition expanded_key (k : section_kind) : string :=
  match k with
  | Experiences => "experiences_expanded_html"
  | Education => "education_expanded_html"
  | Skills => "skills_expanded_html"
  | Languages => "languages_expanded_html"
  | Licenses => "licenses_and_certifications_expanded_html"
  | Projects => "projects_expanded_html"
  end.

Definition heading_matches (k : section_kind) (section : Bs.node) : bool :=
  match k with
  | Experiences => ProfileBuilder.header_has "Experience" section
  | Education => ProfileBuilder.header_has "Education" section
  | Skills => ProfileBuilder.header_has "Skills" section
  | Languages => ProfileBuilder.header_has "Languages" section
  | Licenses => ProfileBuilder.header_has "Licenses" section
                || ProfileBuilder.header_has "Certifications" section
  | Projects => ProfileBuilder.header_has "Projects" section
  end.

(** [block] is the section block of [k] in the base profile: the first
    profile card whose heading matches. *)
Definition section_block (k : section_kind) (self : ProfileBuilder.t) (block : Bs.node) : Prop :=
  exists before after,
    ProfileBuilder.all_sections self = before ++ block :: after
    /\ Forall (fun s => heading_matches k s = false) before
    /\ heading_matches k block = true.

(** The block's flattened text carries the truncation marker. *)
Definition truncated (block : Bs.node) : Prop :=
  PyStr.contains "Show all" (ProfileBuilder.full_text_of block) = true.

(** The same assembler with another session directory. *)
Definition with_session_dir (dir : option string) (self : ProfileBuilder.t) : ProfileBuilder.t :=
  ProfileBuilder.Build (ProfileBuilder.html_content_dict self)
    (ProfileBuilder.html_content self) (ProfileBuilder.soup self) dir.

(** The date or caption text of an experience item says "present", in any
    letter case. *)
Definition caption_has_present (item : Bs.node) : bool :=
  match Bs.find (Bs.css "span" ["pvs-entity__caption-wrapper"]) item with
  | Some caption => PyStr.contains "present" (PyStr.lower (Bs.get_text_strip "" caption))
  | None => false
  end.

(** The [href] of the first anchor of [item] that points into "/company/". *)
Definition company_link (item : Bs.node) : option string :=
  match Bs.find (fun n => Bs.name_is "a" n && CurrentCompanies.company_href n) item with
  | Some link => Bs.get "href" link
  | None => None
  end.

(** A relative [href] made absolute. *)
Definition absolute (href : string) : string :=
  if PyStr.startswith "http" href then href else "https://www.linkedin.com" +:+ href.

(** An absolute URL, by the extractor's own test: it starts with "http". *)
Definition is_absolute (url : string) : Prop := PyStr.startswith "http" url = true.

(** De-duplication by company name, keeping the first occurrence. *)
Fixpoint keep_first (l : list About.CompanyInfo) : list About.CompanyInfo :=
  match l with
  | [] => []
  | c :: r =>
      c :: List.filter (fun x => negb (String.eqb (About.name x) (About.name c)))
             (keep_first r)
  end.

(** The records the in-memory company documents yield, key by key, before
    any is dropped. *)
Definition processed (parse : string -> Bs.node) (fs : gmap string Py.entry)
    (self : ProfileBuilder.t) (keys : list string) : list About.CompanyInfo :=
  omap (fun key =>
          match PyDict.get key (ProfileBuilder.html_content_dict self) with
          | Some content => About.process_about_file parse fs content
          | None => None
          end) keys.

(** The about-files of a directory, as full paths. *)
Definition about_files (fs : gmap string Py.entry) (dir : string) : list string :=
  match fs !! dir with
  | Some (Py.Dir names) =>
      map (Py.join dir) (List.filter (PyStr.endswith "_about.txt") names)
  | _ => []
  end.

(** [section] is a labelled block for the overview: its first [h2]/[h3]
    heading says "about" (in any letter case) and its first content block
    reads [value]. *)
Definition about_block (section : Bs.node) (value : string) : Prop :=
  exists heading content,
    Bs.find (Bs.name_in ["h2"; "h3"]) section = Some heading
    /\ PyStr.contains "about" (PyStr.lower (Bs.get_text_strip "" heading)) = true
    /\ Bs.find (fun n => Bs.name_in ["p"; "div"] n
                         && About.class_has_either "description" "text" n) section
       = Some content
    /\ Bs.get_text_strip About.newline content = value.

(** A call that releases what [login] acquired. *)
Definition is_close (c : Nav.call) : bool :=
  match c with
  | Nav.ContextClose | Nav.BrowserClose => true
  | _ => false
  end.

Definition is_launch (c : Nav.call) : bool :=
  match c with Nav.Launch => true | _ => false end.

(** The browser was started during the run; it was closed, or at least its
    context was, during the run. *)
Definition acquired (s : Nav.state) : bool := existsb is_launch (Nav.trace s).

Definition release_attempted (s : Nav.state) : bool := existsb is_close (Nav.trace s).

(** [m] makes no close call: it only adds other calls to the trace. *)
Definition no_close {A} (m : Nav.M A) : Prop :=
  forall s, exists calls,
    Nav.trace (snd (m s)) = Nav.trace s ++ calls
    /\ forallb (fun c => negb (is_close c)) calls = true.

(** From a state with no close call made, [m] either returns with the
    context and the browser closed by its last two calls, or raises with
    still no close call made. *)
Definition closes_iff_returns {A} (m : Nav.M A) : Prop :=
  forall s,
    release_attempted s = false ->
    match m s with
    | (Py.Ok _, s') =>
        exists calls, Nav.trace s' = calls ++ [Nav.ContextClose; Nav.BrowserClose]
    | (Py.Raise _, s') => release_attempted s' = false
    end.

(** The run of [scrape_profile] in a sample world, with credentials given
    and company pages asked for. *)
Definition sample_run (w : Nav.world) : Py.result (bool * list (string * string)) * Nav.state :=
  Nav.scrape_profile w Sample.parse false "" Sample.profile_url
    (Some "ada@example.com") (Some "secret") true (Nav.start ∅).

(** The fixed keys of a profile record; the first three hold scalars, the
    others lists. *)
Definition scalar_keys : list string := ["name"; "headline"; "about"].

Definition list_keys : list string :=
  ["experiences"; "education"; "skills"; "languages"; "licenses-certifications";
   "projects"; "current_companies"].

Definition is_scalar (v : ProfileBuilder.value) : Prop :=
  v = ProfileBuilder.VNone \/ exists s, v = ProfileBuilder.VStr s.

Definition is_list (v : ProfileBuilder.value) : Prop :=
  exists items, v = ProfileBuilder.VList items.

(** [d.get(k)] on a profile record. *)
Fixpoint field (k : string) (d : list (string * ProfileBuilder.value))
    : option ProfileBuilder.value :=
  match d with
  | [] => None
  | (k', v) :: r => if String.eqb k' k then Some v else field k r
  end.

End Props.

(** ** Notions for the section methods of the assembler *)

Module Shape.

(** [extract_experiences] and [extract_education] go on after a block they
    could not expand; the four other methods return at the first block whose
    heading matches. *)
Definition collects_all (k : Props.section_kind) : bool :=
  match k with
  | Props.Experiences | Props.Education => true
  | _ => false
  end.

(** The name of the expanded document of [k] in a session directory. *)
Definition expanded_file (k : Props.section_kind) : string :=
  Props.expanded_key k +:+ ".txt".

(** What the [try] block of the method of [k] returns. *)
Definition expansion (parse : string -> Bs.node) (fs : gmap string Py.entry)
    (k : Props.section_kind) (self : ProfileBuilder.t) : option (list string) :=
  ProfileBuilder.expanded fs self (Props.expanded_key k) (expanded_file k)
    (Props.constructor k parse fs) (Props.extractor k).

(** The profile cards whose heading matches [k], in document order, and
    their flattened texts. *)
Definition blocks (k : Props.section_kind) (self : ProfileBuilder.t) : list Bs.node :=
  List.filter (Props.heading_matches k) (ProfileBuilder.all_sections self).

Definition inline (k : Props.section_kind) (self : ProfileBuilder.t) : list string :=
  map ProfileBuilder.full_text_of (blocks k self).

Definition says_show_all (block : Bs.node) : bool :=
  PyStr.contains "Show all" (ProfileBuilder.full_text_of block).

(** The loop of the method of [k]. *)
Definition loop (parse : string -> Bs.node) (fs : gmap string Py.entry)
    (k : Props.section_kind) (self : ProfileBuilder.t)
    : list Bs.node -> list string -> list string :=
  match k with
  | Props.Experiences => ProfileBuilder.experiences_loop parse fs self
  | Props.Education => ProfileBuilder.education_loop parse fs self
  | Props.Skills => ProfileBuilder.skills_loop parse fs self
  | Props.Languages => ProfileBuilder.languages_loop parse fs self
  | Props.Licenses => ProfileBuilder.licenses_loop parse fs self
  | Props.Projects => ProfileBuilder.projects_loop parse fs self
  end.

(** The result of the method of [k] read off its blocks: the expanded
    items when a block that says "Show all" is reached and the [try] block
    returns, the inline texts otherwise. *)
Definition outcome (k : Props.section_kind) (self : ProfileBuilder.t)
    (expansion : option (list string)) : list string :=
  if collects_all k
  then
    match expansion with
    | Some items => if existsb says_show_all (blocks k self) then items else inline k self
    | None => inline k self
    end
  else
    match blocks k self with
    | [] => []
    | block :: _ =>
        match expansion with
        | Some items =>
            if says_show_all block then items else [ProfileBuilder.full_text_of block]
        | None => [ProfileBuilder.full_text_of block]
        end
    end.

End Shape.

(** ** Notions for labels and selectors that find nothing *)

Module Anchor.

(** No [<main>] of [soup] carries one of the labels [labels]. *)
Definition unlabelled (soup : Bs.node) (labels : list string) : Prop :=
  Forall (fun label => SectionScraper.find_main label soup = None) labels.

(** No selector of [selectors] matches anything in [soup]. *)
Definition unmatched (soup : Bs.node) (selectors : list (string * list string)) : Prop :=
  Forall (fun '(tag, cls) => Bs.find (Bs.css tag cls) soup = None) selectors.

End Anchor.

(** ** Notions for texts and sample profiles *)

Module Text.

(** Every character of [s] satisfies [p]. *)
Fixpoint all (p : ascii -> bool) (s : string) : bool :=
  match s with
  | EmptyString => true
  | String c r => p c && all p r
  end.

(** [s] neither starts nor ends with white space: [s.strip() == s]. *)
Definition stripped (s : string) : Prop := PyStr.strip s = s.

End Text.

Module Cases.

(** A profile card with a heading and one line of text. *)
Definition card (heading line : string) : Bs.node :=
  Bs.Elem "section" [("class", "artdeco-card pv-profile-card")]
    [Bs.Elem "h2" [("class", "pvs-header__title text-heading-large")] [Bs.Text heading];
     Bs.Elem "span" [] [Bs.Text line]].

(** A profile whose cards are all complete: two on education, one on
    skills. *)
Definition complete_text : string :=
  "<html><body><section class='artdeco-card pv-profile-card'><h2 class='pvs-header__title text-heading-large'>Education</h2><span>Cambridge</span></section><section class='artdeco-card pv-profile-card'><h2 class='pvs-header__title text-heading-large'>Skills</h2><span>Analysis</span></section><section class='artdeco-card pv-profile-card'><h2 class='pvs-header__title text-heading-large'>Continuing Education</h2><span>Turin</span></section></body></html>".

Definition complete_tree : Bs.node :=
  Bs.document
    [Bs.Elem "html" []
       [Bs.Elem "body" []
          [card "Education" "Cambridge"; card "Skills" "Analysis";
           card "Continuing Education" "Turin"]]].

(** The assembler for that profile, with an expanded education page in the
    mapping. *)
Definition complete : ProfileBuilder.t :=
  ProfileBuilder.Build
    [("profile_html", complete_text); ("education_expanded_html", Sample.experience_text)]
    complete_text complete_tree None.

End Cases.

(** ** about_scraper.py: the files of a directory *)

Module AboutDirectory.

(** The loop of [process_all_about_files]; [all_companies] is the list
    built so far. *)
Fixpoint about_loop (parse : string -> Bs.node) (fs : gmap string Py.entry)
    (about_files : list string) (all_companies : list About.CompanyInfo)
    : list About.CompanyInfo :=
  match about_files with
  | [] => all_companies
  | file_path :: rest =>
      match About.process_about_file parse fs file_path with
      | Some company_info => about_loop parse fs rest (all_companies ++ [company_info])
      | None => about_loop parse fs rest all_companies
      end
  end.

(** [process_all_about_files(directory)] *)
Definition process_all_about_files (parse : string -> Bs.node) (fs : gmap string Py.entry)
    (directory : string) : list About.CompanyInfo :=
  about_loop parse fs (ProfileBuilder.glob_about fs directory) [].

(** [path] is a file with some text in it. *)
Definition readable (fs : gmap string Py.entry) (path : string) : bool :=
  match fs !! path with
  | Some (Py.File (String _ _)) => true
  | _ => false
  end.

End AboutDirectory.

(** ** Notions for the controller's mapping of captured documents *)

Module Frame.

(** The sections [scrape_profile] expands, in its order. *)
Definition sections : list string :=
  ["experiences"; "skills"; "education"; "languages"; "projects";
   "licenses_and_certifications"].

(** The keys the controller writes: the profile, one expanded document per
    section, and three documents per company visited. *)
Definition section_key (k : string) : Prop :=
  exists section, In section sections /\ k = section +:+ "_expanded_html".

Definition company_key (k : string) : Prop :=
  exists i : nat,
    k = "company_" +:+ pretty i +:+ "_main_html"
    \/ k = "company_" +:+ pretty i +:+ "_about_html"
    \/ k = "company_" +:+ pretty i +:+ "_html".

Definition document_key (k : string) : Prop :=
  k = "profile_html" \/ section_key k \/ company_key k.

(** Relations between the state before and the state after a computation:
    no key of the mapping is lost; the keys outside [K] keep their
    documents; every new key is in [K]; the trace only grows. *)
Definition keeps_keys (s s' : Nav.state) : Prop :=
  forall k, PyDict.mem k (Nav.html_content s) = true ->
            PyDict.mem k (Nav.html_content s') = true.

Definition same_outside (K : string -> Prop) (s s' : Nav.state) : Prop :=
  forall k, ~ K k ->
            PyDict.get k (Nav.html_content s') = PyDict.get k (Nav.html_content s).

Definition adds_only (K : string -> Prop) (s s' : Nav.state) : Prop :=
  forall k, PyDict.mem k (Nav.html_content s') = true ->
            PyDict.mem k (Nav.html_content s) = true \/ K k.

Definition extends (s s' : Nav.state) : Prop :=
  exists calls, Nav.trace s' = Nav.trace s ++ calls.

(** A call that is not a navigation, or a navigation to an absolute
    address (one that starts with "http"); and a run that makes such calls
    only. *)
Definition absolute_goto (c : Nav.call) : bool :=
  match c with
  | Nav.Goto url => PyStr.startswith "http" url
  | _ => true
  end.

Definition navigates_absolutely (s s' : Nav.state) : Prop :=
  exists calls,
    Nav.trace s' = Nav.trace s ++ calls /\ forallb absolute_goto calls = true.

(** A relation that holds across every basic step of the controller: a call
    to the browser, an assignment to the mapping under a key of [K], a file
    written. *)
Record invariant (R : Nav.state -> Nav.state -> Prop) (K : string -> Prop) : Prop :=
  Invariant {
    inv_refl : forall s, R s s;
    inv_trans : forall s1 s2 s3, R s1 s2 -> R s2 s3 -> R s1 s3;
    inv_call : forall s c,
      R s (Nav.State (Nav.trace s ++ [c]) (Nav.html_content s) (Nav.files s));
    inv_store : forall s k v, K k ->
      R s (Nav.State (Nav.trace s) (PyDict.set k v (Nav.html_content s)) (Nav.files s));
    inv_file : forall s p e,
      R s (Nav.State (Nav.trace s) (Nav.html_content s) (<[p := e]> (Nav.files s)))
  }.

(** What visiting the [i]-th company leaves under "company_<i>_html": what
    was there before, or a copy of the main page, or a copy of a non-empty
    about page; [s] is the state before the visit and [s'] the state
    after. *)
Definition resolved (i : nat) (s s' : Nav.state) : Prop :=
  let document key :=
    PyDict.get ("company_" +:+ pretty i +:+ key) (Nav.html_content s') in
  document "_html" = PyDict.get ("company_" +:+ pretty i +:+ "_html") (Nav.html_content s)
  \/ (exists page, document "_main_html" = Some page /\ document "_html" = Some page)
  \/ (exists page, page <> "" /\ document "_about_html" = Some page
                   /\ document "_html" = Some page).

(** [R] holds between the state [m] starts in and the state it ends in,
    whether it returns or raises. *)
Definition stable (R : Nav.state -> Nav.state -> Prop) {A} (m : Nav.M A) : Prop :=
  forall s, R s (snd (m s)).

End Frame.

(** ** main.py: the pipeline *)

Module Main.

Section with_world.

(** The browser and the operating system, the HTML parser, and the
    directory of the package. *)
Context (w : Nav.world) (parse : string -> Bs.node) (package_dir : string).

(** [LinkedinProfileScraper(debug_mode=debug_mode)], the [__init__] of
    profile_scraper.py: in debug mode the directory [html_pages] of the
    package is created. *)
Definition html_pages_dir : string := Py.join package_dir "html_pages".

Definition scraper_init (debug_mode : bool) : Nav.M unit :=
  Nav.when debug_mode (Nav.perform w (Nav.MakeDirs html_pages_dir)).

(** The controller's part of [scrape_linkedin_profile]: a new controller,
    then [scraper.scrape_profile(profile_url, email=email, password=password)],
    from the files [fs]. *)
Definition navigation (profile_url : string) (email password : option string)
    (debug_mode : bool) (fs : gmap string Py.entry)
    : Py.result (bool * list (string * string)) * Nav.state :=
  Nav.bind (scraper_init debug_mode)
    (fun _ => Nav.scrape_profile w parse debug_mode html_pages_dir profile_url
                email password true)
    (Nav.start fs).

(** [scrape_linkedin_profile(profile_url, email, password, debug_mode)];
    [None] is Python's [None]. *)
Definition scrape_linkedin_profile (profile_url : string) (email password : option string)
    (debug_mode : bool) (fs : gmap string Py.entry)
    : option (list (string * ProfileBuilder.value)) * Nav.state :=
  match navigation profile_url email password debug_mode fs with
  | (Py.Ok (success, html_content), s) =>
      if success then
        match ProfileBuilder.init parse (Nav.files s) None None None (Some html_content) with
        | Py.Ok profile_builder =>
            (Some (ProfileBuilder.scrape_profile parse (Nav.files s) package_dir
                     profile_builder), s)
        | Py.Raise _ => (None, s)
        end
      else (None, s)
  | (Py.Raise _, s) => (None, s)
  end.

(** [save_profile_to_json(profile_url, output_file, email, password,
    debug_mode)]; [dumps] is [json.dumps(_, indent=2, ensure_ascii=False)]. *)
Definition save_profile_to_json (dumps : list (string * ProfileBuilder.value) -> string)
    (profile_url output_file : string) (email password : option string)
    (debug_mode : bool) (fs : gmap string Py.entry) : bool * Nav.state :=
  match scrape_linkedin_profile profile_url email password debug_mode fs with
  | (Some (entry :: entries), s) =>
      match Nav.write w output_file (dumps (entry :: entries)) s with
      | (Py.Ok _, s') => (true, s')
      | (Py.Raise _, s') => (false, s')
      end
  | (_, s) => (false, s)
  end.

End with_world.
End Main.

(** * Properties *)

(** ** The string methods on examples *)

Example strip_ex : PyStr.strip "   Jan 2020 - Present  " = "Jan 2020 - Present".
Proof. reflexivity. Qed.

Example lower_ex : PyStr.lower "Jan 2020 - Present" = "jan 2020 - present".
Proof. reflexivity. Qed.

Example contains_ex :
  PyStr.contains "present" "jan 2020 - present" = true
  /\ PyStr.contains "present" "jan 2020 - dec 2021" = false.
Proof. split; reflexivity. Qed.

Example endswith_ex :
  PyStr.endswith "_html" "company_0_html" = true
  /\ PyStr.endswith "_main_html" "company_0_html" = false
  /\ PyStr.endswith "_about_html" "company_0_about_html" = true.
Proof. repeat split. Qed.

Example replace_ex :
  PyStr.replace " | LinkedIn" "" "(3) Ada Lovelace | LinkedIn" = "(3) Ada Lovelace"
  /\ PyStr.replace "-" " " "acme-corp" = "acme corp"
  /\ PyStr.replace "aa" "b" "aaa" = "ba".
Proof. repeat split. Qed.

Example split_ex :
  PyStr.split "  display-flex  ph5 pv3 " = ["display-flex"; "ph5"; "pv3"]
  /\ PyStr.split_on "_" "acme-corp_about.txt" = ["acme-corp"; "about.txt"]
  /\ PyStr.split_on "/company/" "https://www.linkedin.com/company/acme/about/"
     = ["https://www.linkedin.com"; "acme/about/"].
Proof. repeat split. Qed.

Example title_ex :
  PyStr.title "acme corp" = "Acme Corp" /\ PyStr.title "o'neil 3m-labs" = "O'Neil 3M-Labs".
Proof. split; reflexivity. Qed.

Example basename_ex :
  Py.basename "session/company_about_pages/acme-corp_about.txt" = "acme-corp_about.txt"
  /\ Py.join "session" "company_about_pages" = "session/company_about_pages".
Proof. split; reflexivity. Qed.

(** ** Searching a tree *)

Lemma head_filter_None {A} (f : A -> bool) (l : list A) :
  Forall (fun x => f x = false) l -> head (List.filter f l) = None.
Proof.
  induction 1 as [|x l Hx _ IH]; simpl; [reflexivity|].
  rewrite Hx. exact IH.
Qed.

Lemma find_None (p : Bs.node -> bool) (n : Bs.node) :
  (forall d, In d (Bs.descendants n) -> Bs.is_tag d && p d = false) ->
  Bs.find p n = None.
Proof.
  intros H. unfold Bs.find, Bs.find_all.
  apply head_filter_None. apply List.Forall_forall. exact H.
Qed.

Lemma name_is_true (t : string) (n : Bs.node) :
  Bs.name_is t n = true -> exists attrs children, n = Bs.Elem t attrs children.
Proof.
  destruct n as [s|s|t' attrs children]; simpl; try discriminate.
  intros H. apply String.eqb_eq in H. subst t'. eauto.
Qed.

Lemma attr_is_true (name value : string) (n : Bs.node) :
  Bs.attr_is name value n = true -> Bs.get name n = Some value.
Proof.
  unfold Bs.attr_is. destruct (Bs.get name n) as [v|]; [|discriminate].
  intros H. apply String.eqb_eq in H. now subst.
Qed.

(** ** The section scrapers *)

Lemma find_main_lacking (k : Props.section_kind) (label : string) (soup : Bs.node) :
  Props.lacks_anchor k soup -> In label (Props.anchors k) ->
  SectionScraper.find_main label soup = None.
Proof.
  intros Hlack Hin. apply find_None. intros d Hd.
  destruct (Bs.is_tag d) eqn:Htag; [simpl|reflexivity].
  destruct (Bs.name_is "main" d) eqn:Hname; [simpl|reflexivity].
  destruct (Bs.attr_is "aria-label" label d) eqn:Hattr; [exfalso|reflexivity].
  apply name_is_true in Hname. destruct Hname as (attrs & children & ->).
  apply attr_is_true in Hattr. simpl in Hattr.
  apply (Hlack _ Hd). exists attrs, children, label. auto.
Qed.

Lemma extractor_lacking (k : Props.section_kind) (self : SectionScraper.t) :
  Props.lacks_anchor k (SectionScraper.soup self) -> Props.extractor k self = [].
Proof.
  intros Hlack.
  pose proof (fun l => find_main_lacking k l _ Hlack) as Hnone.
  destruct k; simpl in Hnone |- *;
    unfold ExperienceScraper.extract_experience, EducationScraper.scrape_education,
      EducationScraper.extract_education, SkillsScraper.scrape_skills,
      SkillsScraper.extract_skills, LanguageScraper.scrape_languages,
      LanguageScraper.extract_languages,
      LicenseCertificationScraper.extract_licenses_certifications,
      ProjectScraper.scrape_projects, ProjectScraper.extract_projects;
    repeat (rewrite Hnone by (simpl; tauto)); reflexivity.
Qed.

(** C2, as amended.  The extraction method of each of the six section
    scrapers is total with an empty default: on a document that lacks the
    section's anchor it returns the empty list.  Building the scraper is what
    can fail, and nothing in the scraper catches it: given non-empty text it
    succeeds; given no text but a file name it succeeds or raises as reading
    the file does; given neither (a missing or empty document) it raises
    [ValueError]. *)
Theorem section_extractor_contract (k : Props.section_kind)
    (parse : string -> Bs.node) (fs : gmap string Py.entry) :
  (forall self, Props.lacks_anchor k (SectionScraper.soup self) ->
                Props.extractor k self = [])
  /\ (forall html_file c r,
        Props.run_extractor parse fs k html_file (Some (String c r))
        = Py.Ok (Props.extractor k (SectionScraper.Build (String c r) (parse (String c r)))))
  /\ (forall html_content c r,
        Props.falsy html_content ->
        Props.run_extractor parse fs k (Some (String c r)) html_content
        = content ← Py.read fs (String c r);
          Py.Ok (Props.extractor k (SectionScraper.Build content (parse content))))
  /\ (forall html_file html_content,
        Props.falsy html_file -> Props.falsy html_content ->
        Props.run_extractor parse fs k html_file html_content
        = Py.Raise (Py.ValueError "Either html_file or html_content must be provided")).
Proof.
  split; [exact (extractor_lacking k)|].
  split; [intros; destruct k; reflexivity|].
  split.
  - intros html_content c r [-> | ->]; destruct k; cbn;
      destruct (Py.read fs (String c r)); reflexivity.
  - intros html_file html_content [-> | ->] [-> | ->]; destruct k; reflexivity.
Qed.

(** The contract on the sample pages: the profile page has no [<main>], so
    the skills scraper returns nothing for it; an absent file raises. *)
Lemma section_extractor_contract_witness :
  Props.extractor Props.Skills
    (SectionScraper.Build Sample.profile_text Sample.profile_tree) = []
  /\ Props.run_extractor Sample.parse ∅ Props.Experiences None (Some Sample.experience_text)
     = Py.Ok ["Acme | Jan 2020 - Present | Babbage | Mar 2015 - Dec 2019 | Acme | Feb 2021 - Present"]
  /\ Props.run_extractor Sample.parse ∅ Props.Projects (Some "missing.txt") None
     = Py.Raise (Py.OSError "No such file or directory: missing.txt").
Proof.
  destruct (section_extractor_contract Props.Skills Sample.parse ∅) as (H1 & _).
  destruct (section_extractor_contract Props.Experiences Sample.parse ∅) as (_ & H2 & _).
  destruct (section_extractor_contract Props.Projects Sample.parse ∅) as (_ & _ & H3 & _).
  split; [|split].
  - apply H1. intros n Hn (attrs & children & label & -> & Hl & Ha).
    simpl in Hn. decompose [or] Hn; try discriminate; assumption.
  - unfold Sample.experience_text. rewrite H2. vm_compute. reflexivity.
  - rewrite H3 by (left; reflexivity). vm_compute. reflexivity.
Defined.

(** C2, as stated, fails: a scraper given an empty document and no file
    raises [ValueError] instead of returning the empty list, and one given
    the name of an absent file raises the error of [open]. *)
Lemma section_extractor_raises :
  Props.run_extractor Sample.parse ∅ Props.Skills None (Some "")
  = Py.Raise (Py.ValueError "Either html_file or html_content must be provided")
  /\ Props.run_extractor Sample.parse ∅ Props.Skills None (Some "") <> Py.Ok []
  /\ Props.run_extractor Sample.parse ∅ Props.Experiences (Some "missing.txt") None
     = Py.Raise (Py.OSError "No such file or directory: missing.txt").
Proof. split; [reflexivity|split; [discriminate|reflexivity]]. Qed.

(** ** The assembler: expanded sections *)

Lemma dict_get_mem (key value : string) (d : list (string * string)) :
  PyDict.get key d = Some value -> PyDict.mem key d = true /\ PyDict.truthy d = true.
Proof.
  intros H. unfold PyDict.mem. rewrite H. split; [reflexivity|].
  destruct d; [discriminate|reflexivity].
Qed.

(** With a non-empty document under [key], the [try] block returns what the
    scraper extracts from it; the session directory is not looked at. *)
Lemma expanded_in_memory (parse : string -> Bs.node) (fs : gmap string Py.entry)
    (self : ProfileBuilder.t) (key file_name : string)
    (run : SectionScraper.t -> list string) (c : ascii) (r : string) :
  PyDict.get key (ProfileBuilder.html_content_dict self) = Some (String c r) ->
  ProfileBuilder.expanded fs self key file_name (SectionScraper.init parse fs) run
  = Some (run (SectionScraper.Build (String c r) (parse (String c r)))).
Proof.
  intros H. unfold ProfileBuilder.expanded.
  destruct (dict_get_mem _ _ _ H) as [-> ->]. rewrite H. reflexivity.
Qed.

(** With an empty document under [key], the constructor raises, the handler
    swallows it, and the block falls through. *)
Lemma expanded_empty (parse : string -> Bs.node) (fs : gmap string Py.entry)
    (self : ProfileBuilder.t) (key file_name : string)
    (run : SectionScraper.t -> list string) :
  PyDict.get key (ProfileBuilder.html_content_dict self) = Some "" ->
  ProfileBuilder.expanded fs self key file_name (SectionScraper.init parse fs) run = None.
Proof.
  intros H. unfold ProfileBuilder.expanded.
  destruct (dict_get_mem _ _ _ H) as [-> ->]. rewrite H. reflexivity.
Qed.

Ltac loop_to_block loop :=
  let x := fresh "x" in
  let before := fresh "before" in
  let Hx := fresh "Hx" in
  let IH := fresh "IH" in
  intros Hbefore Hblock Htrunc Hget;
  induction Hbefore as [|x before Hx _ IH]; intros acc; simpl;
  [ simpl in Hblock; rewrite ?Hblock; unfold Props.truncated in Htrunc; rewrite Htrunc;
    erewrite expanded_in_memory by exact Hget; reflexivity
  | simpl in Hx; rewrite ?Hx; apply IH ].

Lemma assembled_expanded (parse : string -> Bs.node) (fs : gmap string Py.entry)
    (k : Props.section_kind) (self : ProfileBuilder.t) (block : Bs.node)
    (c : ascii) (r : string) :
  Props.section_block k self block ->
  Props.truncated block ->
  PyDict.get (Props.expanded_key k) (ProfileBuilder.html_content_dict self) = Some (String c r) ->
  Props.assembled parse fs k self
  = Props.extractor k (SectionScraper.Build (String c r) (parse (String c r))).
Proof.
  intros (before & after & Hall & Hbefore & Hblock) Htrunc Hget.
  destruct k; simpl in *;
    unfold ProfileBuilder.extract_experiences, ProfileBuilder.extract_education,
      ProfileBuilder.extract_skills, ProfileBuilder.extract_languages,
      ProfileBuilder.extract_licenses_certifications, ProfileBuilder.extract_projects;
    rewrite Hall; clear Hall; generalize (@nil string);
    revert Hbefore Hblock Htrunc Hget.
  - loop_to_block ProfileBuilder.experiences_loop.
  - loop_to_block ProfileBuilder.education_loop.
  - loop_to_block ProfileBuilder.skills_loop.
  - loop_to_block ProfileBuilder.languages_loop.
  - loop_to_block ProfileBuilder.licenses_loop.
  - loop_to_block ProfileBuilder.projects_loop.
Qed.

(** C1, as amended.  When the section block of the base profile says
    "Show all" and the mapping holds a non-empty document under the
    section's "<section>_expanded_html" key, the assembled result is the
    section scraper's output on that document, not the inline text; and it
    is the same whatever the session directory and the files in it: the
    in-memory document is the one used. *)
Theorem expanded_document_replaces_inline (parse : string -> Bs.node)
    (fs : gmap string Py.entry) (k : Props.section_kind) (self : ProfileBuilder.t)
    (block : Bs.node) (c : ascii) (r : string) :
  Props.section_block k self block ->
  Props.truncated block ->
  PyDict.get (Props.expanded_key k) (ProfileBuilder.html_content_dict self) = Some (String c r) ->
  Props.assembled parse fs k self
  = Props.extractor k (SectionScraper.Build (String c r) (parse (String c r)))
  /\ forall fs' dir,
       Props.assembled parse fs' k (Props.with_session_dir dir self)
       = Props.assembled parse fs k self.
Proof.
  intros Hblock Htrunc Hget. split.
  - eapply assembled_expanded; eassumption.
  - intros fs' dir.
    rewrite (assembled_expanded parse fs k self block c r) by assumption.
    apply (assembled_expanded parse fs' k _ block c r); assumption.
Qed.

Lemma sample_experience_block (d : list (string * string)) (dir : option string) :
  Props.section_block Props.Experiences (Sample.assembler d dir) Sample.experience_block.
Proof.
  exists [], []. split; [reflexivity|]. split; [constructor|reflexivity].
Qed.

(** The sample profile with its expanded experience page, and a session
    directory holding another file of the same name: the experiences are
    those of the in-memory page. *)
Lemma expanded_document_replaces_inline_witness :
  Props.assembled Sample.parse
    {[ "session/experiences_expanded_html.txt" := Py.File Sample.blank_text ]}
    Props.Experiences (Sample.assembler Sample.captured (Some "session"))
  = ["Acme | Jan 2020 - Present | Babbage | Mar 2015 - Dec 2019 | Acme | Feb 2021 - Present"].
Proof.
  unfold Sample.captured, Sample.experience_text.
  refine (eq_trans (proj1 (expanded_document_replaces_inline Sample.parse _
            Props.Experiences _ Sample.experience_block _ _ _ _ _)) _).
  - apply sample_experience_block.
  - reflexivity.
  - reflexivity.
  - vm_compute. reflexivity.
Defined.

(** C1, as stated, fails: with an empty document under
    "experiences_expanded_html" the block says "Show all" and the key is in
    the mapping, yet the assembled experiences are the inline text, while
    the experience scraper has no output on that document. *)
Lemma expanded_empty_document_keeps_inline :
  let self := Sample.assembler Sample.captured_empty None in
  ProfileBuilder.init Sample.parse ∅ None None None (Some Sample.captured_empty) = Py.Ok self
  /\ Props.section_block Props.Experiences self Sample.experience_block
  /\ Props.truncated Sample.experience_block
  /\ PyDict.get (Props.expanded_key Props.Experiences)
       (ProfileBuilder.html_content_dict self) = Some ""
  /\ Props.assembled Sample.parse ∅ Props.Experiences self
     = [ProfileBuilder.full_text_of Sample.experience_block]
  /\ Py.Ok (Props.assembled Sample.parse ∅ Props.Experiences self)
     <> Props.run_extractor Sample.parse ∅ Props.Experiences None (Some "").
Proof.
  cbv zeta. split; [vm_compute; reflexivity|].
  split; [apply sample_experience_block|].
  split; [reflexivity|]. split; [reflexivity|].
  split; [vm_compute; reflexivity|discriminate].
Qed.

(** ** The company-link extractor *)

Lemma head_filter_Some {A} (f : A -> bool) (l : list A) (x : A) :
  head (List.filter f l) = Some x -> In x l /\ f x = true.
Proof.
  intros H. apply List.filter_In.
  destruct (List.filter f l) as [|y l']; [discriminate|].
  injection H as ->. left. reflexivity.
Qed.

Lemma find_Some (p : Bs.node -> bool) (n x : Bs.node) :
  Bs.find p n = Some x -> In x (Bs.descendants n) /\ p x = true.
Proof.
  intros H. apply head_filter_Some in H. destruct H as [Hin Hp].
  apply andb_prop in Hp. tauto.
Qed.

Lemma company_link_truthy (item : Bs.node) (href : string) :
  Props.company_link item = Some href -> PyStr.truthy href = true.
Proof.
  unfold Props.company_link.
  destruct (Bs.find _ item) as [link|] eqn:Hfind; [|discriminate].
  intros Hget. apply find_Some in Hfind. destruct Hfind as [_ Hp].
  apply andb_prop in Hp. destruct Hp as [_ Hp].
  unfold CurrentCompanies.company_href in Hp. rewrite Hget in Hp.
  apply andb_prop in Hp. tauto.
Qed.

(** What one experience item adds: its company link made absolute, if its
    caption says "present" and it has such a link. *)
Lemma item_url_spec (item : Bs.node) :
  CurrentCompanies.item_url item
  = if Props.caption_has_present item
    then Props.absolute <$> Props.company_link item
    else None.
Proof.
  unfold CurrentCompanies.item_url, Props.caption_has_present.
  destruct (Bs.find (Bs.css "span" ["pvs-entity__caption-wrapper"]) item) as [cap|];
    [|reflexivity].
  destruct (PyStr.contains "present" _); [simpl|reflexivity].
  pose proof (company_link_truthy item) as Htruthy.
  unfold Props.company_link in *.
  destruct (Bs.find _ item) as [link|]; [|reflexivity].
  destruct (Bs.get "href" link) as [url|]; [|reflexivity].
  rewrite (Htruthy url eq_refl). simpl. unfold Props.absolute.
  destruct (PyStr.startswith "http" url); reflexivity.
Qed.

Lemma collect_spec (items : list Bs.node) (company_urls : list string) :
  CurrentCompanies.collect items company_urls
  = company_urls ++ omap CurrentCompanies.item_url items.
Proof.
  revert company_urls. induction items as [|item rest IH]; intros acc; simpl.
  - now rewrite app_nil_r.
  - destruct (CurrentCompanies.item_url item) as [url|]; rewrite IH; [|reflexivity].
    now rewrite <- app_assoc.
Qed.

Lemma absolute_is_absolute (href : string) : Props.is_absolute (Props.absolute href).
Proof.
  unfold Props.is_absolute, Props.absolute.
  destruct (PyStr.startswith "http" href) eqn:H; [exact H|reflexivity].
Qed.

Lemma item_url_iff (item : Bs.node) (url : string) :
  CurrentCompanies.item_url item = Some url <->
  Props.caption_has_present item = true
  /\ exists href, Props.company_link item = Some href /\ url = Props.absolute href.
Proof.
  rewrite item_url_spec. destruct (Props.caption_has_present item).
  - destruct (Props.company_link item) as [href|]; simpl; split.
    + intros [= <-]. eauto.
    + intros (_ & href' & [= <-] & ->). reflexivity.
    + discriminate.
    + intros (_ & href' & [=] & _).
  - split; [discriminate|]. intros [[=] _].
Qed.

(** C3, as amended.  On the text it loads, the company-link extractor
    returns the set that holds a URL for exactly those list items whose
    caption says "present" (in any letter case) and that contain an anchor
    whose [href] contains "/company/": the [href] of the first such anchor,
    prefixed with "https://www.linkedin.com" unless it starts with "http".
    Items without "present" in their caption add nothing, and neither do
    items without such an anchor. *)
Theorem current_company_urls (parse : string -> Bs.node) (fs : gmap string Py.entry)
    (html_source : CurrentCompanies.arg) (html : string) :
  CurrentCompanies.load fs html_source = Py.Ok html ->
  exists urls : gset string,
    CurrentCompanies.extract_current_companies parse fs html_source
    = (Py.Ok (CurrentCompanies.UrlSet urls), [])
    /\ forall url,
         url ∈ urls <->
         exists item,
           In item (CurrentCompanies.experience_items (parse html))
           /\ Props.caption_has_present item = true
           /\ exists href, Props.company_link item = Some href /\ url = Props.absolute href.
Proof.
  intros Hload.
  exists (list_to_set (CurrentCompanies.collect
                         (CurrentCompanies.experience_items (parse html)) [])).
  split.
  - unfold CurrentCompanies.extract_current_companies, CurrentCompanies.body.
    rewrite Hload. reflexivity.
  - intros url. rewrite elem_of_list_to_set, collect_spec, app_nil_l, list_elem_of_omap.
    split.
    + intros (item & Hin & Hurl). exists item.
      apply list_elem_of_In in Hin. apply item_url_iff in Hurl. tauto.
    + intros (item & Hin & Hcap & Hlink). exists item.
      apply list_elem_of_In in Hin. split; [exact Hin|].
      apply item_url_iff. tauto.
Qed.

(** The sample experience page: the current position at Acme yields its
    company URL, made absolute. *)
Lemma current_company_urls_witness :
  exists urls : gset string,
    CurrentCompanies.extract_current_companies Sample.parse ∅
      (CurrentCompanies.Str Sample.experience_text)
    = (Py.Ok (CurrentCompanies.UrlSet urls), [])
    /\ "https://www.linkedin.com/company/acme/" ∈ urls
    /\ "https://www.linkedin.com/company/babbage/" ∉ urls.
Proof.
  destruct (current_company_urls Sample.parse ∅
              (CurrentCompanies.Str Sample.experience_text) Sample.experience_text)
    as (urls & Hrun & Hiff); [reflexivity|].
  exists urls. split; [exact Hrun|]. split.
  - apply Hiff.
    exists (Sample.experience_item "/company/acme/" "Acme" "Jan 2020 - Present").
    split; [vm_compute; tauto|]. split; [reflexivity|].
    exists "/company/acme/". split; reflexivity.
  - intros Hin. apply Hiff in Hin.
    destruct Hin as (item & Hitem & Hcap & href & Hlink & Hurl).
    vm_compute in Hitem. destruct Hitem as [<- | [<- | [<- | []]]];
      vm_compute in Hcap; try discriminate;
      vm_compute in Hlink; injection Hlink as <-; vm_compute in Hurl; discriminate.
Defined.

(** C3, as stated, fails: the one item of this list has "Present" in its
    caption, yet the extractor includes no URL for it, since it holds no
    anchor into "/company/". *)
Lemma present_item_without_company_link :
  CurrentCompanies.experience_items (Sample.parse Sample.freelance_text)
  = [Sample.freelance_item]
  /\ Props.caption_has_present Sample.freelance_item = true
  /\ CurrentCompanies.extract_current_companies Sample.parse ∅
       (CurrentCompanies.Str Sample.freelance_text)
     = (Py.Ok (CurrentCompanies.UrlSet ∅), []).
Proof. split; [reflexivity|]. split; [reflexivity|]. reflexivity. Qed.

(** C4.  [extract_current_companies] never raises.  Either it returns a set
    of URLs, each absolute (it starts with "http"), which holds every URL the
    experience entries add and holds it once, however many entries add it;
    or an error inside was caught, one line was printed for it, and the
    result is empty. *)
Theorem extract_current_companies_total (parse : string -> Bs.node)
    (fs : gmap string Py.entry) (html_source : CurrentCompanies.arg) :
  (exists (urls : gset string) (html : string),
      CurrentCompanies.extract_current_companies parse fs html_source
      = (Py.Ok (CurrentCompanies.UrlSet urls), [])
      /\ CurrentCompanies.load fs html_source = Py.Ok html
      /\ (forall url, url ∈ urls -> Props.is_absolute url)
      /\ NoDup (elements urls)
      /\ (forall url,
            url ∈ elements urls <->
            url ∈ omap CurrentCompanies.item_url
                    (CurrentCompanies.experience_items (parse html))))
  \/ (exists e,
        CurrentCompanies.load fs html_source = Py.Raise e
        /\ CurrentCompanies.extract_current_companies parse fs html_source
           = (Py.Ok (CurrentCompanies.UrlList []), ["Error: " +:+ Py.message e])).
Proof.
  destruct (CurrentCompanies.load fs html_source) as [html|e] eqn:Hload.
  - left.
    exists (list_to_set (CurrentCompanies.collect
                           (CurrentCompanies.experience_items (parse html)) [])), html.
    split; [|split; [reflexivity|split; [|split]]].
    + unfold CurrentCompanies.extract_current_companies, CurrentCompanies.body.
      rewrite Hload. reflexivity.
    + intros url. rewrite elem_of_list_to_set, collect_spec, app_nil_l, list_elem_of_omap.
      intros (item & _ & Hurl). apply item_url_iff in Hurl.
      destruct Hurl as (_ & href & _ & ->). apply absolute_is_absolute.
    + apply NoDup_elements.
    + intros url. rewrite elem_of_elements, elem_of_list_to_set, collect_spec.
      reflexivity.
  - right. exists e. split; [reflexivity|].
    unfold CurrentCompanies.extract_current_companies, CurrentCompanies.body.
    rewrite Hload. reflexivity.
Qed.

(** On the sample experience page two entries point to Acme's page and the
    set holds that URL once; what is not a string yields the empty list and
    one printed line. *)
Example extract_current_companies_sample :
  CurrentCompanies.extract_current_companies Sample.parse ∅
    (CurrentCompanies.Str Sample.experience_text)
  = (Py.Ok (CurrentCompanies.UrlSet {[ "https://www.linkedin.com/company/acme/" ]}), [])
  /\ omap CurrentCompanies.item_url
       (CurrentCompanies.experience_items (Sample.parse Sample.experience_text))
     = ["https://www.linkedin.com/company/acme/"; "https://www.linkedin.com/company/acme/"]
  /\ CurrentCompanies.extract_current_companies Sample.parse ∅ CurrentCompanies.NotStr
     = (Py.Ok (CurrentCompanies.UrlList []),
        ["Error: html_source must be a file path or HTML content string"]).
Proof. split; [vm_compute; reflexivity|]. split; reflexivity. Qed.

(** ** The company about-page extractor *)

Lemma truthy_false (s : string) : PyStr.truthy s = false -> s = "".
Proof. destruct s; [reflexivity|discriminate]. Qed.

Lemma truthy_true (s : string) : s <> "" -> PyStr.truthy s = true.
Proof. destruct s; [congruence|reflexivity]. Qed.

Lemma dl_assign_website (label value : string) (c : About.CompanyInfo) :
  PyStr.contains "website" label = true ->
  About.website (About.dl_assign label value c) = value.
Proof. intros H. unfold About.dl_assign. rewrite H. reflexivity. Qed.

Lemma dl_assign_other (label value : string) (c : About.CompanyInfo) :
  PyStr.contains "website" label = false ->
  About.website (About.dl_assign label value c) = About.website c.
Proof.
  intros H. unfold About.dl_assign. rewrite H.
  repeat match goal with
         | |- context [if ?b then _ else _] => destruct b
         end; reflexivity.
Qed.

Lemma fold_dl_assign_other (pairs : list (string * string)) (c : About.CompanyInfo) :
  Forall (fun p => PyStr.contains "website" p.1 = false) pairs ->
  About.website (fold_left (fun c '(label, value) => About.dl_assign label value c) pairs c)
  = About.website c.
Proof.
  intros H. revert c. induction H as [|[label value] pairs Hp _ IH]; intros c; simpl.
  - reflexivity.
  - rewrite IH. apply dl_assign_other. exact Hp.
Qed.

Lemma any_value_website (c : About.CompanyInfo) :
  About.website c <> "" -> About.any_value c = true.
Proof.
  intros H. unfold About.any_value. rewrite (truthy_true _ H).
  rewrite !orb_true_r. reflexivity.
Qed.

Lemma any_value_false_overview (c : About.CompanyInfo) :
  About.any_value c = false -> About.overview c = "".
Proof.
  unfold About.any_value. intros H.
  repeat (apply orb_false_elim in H; destruct H as [H ?]).
  apply truthy_false. assumption.
Qed.

Lemma heading_step_keeps_overview (c : About.CompanyInfo) (section : Bs.node) :
  PyStr.truthy (About.overview c) = true ->
  About.overview (About.heading_step c section) = About.overview c.
Proof.
  intros H. unfold About.heading_step.
  destruct (Bs.find (Bs.name_in ["h2"; "h3"]) section); [|reflexivity].
  destruct (Bs.find _ section); [|reflexivity].
  unfold About.heading_assign. rewrite H, andb_false_r.
  repeat match goal with
         | |- context [if ?b then _ else _] => destruct b
         end; reflexivity.
Qed.

Lemma fold_heading_step_keeps_overview (sections : list Bs.node) (c : About.CompanyInfo) :
  PyStr.truthy (About.overview c) = true ->
  About.overview (fold_left About.heading_step sections c) = About.overview c.
Proof.
  revert c. induction sections as [|s rest IH]; intros c H; simpl; [reflexivity|].
  rewrite IH; rewrite heading_step_keeps_overview; auto.
Qed.

Lemma heading_step_no_about (c : About.CompanyInfo) (section : Bs.node) :
  About.overview c = "" ->
  (forall v, Props.about_block section v -> v = "") ->
  About.overview (About.heading_step c section) = "".
Proof.
  intros Hc Hnone. unfold About.heading_step.
  destruct (Bs.find (Bs.name_in ["h2"; "h3"]) section) as [heading|] eqn:Hheading;
    [|exact Hc].
  destruct (Bs.find (fun n => Bs.name_in ["p"; "div"] n
                               && About.class_has_either "description" "text" n) section)
    as [content|] eqn:Hcontent; [|exact Hc].
  unfold About.heading_assign.
  destruct (PyStr.contains "about" _) eqn:Habout; simpl.
  - rewrite Hc. simpl. apply Hnone. exists heading, content. auto.
  - repeat match goal with
           | |- context [if ?b then _ else _] => destruct b
           end; exact Hc.
Qed.

Lemma fold_heading_step_no_about (sections : list Bs.node) (c : About.CompanyInfo) :
  About.overview c = "" ->
  Forall (fun s => forall v, Props.about_block s v -> v = "") sections ->
  About.overview (fold_left About.heading_step sections c) = "".
Proof.
  intros Hc H. revert c Hc. induction H as [|s rest Hs _ IH]; intros c Hc; simpl.
  - exact Hc.
  - apply IH. apply heading_step_no_about; assumption.
Qed.

(** What the definition-list pass and the heading pass give.  (1) When the
    last pair, in document order, of a definition-list label that contains
    "website" (in any letter case) with the value zipped to it has a
    non-empty value, that value is the extracted website: for the pair
    (Website, example.com) it is "example.com".  (2) When the name, overview
    and definition-list passes left all nine fields empty, the first
    org-about/org-page-details block that has a heading saying "about" and a
    content block with non-empty text gives the extracted overview. *)
Theorem company_info_passes (parse : string -> Bs.node) (html : string) :
  (forall before label value after,
      About.dl_pairs (parse html) = before ++ (label, value) :: after ->
      PyStr.contains "website" label = true ->
      Forall (fun p => PyStr.contains "website" p.1 = false) after ->
      value <> "" ->
      About.website (About.extract_company_info parse html) = value)
  /\ (forall before section rest value,
        About.any_value (About.selector_passes (parse html)) = false ->
        About.labelled_sections (parse html) = before ++ section :: rest ->
        Forall (fun s => forall v, Props.about_block s v -> v = "") before ->
        Props.about_block section value ->
        value <> "" ->
        About.overview (About.extract_company_info parse html) = value).
Proof.
  unfold About.extract_company_info, About.extract_company_info_soup. split.
  - intros before label value after Hpairs Hlabel Hafter Hvalue.
    assert (About.website (About.selector_passes (parse html)) = value) as Hsite.
    { unfold About.selector_passes, About.extract_details.
      rewrite Hpairs, fold_left_app. simpl.
      rewrite fold_dl_assign_other by exact Hafter.
      apply dl_assign_website. exact Hlabel. }
    rewrite any_value_website by (rewrite Hsite; exact Hvalue). exact Hsite.
  - intros before section rest value Hempty Hsections Hbefore Hblock Hvalue.
    destruct Hblock as (heading & content & Hheading & Habout & Hcontent & Htext).
    rewrite Hempty, Hsections, fold_left_app. simpl.
    pose proof (fold_heading_step_no_about before _
                  (any_value_false_overview _ Hempty) Hbefore) as Hstill.
    set (c := fold_left About.heading_step before _) in *.
    assert (About.heading_step c section = About.set_overview value c) as ->.
    { unfold About.heading_step. rewrite Hheading, Hcontent, Htext.
      unfold About.heading_assign. rewrite Habout, Hstill. reflexivity. }
    rewrite fold_heading_step_keeps_overview; [reflexivity|].
    apply truthy_true. exact Hvalue.
Qed.

(** The two passes on sample pages: a definition list with the pair
    (Website, example.com), and a page with nothing but an "About" block. *)
Lemma company_info_passes_witness :
  About.website (About.extract_company_info Sample.parse Sample.about_dl_text) = "example.com"
  /\ About.overview (About.extract_company_info Sample.parse Sample.about_heading_text)
     = "We build engines.".
Proof.
  split.
  - apply (proj1 (company_info_passes Sample.parse Sample.about_dl_text)
             [] "website" "example.com" [("industry", "Software")]).
    + reflexivity.
    + reflexivity.
    + repeat constructor.
    + discriminate.
  - apply (proj2 (company_info_passes Sample.parse Sample.about_heading_text)
             [] Sample.about_section []).
    + reflexivity.
    + reflexivity.
    + constructor.
    + exists (Bs.Elem "h2" [] [Bs.Text "About"]),
             (Bs.Elem "p" [("class", "description")] [Bs.Text "We build engines."]).
      repeat split.
    + discriminate.
Defined.

(** Of two labels that contain "website", the later one gives the value. *)
Example later_website_label_wins :
  In ("website", "example.com") (About.dl_pairs (Sample.parse Sample.about_two_sites_text))
  /\ About.website (About.extract_company_info Sample.parse Sample.about_two_sites_text)
     = "jobs.example.org".
Proof. split; [left; reflexivity|reflexivity]. Qed.

(** C6 fails on the code, in its second half.  On a page whose definition
    list pairs "Website" with "example.com" the website is extracted, and on
    a page that holds nothing but an "About" block the heading pass gives
    the overview.  On the same page with the company's name above the block
    there is still no definition list, but the name was found, so the
    heading pass is skipped as a whole and the overview stays empty; run on
    what the earlier passes left, the pass would have given it.  The comment
    above the test says the pass is tried when the definition lists gave
    nothing. *)
Theorem company_info_fallback_skipped :
  About.website (About.extract_company_info Sample.parse Sample.about_dl_text) = "example.com"
  /\ (About.dl_pairs (Sample.parse Sample.about_heading_text) = []
      /\ About.overview (About.extract_company_info Sample.parse Sample.about_heading_text)
         = "We build engines.")
  /\ (About.dl_pairs (Sample.parse Sample.about_named_text) = []
      /\ About.labelled_sections (Sample.parse Sample.about_named_text)
         = [Sample.about_section]
      /\ Props.about_block Sample.about_section "We build engines."
      /\ About.name (About.extract_company_info Sample.parse Sample.about_named_text) = "Acme"
      /\ About.overview (About.extract_company_info Sample.parse Sample.about_named_text) = ""
      /\ About.overview
           (fold_left About.heading_step
              (About.labelled_sections (Sample.parse Sample.about_named_text))
              (About.selector_passes (Sample.parse Sample.about_named_text)))
         = "We build engines.").
Proof.
  split; [reflexivity|]. split; [split; reflexivity|].
  split; [reflexivity|]. split; [reflexivity|]. split.
  - exists (Bs.Elem "h2" [] [Bs.Text "About"]),
           (Bs.Elem "p" [("class", "description")] [Bs.Text "We build engines."]).
    repeat split.
  - split; [reflexivity|]. split; reflexivity.
Qed.

(** ** Naming a company after its file *)

Example synthesized_name :
  PyStr.title (PyStr.replace "-" " " (hd "" (PyStr.split_on "_" "acme-corp_about.txt")))
  = "Acme Corp".
Proof. reflexivity. Qed.

(** C7, as amended.  For a non-empty about-file named "acme-corp_about.txt"
    from which neither a name nor an overview is extracted,
    [process_about_file] returns the extracted record with the file name as
    source and the name "Acme Corp": the part of the file name before the
    first "_", hyphens turned into spaces, in title case. *)
Theorem name_from_file_name (parse : string -> Bs.node) (fs : gmap string Py.entry)
    (path : string) (c : ascii) (r : string) :
  Py.basename path = "acme-corp_about.txt" ->
  fs !! path = Some (Py.File (String c r)) ->
  About.name (About.extract_company_info parse (String c r)) = "" ->
  About.overview (About.extract_company_info parse (String c r)) = "" ->
  About.process_about_file parse fs path
  = Some (About.set_name "Acme Corp"
            (About.set_source "acme-corp_about.txt"
               (About.extract_company_info parse (String c r)))).
Proof.
  intros Hbase Hfile Hname Hoverview.
  unfold About.process_about_file, Py.exists_, Py.read. rewrite Hfile, Hbase.
  cbn [mbind result_bind Py.bind PyStr.truthy negb].
  cbn [About.name About.overview About.set_source].
  rewrite Hname, Hoverview. reflexivity.
Qed.

(** A saved page with no recognisable name or overview, under the name
    "acme-corp_about.txt". *)
Lemma name_from_file_name_witness :
  About.name <$>
    About.process_about_file Sample.parse
      {[ "pages/acme-corp_about.txt" := Py.File Sample.blank_text ]}
      "pages/acme-corp_about.txt"
  = Some "Acme Corp".
Proof.
  unfold Sample.blank_text.
  rewrite (name_from_file_name Sample.parse _ "pages/acme-corp_about.txt"
             "<"%char "html><body></body></html>").
  - reflexivity.
  - reflexivity.
  - vm_compute. reflexivity.
  - reflexivity.
  - reflexivity.
Defined.

(** C7, as stated, fails on an empty file: extraction on its text yields an
    empty name and an empty overview, the file is named
    "acme-corp_about.txt", and [process_about_file] returns [None], no
    record and no synthesized name. *)
Lemma empty_about_file_yields_nothing :
  let fs : gmap string Py.entry := {[ "pages/acme-corp_about.txt" := Py.File "" ]} in
  Py.basename "pages/acme-corp_about.txt" = "acme-corp_about.txt"
  /\ Py.read fs "pages/acme-corp_about.txt" = Py.Ok ""
  /\ About.name (About.extract_company_info Sample.parse "") = ""
  /\ About.overview (About.extract_company_info Sample.parse "") = ""
  /\ About.process_about_file Sample.parse fs "pages/acme-corp_about.txt" = None.
Proof.
  cbv zeta. split; [reflexivity|]. split; [vm_compute; reflexivity|].
  split; [reflexivity|]. split; [reflexivity|]. vm_compute. reflexivity.
Qed.

(** ** The assembler: companies *)

Lemma filter_and {A} (f g : A -> bool) (l : list A) :
  List.filter f (List.filter g l) = List.filter (fun x => g x && f x) l.
Proof.
  induction l as [|x l IH]; simpl; [reflexivity|].
  destruct (g x); simpl; [destruct (f x)|]; now rewrite IH.
Qed.

Lemma filter_ext' {A} (f g : A -> bool) (l : list A) :
  (forall x, f x = g x) -> List.filter f l = List.filter g l.
Proof. intros H. apply List.filter_ext. exact H. Qed.

(** Dropping records by a test on their name commutes with keeping the
    first record of each name. *)
Lemma keep_first_filter (P : string -> bool) (l : list About.CompanyInfo) :
  Props.keep_first (List.filter (fun x => P (About.name x)) l)
  = List.filter (fun x => P (About.name x)) (Props.keep_first l).
Proof.
  induction l as [|c r IH]; simpl; [reflexivity|].
  destruct (P (About.name c)) eqn:HP; simpl.
  - rewrite IH, !filter_and. f_equal. apply filter_ext'. intros x. apply andb_comm.
  - rewrite IH, filter_and. apply filter_ext'. intros x.
    destruct (String.eqb_spec (About.name x) (About.name c)) as [->|]; simpl.
    + now rewrite HP.
    + reflexivity.
Qed.

Lemma filter_names_NoDup (f : About.CompanyInfo -> bool) (l : list About.CompanyInfo) :
  NoDup (map About.name l) -> NoDup (map About.name (List.filter f l)).
Proof.
  induction l as [|x l IH]; simpl; [auto|].
  rewrite NoDup_cons. intros [Hx Hl].
  destruct (f x); simpl; [|auto].
  apply NoDup_cons. split; [|auto].
  intros Hin. apply Hx.
  apply list_elem_of_In, in_map_iff in Hin. destruct Hin as (y & Hy & Hin).
  apply List.filter_In in Hin.
  apply list_elem_of_In, in_map_iff. exists y. tauto.
Qed.

Lemma keep_first_names (l : list About.CompanyInfo) :
  NoDup (map About.name (Props.keep_first l)).
Proof.
  induction l as [|c r IH]; simpl; [constructor|].
  apply NoDup_cons. split; [|apply filter_names_NoDup, IH].
  intros Hin. apply list_elem_of_In, in_map_iff in Hin.
  destruct Hin as (x & Hname & Hin).
  apply List.filter_In in Hin. destruct Hin as [_ Hne].
  rewrite Hname, String.eqb_refl in Hne. discriminate.
Qed.

Lemma companies_loop_spec (parse : string -> Bs.node) (fs : gmap string Py.entry)
    (self : ProfileBuilder.t) (keys : list string)
    (companies : list About.CompanyInfo) (seen : gset string) :
  ProfileBuilder.companies_loop parse fs self keys companies seen
  = companies
    ++ Props.keep_first
         (List.filter (fun c => negb (bool_decide (About.name c ∈ seen)))
            (List.filter (fun c => PyStr.truthy (About.name c))
               (Props.processed parse fs self keys))).
Proof.
  revert companies seen. induction keys as [|key rest IH]; intros companies seen; simpl.
  - now rewrite app_nil_r.
  - unfold Props.processed in *. simpl.
    destruct (match PyDict.get key _ with Some _ => _ | None => _ end) as [c|];
      [|apply IH].
    simpl. destruct (PyStr.truthy (About.name c)); simpl; [|apply IH].
    destruct (bool_decide (About.name c ∈ seen)) eqn:Hseen; simpl; [apply IH|].
    rewrite IH, <- app_assoc. simpl.
    apply (f_equal (fun l => companies ++ c :: l)).
    rewrite <- (keep_first_filter (fun n => negb (String.eqb n (About.name c)))).
    apply (f_equal Props.keep_first).
    generalize (List.filter (fun c => PyStr.truthy (About.name c))
                  (omap (fun key =>
                           match PyDict.get key (ProfileBuilder.html_content_dict self) with
                           | Some content => About.process_about_file parse fs content
                           | None => None
                           end) rest)).
    intros l. rewrite filter_and. apply filter_ext'. intros x.
    destruct (String.eqb_spec (About.name x) (About.name c)) as [->|Hne]; simpl.
    + rewrite andb_false_r. rewrite bool_decide_eq_true_2; [reflexivity|].
      apply elem_of_union_l, elem_of_singleton. reflexivity.
    + rewrite andb_true_r. f_equal. apply bool_decide_ext.
      rewrite elem_of_union, elem_of_singleton. tauto.
Qed.

Lemma files_loop_spec (parse : string -> Bs.node) (fs : gmap string Py.entry)
    (paths : list string) (companies : list About.CompanyInfo) :
  ProfileBuilder.files_loop parse fs paths companies
  = companies ++ omap (About.process_about_file parse fs) paths.
Proof.
  revert companies. induction paths as [|p rest IH]; intros companies; simpl.
  - now rewrite app_nil_r.
  - destruct (About.process_about_file parse fs p); rewrite IH; [|reflexivity].
    now rewrite <- app_assoc.
Qed.

Lemma filter_not_in_empty (l : list About.CompanyInfo) :
  List.filter (fun c => negb (bool_decide (About.name c ∈ (∅ : gset string)))) l = l.
Proof.
  induction l as [|c r IH]; [reflexivity|].
  cbn [List.filter]. rewrite IH.
  rewrite bool_decide_eq_false_2 by apply not_elem_of_empty. reflexivity.
Qed.

(** With a resolved company document in the mapping, the companies are
    made from the mapping alone. *)
Lemma extract_companies_in_memory (parse : string -> Bs.node) (fs : gmap string Py.entry)
    (package_dir : string) (self : ProfileBuilder.t) :
  ProfileBuilder.company_keys self <> [] ->
  ProfileBuilder.extract_companies parse fs package_dir self
  = Props.keep_first
      (List.filter (fun c => PyStr.truthy (About.name c))
         (Props.processed parse fs self (ProfileBuilder.company_keys self))).
Proof.
  intros Hsome.
  unfold ProfileBuilder.extract_companies, ProfileBuilder.extract_companies_body.
  replace (if PyDict.truthy (ProfileBuilder.html_content_dict self)
           then ProfileBuilder.company_keys self else [])
    with (ProfileBuilder.company_keys self)
    by (unfold ProfileBuilder.company_keys;
        destruct (ProfileBuilder.html_content_dict self); reflexivity).
  destruct (ProfileBuilder.company_keys self) as [|key rest] eqn:E; [congruence|].
  rewrite companies_loop_spec, filter_not_in_empty. reflexivity.
Qed.

(** C8.  From the in-memory mapping the assembler takes exactly the keys
    that start with "company_" and end with "_html" but neither with
    "_main_html" nor with "_about_html".  If there is such a key, the
    companies are the records these documents yield, those with an empty
    name dropped, de-duplicated by name keeping the first occurrence, and no
    directory is consulted.  Only if there is none does it turn to the
    about-files of the session directory's "company_about_pages", when a
    session directory is given and that directory exists; and only otherwise
    to the about-files of the legacy directory of the package. *)
Theorem company_sources (parse : string -> Bs.node) (fs : gmap string Py.entry)
    (package_dir : string) (self : ProfileBuilder.t) :
  (forall key,
      In key (ProfileBuilder.company_keys self) <->
      In key (PyDict.keys (ProfileBuilder.html_content_dict self))
      /\ PyStr.startswith "company_" key = true
      /\ PyStr.endswith "_html" key = true
      /\ PyStr.endswith "_main_html" key = false
      /\ PyStr.endswith "_about_html" key = false)
  /\ (ProfileBuilder.company_keys self <> [] ->
      ProfileBuilder.extract_companies parse fs package_dir self
      = Props.keep_first
          (List.filter (fun c => PyStr.truthy (About.name c))
             (Props.processed parse fs self (ProfileBuilder.company_keys self)))
      /\ NoDup (map About.name (ProfileBuilder.extract_companies parse fs package_dir self)))
  /\ (ProfileBuilder.company_keys self = [] ->
      forall dir,
        ProfileBuilder.session_dir self = Some dir -> dir <> "" ->
        Py.exists_ fs (Py.join dir "company_about_pages") = true ->
        ProfileBuilder.extract_companies parse fs package_dir self
        = omap (About.process_about_file parse fs)
            (Props.about_files fs (Py.join dir "company_about_pages")))
  /\ (ProfileBuilder.company_keys self = [] ->
      (Props.falsy (ProfileBuilder.session_dir self)
       \/ exists dir, ProfileBuilder.session_dir self = Some dir
                      /\ Py.exists_ fs (Py.join dir "company_about_pages") = false) ->
      ProfileBuilder.extract_companies parse fs package_dir self
      = omap (About.process_about_file parse fs)
          (Props.about_files fs (ProfileBuilder.legacy_dir package_dir))).
Proof.
  assert ((if PyDict.truthy (ProfileBuilder.html_content_dict self)
           then ProfileBuilder.company_keys self else [])
          = ProfileBuilder.company_keys self) as Hkeys.
  { unfold ProfileBuilder.company_keys.
    destruct (ProfileBuilder.html_content_dict self); reflexivity. }
  assert (forall dir, Py.exists_ fs dir = true ->
            (names ← Py.listdir fs dir;
             Py.Ok (ProfileBuilder.files_loop parse fs
                      (map (Py.join dir) (List.filter (PyStr.endswith "_about.txt") names)) []))
            = Py.Ok (omap (About.process_about_file parse fs) (Props.about_files fs dir))
            \/ ((names ← Py.listdir fs dir;
                 Py.Ok (ProfileBuilder.files_loop parse fs
                      (map (Py.join dir) (List.filter (PyStr.endswith "_about.txt") names)) []))
                = Py.Raise (Py.OSError ("Not a directory: " +:+ dir))
                /\ Props.about_files fs dir = [])) as Hsession.
  { intros dir. unfold Py.exists_, Py.listdir, Props.about_files.
    destruct (fs !! dir) as [[content|names]|]; intros Hdir; [right|left|discriminate].
    - split; reflexivity.
    - cbn. now rewrite files_loop_spec. }
  assert (ProfileBuilder.company_keys self = [] ->
          match ProfileBuilder.session_dir self with
          | Some (String c r) =>
              if Py.exists_ fs (Py.join (String c r) "company_about_pages")
              then Some (Py.join (String c r) "company_about_pages") else None
          | _ => None
          end = None ->
          ProfileBuilder.extract_companies parse fs package_dir self
          = omap (About.process_about_file parse fs)
              (Props.about_files fs (ProfileBuilder.legacy_dir package_dir))) as Hlegacy.
  { intros Hnone Hdir.
    unfold ProfileBuilder.extract_companies, ProfileBuilder.extract_companies_body.
    rewrite Hkeys, Hnone, Hdir.
    unfold Py.exists_, ProfileBuilder.glob_about, Props.about_files.
    destruct (fs !! ProfileBuilder.legacy_dir package_dir) as [[content|names]|];
      try reflexivity.
    now rewrite files_loop_spec. }
  split; [|split; [|split]].
  - intros key. unfold ProfileBuilder.company_keys. rewrite List.filter_In.
    rewrite !andb_true_iff, !negb_true_iff. tauto.
  - intros Hsome. rewrite extract_companies_in_memory by exact Hsome.
    split; [reflexivity|apply keep_first_names].
  - intros Hnone dir Hdir Hne Hexists.
    unfold ProfileBuilder.extract_companies, ProfileBuilder.extract_companies_body.
    rewrite Hkeys, Hnone, Hdir. destruct dir as [|c r]; [congruence|].
    rewrite Hexists. destruct (Hsession _ Hexists) as [-> | [-> ->]]; reflexivity.
  - intros Hnone Hno. apply Hlegacy; [exact Hnone|].
    destruct Hno as [[-> | ->] | (dir & -> & Hmissing)]; try reflexivity.
    destruct dir; [reflexivity|]. now rewrite Hmissing.
Qed.

(** The sample mapping with three resolved company documents: the first
    names Acme, the second has no name, the third names Acme again.  One
    record is kept, and the session directory is not read.  With no
    resolved company document, the session directory's two about-files are
    read instead of the legacy directory. *)
Lemma company_sources_witness :
  ProfileBuilder.company_keys (Sample.assembler Sample.captured_companies (Some "session"))
  = ["company_0_html"; "company_1_html"; "company_2_html"]
  /\ map About.name
       (ProfileBuilder.extract_companies Sample.parse Sample.session_files "/pkg"
          (Sample.assembler Sample.captured_companies (Some "session")))
     = ["Acme"]
  /\ map About.name
       (ProfileBuilder.extract_companies Sample.parse Sample.session_files "/pkg"
          (Sample.assembler Sample.captured (Some "session")))
     = ["Acme Corp"; "Acme"]
  /\ ProfileBuilder.extract_companies Sample.parse Sample.session_files "/pkg"
       (Sample.assembler Sample.captured None)
     = [].
Proof.
  split; [reflexivity|]. split; [|split].
  - destruct (company_sources Sample.parse Sample.session_files "/pkg"
                (Sample.assembler Sample.captured_companies (Some "session")))
      as (_ & H & _).
    destruct H as [-> _]; [discriminate|]. vm_compute. reflexivity.
  - destruct (company_sources Sample.parse Sample.session_files "/pkg"
                (Sample.assembler Sample.captured (Some "session")))
      as (_ & _ & H & _).
    rewrite (H eq_refl "session" eq_refl); [|discriminate|vm_compute; reflexivity].
    vm_compute. reflexivity.
  - destruct (company_sources Sample.parse Sample.session_files "/pkg"
                (Sample.assembler Sample.captured None))
      as (_ & _ & _ & H).
    rewrite (H eq_refl); [|left; left; reflexivity].
    vm_compute. reflexivity.
Defined.

Lemma keep_first_In (c : About.CompanyInfo) (l : list About.CompanyInfo) :
  In c (Props.keep_first l) -> In c l.
Proof.
  induction l as [|x r IH]; simpl; [auto|].
  intros [-> | Hin]; [auto|]. right. apply IH.
  apply List.filter_In in Hin. tauto.
Qed.

Lemma processed_In (parse : string -> Bs.node) (fs : gmap string Py.entry)
    (self : ProfileBuilder.t) (keys : list string) (c : About.CompanyInfo) :
  In c (Props.processed parse fs self keys) ->
  exists key content,
    In key keys
    /\ PyDict.get key (ProfileBuilder.html_content_dict self) = Some content
    /\ About.process_about_file parse fs content = Some c.
Proof.
  unfold Props.processed. rewrite <- list_elem_of_In, list_elem_of_omap.
  intros (key & Hkey & Hc). apply list_elem_of_In in Hkey.
  destruct (PyDict.get key _) as [content|] eqn:Hget; [|discriminate]. eauto.
Qed.

(** Text that is not the path of an existing file is processed as in-memory
    content: the record is the extracted one with the source
    "in_memory_content", and its name is never made up from a file name. *)
Lemma process_in_memory (parse : string -> Bs.node) (fs : gmap string Py.entry)
    (content : string) :
  Py.exists_ fs content = false ->
  About.process_about_file parse fs content
  = if PyStr.truthy content
    then Some (About.set_source "in_memory_content" (About.extract_company_info parse content))
    else None.
Proof.
  intros Hpath. unfold About.process_about_file. rewrite Hpath.
  cbn [mbind result_bind Py.bind]. destruct (PyStr.truthy content); [|reflexivity].
  cbn [negb]. change (String.eqb "in_memory_content" "in_memory_content") with true.
  cbn [negb andb]. destruct (_ && _); reflexivity.
Qed.

(** C10.  When the mapping holds resolved company documents, every record
    in the assembled list of companies has a non-empty name and is the
    record of one of those documents.  A document processed as in-memory
    content (its text is not the path of an existing file) gets the source
    "in_memory_content" and keeps the name extracted from it, with no name
    made up from a file name; so when that name is empty its record is not in
    the list, whatever its overview. *)
Theorem in_memory_companies_named (parse : string -> Bs.node) (fs : gmap string Py.entry)
    (package_dir : string) (self : ProfileBuilder.t) :
  ProfileBuilder.company_keys self <> [] ->
  (forall c, In c (ProfileBuilder.extract_companies parse fs package_dir self) ->
             About.name c <> ""
             /\ exists key content,
                  In key (ProfileBuilder.company_keys self)
                  /\ PyDict.get key (ProfileBuilder.html_content_dict self) = Some content
                  /\ About.process_about_file parse fs content = Some c)
  /\ (forall key content,
        In key (ProfileBuilder.company_keys self) ->
        PyDict.get key (ProfileBuilder.html_content_dict self) = Some content ->
        Py.exists_ fs content = false ->
        content <> "" ->
        let record :=
          About.set_source "in_memory_content" (About.extract_company_info parse content) in
        About.process_about_file parse fs content = Some record
        /\ About.name record = About.name (About.extract_company_info parse content)
        /\ (About.name (About.extract_company_info parse content) = "" ->
            ~ In record (ProfileBuilder.extract_companies parse fs package_dir self))).
Proof.
  intros Hkeys.
  assert (forall c, In c (ProfileBuilder.extract_companies parse fs package_dir self) ->
                    About.name c <> ""
                    /\ In c (Props.processed parse fs self (ProfileBuilder.company_keys self)))
    as Hall.
  { intros c Hin.
    rewrite extract_companies_in_memory in Hin by exact Hkeys.
    apply keep_first_In, List.filter_In in Hin. destruct Hin as [Hin Hname].
    split; [|exact Hin]. intros E. rewrite E in Hname. discriminate. }
  split.
  - intros c Hin. destruct (Hall c Hin) as [Hname Hproc].
    split; [exact Hname|]. eapply processed_In. exact Hproc.
  - intros key content Hkey Hget Hpath Hcontent record.
    split; [|split].
    + rewrite process_in_memory by exact Hpath.
      rewrite truthy_true by exact Hcontent. reflexivity.
    + reflexivity.
    + intros Hempty Hin. destruct (Hall record Hin) as [Hname _].
      apply Hname. exact Hempty.
Qed.

(** On the sample mapping the second company's page has an overview and no
    name: its record is not among the companies. *)
Lemma in_memory_companies_named_witness :
  let self := Sample.assembler Sample.captured_companies None in
  let nameless :=
    About.set_source "in_memory_content"
      (About.extract_company_info Sample.parse Sample.about_nameless_text) in
  About.overview nameless = "Makers of difference engines."
  /\ About.process_about_file Sample.parse ∅ Sample.about_nameless_text = Some nameless
  /\ ~ In nameless (ProfileBuilder.extract_companies Sample.parse ∅ "/pkg" self)
  /\ Forall (fun c => About.name c <> "")
       (ProfileBuilder.extract_companies Sample.parse ∅ "/pkg" self).
Proof.
  cbv zeta.
  destruct (in_memory_companies_named Sample.parse ∅ "/pkg"
              (Sample.assembler Sample.captured_companies None)) as [Hnamed Hmem].
  { discriminate. }
  destruct (Hmem "company_1_html" Sample.about_nameless_text) as (Hrec & _ & Hdrop).
  { vm_compute. tauto. }
  { reflexivity. }
  { reflexivity. }
  { discriminate. }
  split; [reflexivity|]. split; [exact Hrec|]. split.
  - apply Hdrop. reflexivity.
  - apply List.Forall_forall. intros c Hc. apply Hnamed. exact Hc.
Defined.

(** ** The assembled record *)

(** Any non-empty document text makes an assembler. *)
Lemma init_with_document (parse : string -> Bs.node) (fs : gmap string Py.entry)
    (html_file session_dir : option string) (c : ascii) (r : string) :
  ProfileBuilder.init parse fs html_file session_dir (Some (String c r)) None
  = Py.Ok (ProfileBuilder.Build [] (String c r) (parse (String c r)) session_dir).
Proof. reflexivity. Qed.

(** C9.  The record [scrape_profile] builds has exactly the ten fixed keys,
    in order, for every assembler: "name", "headline" and "about" hold a
    string or [None], the seven others hold a list.  A profile with no
    profile card yields the empty list for each of the six sections. *)
Theorem profile_record_keys (parse : string -> Bs.node) (fs : gmap string Py.entry)
    (package_dir : string) (self : ProfileBuilder.t) :
  let record := ProfileBuilder.scrape_profile parse fs package_dir self in
  map fst record = Props.scalar_keys ++ Props.list_keys
  /\ (forall key, In key Props.scalar_keys ->
        exists v, Props.field key record = Some v /\ Props.is_scalar v)
  /\ (forall key, In key Props.list_keys ->
        exists v, Props.field key record = Some v /\ Props.is_list v)
  /\ (ProfileBuilder.all_sections self = [] ->
      forall key,
        In key ["experiences"; "education"; "skills"; "languages";
                "licenses-certifications"; "projects"] ->
        Props.field key record = Some (ProfileBuilder.VList [])).
Proof.
  cbv zeta. split; [reflexivity|]. split; [|split].
  - intros key Hkey. simpl in Hkey.
    destruct Hkey as [<- | [<- | [<- | []]]]; eexists; (split; [reflexivity|]);
      unfold Props.is_scalar, ProfileBuilder.of_opt;
      match goal with |- context [match ?o with _ => _ end] => destruct o end; eauto.
  - intros key Hkey. simpl in Hkey.
    destruct Hkey as [<- | [<- | [<- | [<- | [<- | [<- | [<- | []]]]]]]];
      eexists; (split; [reflexivity|]); eexists; reflexivity.
  - intros Hnone key Hkey. simpl in Hkey.
    destruct Hkey as [<- | [<- | [<- | [<- | [<- | [<- | []]]]]]];
      cbn [Props.field ProfileBuilder.scrape_profile String.eqb Ascii.eqb Bool.eqb];
      unfold ProfileBuilder.extract_experiences, ProfileBuilder.extract_education,
        ProfileBuilder.extract_skills, ProfileBuilder.extract_languages,
        ProfileBuilder.extract_licenses_certifications, ProfileBuilder.extract_projects;
      rewrite Hnone; reflexivity.
Qed.

(** A blank page as profile, with nothing else captured and no directory:
    every key is there, the scalars are [None] and the lists are empty. *)
Lemma profile_record_keys_witness :
  ProfileBuilder.init Sample.parse ∅ None None (Some Sample.blank_text) None
  = Py.Ok (ProfileBuilder.Build [] Sample.blank_text Sample.blank_tree None)
  /\ ProfileBuilder.scrape_profile Sample.parse ∅ "/pkg"
       (ProfileBuilder.Build [] Sample.blank_text Sample.blank_tree None)
     = [ ("name", ProfileBuilder.VNone); ("headline", ProfileBuilder.VNone);
         ("about", ProfileBuilder.VNone);
         ("experiences", ProfileBuilder.VList []); ("education", ProfileBuilder.VList []);
         ("skills", ProfileBuilder.VList []); ("languages", ProfileBuilder.VList []);
         ("licenses-certifications", ProfileBuilder.VList []);
         ("projects", ProfileBuilder.VList []);
         ("current_companies", ProfileBuilder.VList []) ]
  /\ Props.field "skills"
       (ProfileBuilder.scrape_profile Sample.parse ∅ "/pkg"
          (ProfileBuilder.Build [] Sample.blank_text Sample.blank_tree None))
     = Some (ProfileBuilder.VList []).
Proof.
  split; [reflexivity|]. split; [vm_compute; reflexivity|].
  apply (profile_record_keys Sample.parse ∅ "/pkg"
           (ProfileBuilder.Build [] Sample.blank_text Sample.blank_tree None)).
  - reflexivity.
  - simpl. tauto.
Defined.

(** ** The navigation controller: releasing the browser *)

Section release.
Context (w : Nav.world) (parse : string -> Bs.node)
        (debug_mode : bool) (html_pages_dir : string).

Lemma no_close_ret {A} (a : A) : Props.no_close (Nav.ret a).
Proof. intros s. exists []. now rewrite app_nil_r. Qed.

Lemma no_close_raise {A} (e : Py.exn) : Props.no_close (@Nav.raise A e).
Proof. intros s. exists []. now rewrite app_nil_r. Qed.

Lemma no_close_bind {A B} (m : Nav.M A) (k : A -> Nav.M B) :
  Props.no_close m -> (forall a, Props.no_close (k a)) -> Props.no_close (Nav.bind m k).
Proof.
  intros Hm Hk s. unfold Nav.bind.
  destruct (Hm s) as (c1 & E1 & F1). destruct (m s) as [[a|e] s1]; simpl in *.
  - destruct (Hk a s1) as (c2 & E2 & F2). exists (c1 ++ c2).
    now rewrite E2, E1, <- app_assoc, forallb_app, F1, F2.
  - exists c1. auto.
Qed.

Lemma no_close_try_except {A} (m : Nav.M A) (h : Py.exn -> Nav.M A) :
  Props.no_close m -> (forall e, Props.no_close (h e)) ->
  Props.no_close (Nav.try_except m h).
Proof.
  intros Hm Hh s. unfold Nav.try_except.
  destruct (Hm s) as (c1 & E1 & F1). destruct (m s) as [[a|e] s1]; simpl in *.
  - exists c1. auto.
  - destruct (Hh e s1) as (c2 & E2 & F2). exists (c1 ++ c2).
    now rewrite E2, E1, <- app_assoc, forallb_app, F1, F2.
Qed.

Lemma no_close_perform (c : Nav.call) :
  Props.is_close c = false -> Props.no_close (Nav.perform w c).
Proof.
  intros Hc s. exists [c]. unfold Nav.perform.
  destruct (Nav.raises w (Nav.trace s) c); simpl; rewrite Hc; auto.
Qed.

Lemma no_close_state {A} (f : Nav.state -> A) (g : Nav.state -> Nav.state) :
  (forall s, Nav.trace (g s) = Nav.trace s) ->
  Props.no_close (fun s => (Py.Ok (f s), g s)).
Proof. intros H s. exists []. simpl. now rewrite H, app_nil_r. Qed.

Lemma no_close_reads {A} (c : Nav.call) (f : Nav.state -> A) :
  Props.is_close c = false ->
  Props.no_close (fun s => Nav.bind (Nav.perform w c) (fun _ => Nav.ret (f s)) s).
Proof.
  intros Hc s.
  destruct (no_close_bind (Nav.perform w c) (fun _ => Nav.ret (f s))
              (no_close_perform c Hc) (fun _ => no_close_ret _) s) as (calls & E & F).
  exists calls. auto.
Qed.

Ltac no_close_step :=
  first
    [ apply no_close_ret
    | apply no_close_raise
    | apply no_close_perform; reflexivity
    | apply no_close_reads; reflexivity
    | apply no_close_state; reflexivity
    | apply no_close_bind; [|intros ?]
    | apply no_close_try_except; [|intros ?]
    | assumption
    | match goal with
      | |- Props.no_close (match ?x with _ => _ end) => destruct x
      | |- Props.no_close (let _ := _ in _) => cbv zeta
      end ].

Ltac no_close_auto := repeat no_close_step.

Lemma no_close_write (path text : string) : Props.no_close (Nav.write w path text).
Proof. unfold Nav.write. no_close_auto. Qed.

Lemma no_close_when (b : bool) (m : Nav.M unit) :
  Props.no_close m -> Props.no_close (Nav.when b m).
Proof. intros H. unfold Nav.when. no_close_auto. Qed.

Lemma no_close_login (email password : option string) :
  Props.no_close (Nav.login w email password).
Proof. unfold Nav.login, Nav.url. no_close_auto. Qed.

Lemma no_close_try_selectors (section : string) (selectors : list string) :
  Props.no_close (Nav.try_selectors w debug_mode html_pages_dir section selectors).
Proof.
  induction selectors as [|selector rest IH]; simpl.
  - no_close_auto.
  - unfold Nav.try_selector, Nav.get_attribute, Nav.content, Nav.store.
    no_close_auto; apply no_close_when, no_close_write.
Qed.

Lemma no_close_expand (section : string) :
  Props.no_close (Nav._expand_and_capture_section w debug_mode html_pages_dir section).
Proof.
  unfold Nav._expand_and_capture_section. no_close_auto. apply no_close_try_selectors.
Qed.

Lemma no_close_about_link (selectors : list string) :
  Props.no_close (Nav.about_link w selectors).
Proof.
  induction selectors as [|selector rest IH]; simpl.
  - no_close_auto.
  - unfold Nav.about_link_with, Nav.query_selector, Nav.query_selector_all,
      Nav.get_attribute.
    no_close_auto.
Qed.

Lemma no_close_scrape_company (i : nat) (company_url : string) :
  Props.no_close (Nav.scrape_company w debug_mode html_pages_dir i company_url).
Proof.
  unfold Nav.scrape_company, Nav.content, Nav.store.
  no_close_auto;
    try apply no_close_about_link; try (apply no_close_when, no_close_write).
Qed.

Lemma no_close_scrape_companies_from (i : nat) (company_urls : list string) :
  Props.no_close (Nav.scrape_companies_from w debug_mode html_pages_dir i company_urls).
Proof.
  revert i. induction company_urls as [|url rest IH]; intros i; simpl.
  - no_close_auto.
  - apply no_close_bind; [apply no_close_scrape_company|intros _; apply IH].
Qed.

Lemma no_close_scrape_company_about_pages :
  Props.no_close (Nav.scrape_company_about_pages w parse debug_mode html_pages_dir).
Proof.
  unfold Nav.scrape_company_about_pages, Nav.stored, Nav.the_files.
  no_close_auto;
    try (apply no_close_when; no_close_auto);
    apply no_close_scrape_companies_from.
Qed.

Lemma release_attempted_app (s s' : Nav.state) (calls : list Nav.call) :
  Nav.trace s' = Nav.trace s ++ calls ->
  forallb (fun c => negb (Props.is_close c)) calls = true ->
  Props.release_attempted s = false ->
  Props.release_attempted s' = false.
Proof.
  unfold Props.release_attempted. intros -> F H.
  rewrite existsb_app, H. simpl.
  induction calls as [|c r IH]; simpl in *; [reflexivity|].
  apply andb_prop in F. destruct F as [Fc Fr].
  apply negb_true_iff in Fc. rewrite Fc. auto.
Qed.

Lemma closes_after {A B} (m : Nav.M A) (k : A -> Nav.M B) :
  Props.no_close m -> (forall a, Props.closes_iff_returns (k a)) ->
  Props.closes_iff_returns (Nav.bind m k).
Proof.
  intros Hm Hk s Hs. unfold Nav.bind.
  destruct (Hm s) as (c1 & E1 & F1). destruct (m s) as [[a|e] s1]; simpl in *.
  - apply Hk. eapply release_attempted_app; eassumption.
  - eapply release_attempted_app; eassumption.
Qed.

Lemma closes_reraise {A} (m : Nav.M A) :
  Props.closes_iff_returns m ->
  Props.closes_iff_returns (Nav.try_except m (fun e => Nav.raise e)).
Proof.
  intros Hm s Hs. unfold Nav.try_except, Nav.raise.
  specialize (Hm s Hs). destruct (m s) as [[a|e] s1]; exact Hm.
Qed.

Lemma closes_at_end {A} (f : list (string * string) -> A) :
  (forall trace, Nav.raises w trace Nav.ContextClose = None) ->
  (forall trace, Nav.raises w trace Nav.BrowserClose = None) ->
  Props.closes_iff_returns
    (Nav.bind (Nav.perform w Nav.ContextClose) (fun _ =>
     Nav.bind (Nav.perform w Nav.BrowserClose) (fun _ =>
     Nav.bind Nav.stored (fun d => Nav.ret (f d))))).
Proof.
  intros Hcontext Hbrowser s _.
  unfold Nav.bind, Nav.perform, Nav.stored, Nav.ret. simpl.
  rewrite Hcontext. simpl. rewrite Hbrowser. simpl.
  exists (Nav.trace s). now rewrite <- app_assoc.
Qed.

(** For every world in which closing the context and closing the browser
    do not themselves fail: [scrape_profile] closes them exactly when it
    returns.  Whenever it raises, be it from the login or from the profile
    page, no close call has been made. *)
Theorem scrape_profile_closes_iff_returns (profile_url : string)
    (email password : option string) (scrape_companies : bool) :
  (forall trace, Nav.raises w trace Nav.ContextClose = None) ->
  (forall trace, Nav.raises w trace Nav.BrowserClose = None) ->
  Props.closes_iff_returns
    (Nav.scrape_profile w parse debug_mode html_pages_dir profile_url email password
       scrape_companies).
Proof.
  intros Hcontext Hbrowser. unfold Nav.scrape_profile.
  destruct (Nav.credential w email "LINKEDIN_EMAIL") as [e|];
    [destruct (Nav.credential w password "LINKEDIN_PASSWORD") as [p|]|];
    try (intros s Hs; exact Hs).
  apply closes_after; [apply no_close_login|intros _].
  apply closes_reraise.
  unfold Nav.content, Nav.store.
  repeat (apply closes_after;
          [solve [ apply no_close_expand
                 | apply no_close_when; first [apply no_close_write
                                             |apply no_close_scrape_company_about_pages]
                 | no_close_auto ]
          |intros ?]).
  apply closes_at_end; assumption.
Qed.

End release.

(** C5 fails on the code.  When nothing raises, the run ends with the
    context and the browser closed.  When loading the profile page times
    out after a successful login, the error is logged and raised again: the
    browser was started and no close call is ever made.  The same holds when
    the login itself fails after the browser was started. *)
Theorem scrape_profile_release :
  (fst (Props.sample_run Sample.world_ok)
   = Py.Ok (true, [("profile_html", Sample.blank_text)])
   /\ Props.acquired (snd (Props.sample_run Sample.world_ok)) = true
   /\ firstn 2 (rev (Nav.trace (snd (Props.sample_run Sample.world_ok))))
      = [Nav.BrowserClose; Nav.ContextClose])
  /\ (fst (Props.sample_run Sample.world_profile_timeout)
      = Py.Raise (Py.TimeoutError "Timeout 45000ms exceeded.")
      /\ Props.acquired (snd (Props.sample_run Sample.world_profile_timeout)) = true
      /\ Props.release_attempted (snd (Props.sample_run Sample.world_profile_timeout)) = false)
  /\ (fst (Props.sample_run Sample.world_login_fails)
      = Py.Raise (Py.RuntimeError "LinkedIn login failed: Timeout 30000ms exceeded.")
      /\ Props.acquired (snd (Props.sample_run Sample.world_login_fails)) = true
      /\ Props.release_attempted (snd (Props.sample_run Sample.world_login_fails)) = false).
Proof. repeat split; vm_compute; reflexivity. Qed.

(** ** The controller: what a run does to the mapping and to the trace *)

Lemma dict_get_set (k v : string) (d : PyDict.t) :
  PyDict.get k (PyDict.set k v d) = Some v.
Proof.
  induction d as [|[k' v'] d IH]; simpl.
  - now rewrite String.eqb_refl.
  - destruct (String.eqb k' k) eqn:E; simpl.
    + now rewrite String.eqb_refl.
    + now rewrite E.
Qed.

Lemma dict_get_set_other (k k' v : string) (d : PyDict.t) :
  k' <> k -> PyDict.get k' (PyDict.set k v d) = PyDict.get k' d.
Proof.
  intros Hne. induction d as [|[k0 v0] d IH]; simpl.
  - destruct (String.eqb_spec k k'); [congruence|reflexivity].
  - destruct (String.eqb_spec k0 k) as [->|Hk]; simpl.
    + destruct (String.eqb_spec k k'); [congruence|reflexivity].
    + destruct (String.eqb k0 k'); [reflexivity|exact IH].
Qed.

Lemma dict_mem_set (k k' v : string) (d : PyDict.t) :
  PyDict.mem k' (PyDict.set k v d) = String.eqb k k' || PyDict.mem k' d.
Proof.
  unfold PyDict.mem. destruct (String.eqb_spec k k') as [->|Hne].
  - now rewrite dict_get_set.
  - rewrite dict_get_set_other by congruence. reflexivity.
Qed.

Lemma keeps_keys_invariant : Frame.invariant Frame.keeps_keys (fun _ => True).
Proof.
  split; unfold Frame.keeps_keys; simpl.
  - auto.
  - auto.
  - auto.
  - intros s k v _ k' H. rewrite dict_mem_set, H. apply orb_true_r.
  - auto.
Qed.

Lemma same_outside_invariant (K : string -> Prop) :
  Frame.invariant (Frame.same_outside K) K.
Proof.
  split; unfold Frame.same_outside; simpl.
  - auto.
  - intros s1 s2 s3 H12 H23 k Hk. now rewrite H23, H12.
  - auto.
  - intros s k v Hk k' Hk'. apply dict_get_set_other. intros ->. contradiction.
  - auto.
Qed.

Lemma adds_only_invariant (K : string -> Prop) :
  Frame.invariant (Frame.adds_only K) K.
Proof.
  split; unfold Frame.adds_only; simpl.
  - auto.
  - intros s1 s2 s3 H12 H23 k Hk.
    destruct (H23 k Hk) as [H2|H2]; [apply H12, H2|right; exact H2].
  - auto.
  - intros s k v Hk k' Hk'. rewrite dict_mem_set in Hk'.
    destruct (String.eqb_spec k k') as [E|Hne]; [right; now rewrite <- E|left; exact Hk'].
  - auto.
Qed.

Lemma extends_invariant : Frame.invariant Frame.extends (fun _ => True).
Proof.
  split; unfold Frame.extends; simpl.
  - intros s. exists []. now rewrite app_nil_r.
  - intros s1 s2 s3 [c1 H1] [c2 H2]. exists (c1 ++ c2). now rewrite H2, H1, app_assoc.
  - intros s c. now exists [c].
  - intros s k v _. exists []. now rewrite app_nil_r.
  - intros s p e. exists []. now rewrite app_nil_r.
Qed.

Section frame.
Context (w : Nav.world) (parse : string -> Bs.node)
        (debug_mode : bool) (html_pages_dir : string).
Context (R : Nav.state -> Nav.state -> Prop) (K : string -> Prop)
        (HR : Frame.invariant R K).

Lemma stable_ret {A} (a : A) : Frame.stable R (Nav.ret a).
Proof. intros s. apply (Frame.inv_refl _ _ HR). Qed.

Lemma stable_raise {A} (e : Py.exn) : Frame.stable R (@Nav.raise A e).
Proof. intros s. apply (Frame.inv_refl _ _ HR). Qed.

Lemma stable_bind {A B} (m : Nav.M A) (k : A -> Nav.M B) :
  Frame.stable R m -> (forall a, Frame.stable R (k a)) -> Frame.stable R (Nav.bind m k).
Proof.
  intros Hm Hk s. unfold Nav.bind. specialize (Hm s).
  destruct (m s) as [[a|e] s1]; simpl in *; [|exact Hm].
  eapply (Frame.inv_trans _ _ HR); [exact Hm|apply Hk].
Qed.

Lemma stable_try_except {A} (m : Nav.M A) (h : Py.exn -> Nav.M A) :
  Frame.stable R m -> (forall e, Frame.stable R (h e)) ->
  Frame.stable R (Nav.try_except m h).
Proof.
  intros Hm Hh s. unfold Nav.try_except. specialize (Hm s).
  destruct (m s) as [[a|e] s1]; simpl in *; [exact Hm|].
  eapply (Frame.inv_trans _ _ HR); [exact Hm|apply Hh].
Qed.

Lemma stable_perform (c : Nav.call) : Frame.stable R (Nav.perform w c).
Proof.
  intros s. unfold Nav.perform.
  destruct (Nav.raises w (Nav.trace s) c); apply (Frame.inv_call _ _ HR).
Qed.

Lemma stable_reads {A} (c : Nav.call) (f : Nav.state -> A) :
  Frame.stable R (fun s => Nav.bind (Nav.perform w c) (fun _ => Nav.ret (f s)) s).
Proof.
  intros s.
  exact (stable_bind (Nav.perform w c) (fun _ => Nav.ret (f s))
           (stable_perform c) (fun _ => stable_ret _) s).
Qed.

Lemma stable_store (k v : string) : K k -> Frame.stable R (Nav.store k v).
Proof. intros Hk s. apply (Frame.inv_store _ _ HR), Hk. Qed.

Lemma stable_stored : Frame.stable R Nav.stored.
Proof. intros s. apply (Frame.inv_refl _ _ HR). Qed.

Lemma stable_the_files : Frame.stable R Nav.the_files.
Proof. intros s. apply (Frame.inv_refl _ _ HR). Qed.

Lemma stable_write (path text : string) : Frame.stable R (Nav.write w path text).
Proof.
  unfold Nav.write. apply stable_bind; [apply stable_perform|].
  intros _ s. apply (Frame.inv_file _ _ HR).
Qed.

Lemma stable_when (b : bool) (m : Nav.M unit) :
  Frame.stable R m -> Frame.stable R (Nav.when b m).
Proof. intros H. destruct b; [exact H|apply stable_ret]. Qed.

Ltac stable_step :=
  first
    [ apply stable_ret
    | apply stable_raise
    | apply stable_perform
    | apply stable_reads
    | apply stable_stored
    | apply stable_the_files
    | apply stable_write
    | apply stable_store; assumption
    | apply stable_when
    | apply stable_bind; [|intros ?]
    | apply stable_try_except; [|intros ?]
    | assumption
    | match goal with
      | |- Frame.stable _ (match ?x with _ => _ end) => destruct x
      | |- Frame.stable _ (let _ := _ in _) => cbv zeta
      end ].

Ltac stable_auto := repeat stable_step.

Lemma stable_login (email password : option string) :
  Frame.stable R (Nav.login w email password).
Proof. unfold Nav.login, Nav.url. stable_auto. Qed.

Lemma stable_try_selectors (section : string) (selectors : list string) :
  K (section +:+ "_expanded_html") ->
  Frame.stable R (Nav.try_selectors w debug_mode html_pages_dir section selectors).
Proof.
  intros HK. induction selectors as [|selector rest IH]; simpl.
  - stable_auto.
  - unfold Nav.try_selector, Nav.get_attribute, Nav.content. stable_auto.
Qed.

Lemma stable_expand (section : string) :
  K (section +:+ "_expanded_html") ->
  Frame.stable R (Nav._expand_and_capture_section w debug_mode html_pages_dir section).
Proof.
  intros HK. unfold Nav._expand_and_capture_section. stable_auto.
  apply stable_try_selectors, HK.
Qed.

Lemma stable_about_link (selectors : list string) :
  Frame.stable R (Nav.about_link w selectors).
Proof.
  induction selectors as [|selector rest IH]; simpl.
  - stable_auto.
  - unfold Nav.about_link_with, Nav.query_selector, Nav.query_selector_all,
      Nav.get_attribute.
    stable_auto.
Qed.

Lemma stable_scrape_company (i : nat) (company_url : string) :
  (forall k, Frame.company_key k -> K k) ->
  Frame.stable R (Nav.scrape_company w debug_mode html_pages_dir i company_url).
Proof.
  intros HK.
  assert (K ("company_" +:+ pretty i +:+ "_main_html")) by (apply HK; exists i; auto).
  assert (K ("company_" +:+ pretty i +:+ "_about_html")) by (apply HK; exists i; auto).
  assert (K ("company_" +:+ pretty i +:+ "_html")) by (apply HK; exists i; auto).
  unfold Nav.scrape_company, Nav.content.
  stable_auto; apply stable_about_link.
Qed.

Lemma stable_scrape_companies_from (i : nat) (company_urls : list string) :
  (forall k, Frame.company_key k -> K k) ->
  Frame.stable R (Nav.scrape_companies_from w debug_mode html_pages_dir i company_urls).
Proof.
  intros HK. revert i. induction company_urls as [|url rest IH]; intros i; simpl.
  - apply stable_ret.
  - apply stable_bind; [apply stable_scrape_company, HK|intros _; apply IH].
Qed.

Lemma stable_scrape_company_about_pages :
  (forall k, Frame.company_key k -> K k) ->
  Frame.stable R (Nav.scrape_company_about_pages w parse debug_mode html_pages_dir).
Proof.
  intros HK. unfold Nav.scrape_company_about_pages.
  apply stable_try_except; [|intros _; apply stable_ret].
  apply stable_bind; [apply stable_stored|intros d].
  apply stable_bind; [apply stable_the_files|intros fs]. cbv zeta.
  match goal with
  | |- Frame.stable _ (match ?x with _ => _ end) => destruct x
  end; [apply stable_ret|].
  apply stable_bind; [apply stable_when, stable_perform|intros _].
  apply stable_scrape_companies_from, HK.
Qed.

Lemma stable_scrape_profile (profile_url : string) (email password : option string)
    (scrape_companies : bool) :
  (forall k, Frame.document_key k -> K k) ->
  Frame.stable R
    (Nav.scrape_profile w parse debug_mode html_pages_dir profile_url email password
       scrape_companies).
Proof.
  intros HK.
  assert (K "profile_html") by (apply HK; left; reflexivity).
  assert (forall section, In section Frame.sections -> K (section +:+ "_expanded_html"))
    as Hsection by (intros section Hin; apply HK; right; left; exists section; auto).
  assert (forall k, Frame.company_key k -> K k) as Hcompany
    by (intros k Hk; apply HK; right; right; exact Hk).
  unfold Nav.scrape_profile, Nav.content.
  destruct (Nav.credential w email "LINKEDIN_EMAIL") as [e|];
    [destruct (Nav.credential w password "LINKEDIN_PASSWORD") as [p|]|];
    try apply stable_raise.
  apply stable_bind; [apply stable_login|intros _].
  apply stable_try_except; [|intros e'; apply stable_raise].
  repeat (apply stable_bind;
          [solve [ apply stable_expand, Hsection; simpl; tauto
                 | apply stable_when;
                   first [apply stable_write
                         |apply stable_scrape_company_about_pages, Hcompany]
                 | apply stable_perform
                 | apply stable_reads
                 | apply stable_store; assumption
                 | apply stable_stored ]
          |intros ?]).
  apply stable_ret.
Qed.

(** After the first call of a guarded block the rest cannot undo it. *)
Lemma stable_after_perform {A} (c : Nav.call) (k : unit -> Nav.M A)
    (h : Py.exn -> Nav.M A) (s : Nav.state) :
  (forall a, Frame.stable R (k a)) -> (forall e, Frame.stable R (h e)) ->
  R (Nav.State (Nav.trace s ++ [c]) (Nav.html_content s) (Nav.files s))
    (snd (Nav.try_except (Nav.bind (Nav.perform w c) k) h s)).
Proof.
  intros Hk Hh.
  unfold Nav.try_except, Nav.bind, Nav.perform.
  destruct (Nav.raises w (Nav.trace s) c); simpl.
  - apply Hh.
  - apply (stable_try_except (k tt) h (Hk tt) Hh).
Qed.

Lemma scrape_company_after_goto (i : nat) (company_url : string) (s : Nav.state) :
  (forall k, Frame.company_key k -> K k) ->
  R (Nav.State (Nav.trace s ++ [Nav.Goto company_url]) (Nav.html_content s) (Nav.files s))
    (snd (Nav.scrape_company w debug_mode html_pages_dir i company_url s)).
Proof.
  intros HK.
  assert (K ("company_" +:+ pretty i +:+ "_main_html")) by (apply HK; exists i; auto).
  assert (K ("company_" +:+ pretty i +:+ "_about_html")) by (apply HK; exists i; auto).
  assert (K ("company_" +:+ pretty i +:+ "_html")) by (apply HK; exists i; auto).
  unfold Nav.scrape_company, Nav.content. cbv zeta.
  apply stable_after_perform; [intros _|intros _; apply stable_ret].
  stable_auto; apply stable_about_link.
Qed.

Lemma bind_returns {A B} (m : Nav.M A) (k : A -> Nav.M B) (s s' : Nav.state) (b : B) :
  Nav.bind m k s = (Py.Ok b, s') ->
  exists a s1, m s = (Py.Ok a, s1) /\ k a s1 = (Py.Ok b, s').
Proof.
  unfold Nav.bind. destruct (m s) as [[a|e] s1]; [|discriminate].
  intros H. now exists a, s1.
Qed.

Lemma reraise_returns {A} (m : Nav.M A) (s s' : Nav.state) (a : A) :
  Nav.try_except m (fun e => Nav.raise e) s = (Py.Ok a, s') -> m s = (Py.Ok a, s').
Proof.
  unfold Nav.try_except, Nav.raise. destruct (m s) as [[a'|e] s1]; [auto|discriminate].
Qed.

(** A run of [scrape_profile] that returns has stored the profile, and what
    follows the assignment respects [R]; it returns [True] with the mapping
    as it is at the end. *)
Lemma scrape_profile_after_store (profile_url : string) (email password : option string)
    (scrape_companies : bool) (s s' : Nav.state) (b : bool) (d : list (string * string)) :
  (forall k, Frame.document_key k -> K k) ->
  Nav.scrape_profile w parse debug_mode html_pages_dir profile_url email password
    scrape_companies s = (Py.Ok (b, d), s') ->
  b = true /\ d = Nav.html_content s'
  /\ exists s3 v,
       R (Nav.State (Nav.trace s3) (PyDict.set "profile_html" v (Nav.html_content s3))
            (Nav.files s3)) s'.
Proof.
  intros HK.
  assert (forall section, In section Frame.sections -> K (section +:+ "_expanded_html"))
    as Hsection by (intros section Hin; apply HK; right; left; exists section; auto).
  assert (forall k, Frame.company_key k -> K k) as Hcompany
    by (intros k Hk; apply HK; right; right; exact Hk).
  unfold Nav.scrape_profile, Nav.content.
  destruct (Nav.credential w email "LINKEDIN_EMAIL") as [e|];
    [destruct (Nav.credential w password "LINKEDIN_PASSWORD") as [p|]|];
    try discriminate.
  intros H.
  apply bind_returns in H. destruct H as (_ & s1 & _ & H).
  apply reraise_returns in H.
  apply bind_returns in H. destruct H as (_ & s2 & _ & H).
  apply bind_returns in H. destruct H as (_ & s3 & _ & H).
  apply bind_returns in H. destruct H as (v & s4 & _ & H).
  apply bind_returns in H. destruct H as (u & s5 & Hstore & H).
  unfold Nav.store in Hstore. apply (f_equal snd) in Hstore. simpl in Hstore. subst s5.
  match type of H with
  | ?tail ?st = _ =>
      assert (R st (snd (tail st))) as Hstable;
        [apply (fun (m : Nav.M _) (Hm : Frame.stable R m) => Hm st)|]
  end; [|rewrite H in Hstable; simpl in Hstable].
  - repeat (apply stable_bind;
            [solve [ apply stable_expand, Hsection; simpl; tauto
                   | apply stable_when;
                     first [apply stable_write
                           |apply stable_scrape_company_about_pages, Hcompany]
                   | apply stable_perform
                   | apply stable_stored ]
            |intros ?]).
    apply stable_ret.
  - repeat (apply bind_returns in H; destruct H as (? & ? & ? & H)).
    match goal with
    | Hst : Nav.stored _ = _ |- _ => unfold Nav.stored in Hst; injection Hst as Hd Hs
    end.
    unfold Nav.ret in H. injection H as Hb Hd' Hs'. subst.
    split; [reflexivity|]. split; [reflexivity|]. exists s4, v. exact Hstable.
Qed.

Lemma credential_given (given : option string) (name name' value : string) :
  Nav.credential w given name = Some value ->
  Nav.credential w (Some value) name' = Some value.
Proof.
  unfold Nav.credential. intros H.
  destruct given as [[|c r]|]; [| |];
    try (destruct (Nav.environ w name) as [[|c r]|]; try discriminate);
    injection H as <-; reflexivity.
Qed.

Lemma login_after_start (email password : option string) (e p : string) (s : Nav.state) :
  Nav.credential w email "LINKEDIN_EMAIL" = Some e ->
  Nav.credential w password "LINKEDIN_PASSWORD" = Some p ->
  R (Nav.State (Nav.trace s ++ [Nav.StartPlaywright]) (Nav.html_content s) (Nav.files s))
    (snd (Nav.login w (Some e) (Some p) s)).
Proof.
  intros He Hp. unfold Nav.login.
  rewrite (credential_given _ _ _ _ He), (credential_given _ _ _ _ Hp).
  unfold Nav.url. apply stable_after_perform; intros ?; stable_auto.
Qed.

(** With both credentials, [R] holds from the state just after the browser
    driver was started to the end of [scrape_profile]. *)
Lemma scrape_profile_after_start (profile_url : string) (email password : option string)
    (scrape_companies : bool) (e p : string) (s : Nav.state) :
  (forall k, Frame.document_key k -> K k) ->
  Nav.credential w email "LINKEDIN_EMAIL" = Some e ->
  Nav.credential w password "LINKEDIN_PASSWORD" = Some p ->
  R (Nav.State (Nav.trace s ++ [Nav.StartPlaywright]) (Nav.html_content s) (Nav.files s))
    (snd (Nav.scrape_profile w parse debug_mode html_pages_dir profile_url email password
            scrape_companies s)).
Proof.
  intros HK He Hp.
  assert (K "profile_html") by (apply HK; left; reflexivity).
  assert (forall section, In section Frame.sections -> K (section +:+ "_expanded_html"))
    as Hsection by (intros section Hin; apply HK; right; left; exists section; auto).
  assert (forall k, Frame.company_key k -> K k) as Hcompany
    by (intros k Hk; apply HK; right; right; exact Hk).
  unfold Nav.scrape_profile, Nav.content. rewrite He, Hp. unfold Nav.bind at 1.
  pose proof (login_after_start email password e p s He Hp) as Hlogin.
  destruct (Nav.login w (Some e) (Some p) s) as [[[]|err] s1]; simpl in *; [|exact Hlogin].
  eapply (Frame.inv_trans _ _ HR); [exact Hlogin|].
  apply (fun (m : Nav.M _) (Hm : Frame.stable R m) => Hm s1).
  apply stable_try_except; [|intros e'; apply stable_raise].
  repeat (apply stable_bind;
          [solve [ apply stable_expand, Hsection; simpl; tauto
                 | apply stable_when;
                   first [apply stable_write
                         |apply stable_scrape_company_about_pages, Hcompany]
                 | apply stable_perform
                 | apply stable_reads
                 | apply stable_store; assumption
                 | apply stable_stored ]
          |intros ?]).
  apply stable_ret.
Qed.

End frame.

(** ** The document keys, from the controller to the assembler *)

Lemma substring_all (s : string) : String.substring 0 (String.length s) s = s.
Proof. induction s as [|c r IH]; simpl; [reflexivity|now rewrite IH]. Qed.

Lemma substring_skip (pre s : string) (k : nat) :
  String.substring (String.length pre) k (pre +:+ s) = String.substring 0 k s.
Proof. induction pre as [|c r IH]; simpl; [reflexivity|exact IH]. Qed.

Lemma length_append (a b : string) :
  String.length (a +:+ b) = String.length a + String.length b.
Proof. induction a as [|c r IH]; simpl; [reflexivity|now rewrite IH]. Qed.

Lemma append_cons (c : ascii) (a b : string) : String c a +:+ b = String c (a +:+ b).
Proof. reflexivity. Qed.

Lemma substring_split (s : string) (m : nat) :
  m <= String.length s ->
  s = String.substring 0 m s +:+ String.substring m (String.length s - m) s.
Proof.
  revert m. induction s as [|c r IH]; intros m Hm; simpl in *.
  - destruct m; [reflexivity|lia].
  - destruct m as [|m]; simpl.
    + now rewrite substring_all.
    + rewrite append_cons. f_equal. apply IH. lia.
Qed.

(** [s.endswith(p)] holds exactly when [s] is some text followed by [p]. *)
Lemma endswith_spec (p s : string) :
  PyStr.endswith p s = true <-> exists pre, s = pre +:+ p.
Proof.
  unfold PyStr.endswith. split.
  - intros H. apply andb_prop in H. destruct H as [Hle Heq].
    apply Nat.leb_le in Hle. apply String.eqb_eq in Heq.
    exists (String.substring 0 (String.length s - String.length p) s).
    rewrite (substring_split s (String.length s - String.length p)) at 1 by lia.
    f_equal.
    replace (String.length s - (String.length s - String.length p))
      with (String.length p) by lia.
    exact Heq.
  - intros [pre ->]. rewrite length_append.
    replace (String.length pre + String.length p - String.length p)
      with (String.length pre) by lia.
    rewrite substring_skip, substring_all, String.eqb_refl, andb_true_r.
    apply Nat.leb_le. lia.
Qed.

Lemma append_assoc (a b c : string) : (a +:+ b) +:+ c = a +:+ (b +:+ c).
Proof. induction a as [|x r IH]; [reflexivity|]. now rewrite !append_cons, IH. Qed.

(** Two texts that end with the same tail after one more character end with
    the same character. *)
Lemma append_last (a b tail : string) (c c' : ascii) :
  a +:+ String c tail = b +:+ String c' tail -> c = c'.
Proof.
  revert b. induction a as [|x a IH]; intros [|y b] H.
  - change (String c tail = String c' tail) in H. congruence.
  - exfalso. change (String c tail = String y (b +:+ String c' tail)) in H.
    injection H as _ H. apply (f_equal String.length) in H.
    rewrite length_append in H. simpl in H. lia.
  - exfalso. change (String x (a +:+ String c tail) = String c' tail) in H.
    injection H as _ H. apply (f_equal String.length) in H.
    rewrite length_append in H. simpl in H. lia.
  - change (String x (a +:+ String c tail) = String y (b +:+ String c' tail)) in H.
    injection H as _ H. exact (IH b H).
Qed.

Lemma pretty_N_go_tail (x : N) (s : string) : exists d, pretty_N_go x s = d +:+ s.
Proof.
  revert s. induction (N.lt_wf_0 x) as [x _ IH]; intros s.
  destruct (decide (0 < x)%N) as [Hx|Hx].
  - rewrite pretty_N_go_step by exact Hx.
    destruct (IH (x `div` 10)%N (N.div_lt x 10 Hx eq_refl)
                (String (pretty_N_char (x `mod` 10)) s)) as [d ->].
    exists (d +:+ String (pretty_N_char (x `mod` 10)) ""). now rewrite append_assoc.
  - assert (x = 0%N) as -> by lia. now exists "".
Qed.

Lemma pretty_N_char_digit (x : N) : PyStr.isdigit (pretty_N_char x) = true.
Proof.
  unfold pretty_N_char. repeat (case_match; try reflexivity).
Qed.

(** The decimal writing of a number ends with a digit. *)
Lemma pretty_nat_last (i : nat) :
  exists d c, pretty i = d +:+ String c "" /\ PyStr.isdigit c = true.
Proof.
  unfold pretty, pretty_nat, pretty, pretty_N.
  destruct (decide (N.of_nat i = 0%N)) as [_|Hi].
  - now exists "", "0"%char.
  - rewrite pretty_N_go_step by lia.
    destruct (pretty_N_go_tail (N.of_nat i `div` 10)
                (String (pretty_N_char (N.of_nat i `mod` 10)) "")) as [d ->].
    exists d, (pretty_N_char (N.of_nat i `mod` 10)). split; [reflexivity|].
    apply pretty_N_char_digit.
Qed.

Lemma not_endswith_letter (word text tail : string) (letter c : ascii) :
  letter <> c ->
  PyStr.endswith (word +:+ String letter tail) (text +:+ String c tail) = false.
Proof.
  intros Hletter. apply not_true_is_false. intros H.
  apply endswith_spec in H. destruct H as [pre H].
  rewrite <- append_assoc in H. apply append_last in H. congruence.
Qed.

Lemma not_endswith_after_digit (i : nat) (word : string) (letter : ascii) :
  PyStr.isdigit letter = false ->
  PyStr.endswith (word +:+ String letter "_html") ("company_" +:+ pretty i +:+ "_html")
  = false.
Proof.
  intros Hletter.
  destruct (pretty_nat_last i) as (d & c & Hd & Hc). rewrite Hd.
  replace ("company_" +:+ (d +:+ String c "") +:+ "_html")
    with (("company_" +:+ d) +:+ String c "_html")
    by (now rewrite !append_assoc).
  apply not_endswith_letter. congruence.
Qed.

Lemma startswith_append (p s : string) : PyStr.startswith p (p +:+ s) = true.
Proof.
  unfold PyStr.startswith. induction p as [|c r IH]; [now destruct s|].
  rewrite append_cons. simpl. now destruct (ascii_dec c c).
Qed.

Lemma endswith_append (pre p : string) : PyStr.endswith p (pre +:+ p) = true.
Proof. apply endswith_spec. now exists pre. Qed.

(** The three keys of a company are different. *)
Lemma company_keys_distinct (i : nat) :
  "company_" +:+ pretty i +:+ "_main_html" <> "company_" +:+ pretty i +:+ "_about_html"
  /\ "company_" +:+ pretty i +:+ "_main_html" <> "company_" +:+ pretty i +:+ "_html"
  /\ "company_" +:+ pretty i +:+ "_about_html" <> "company_" +:+ pretty i +:+ "_html".
Proof.
  assert (PyStr.endswith "_main_html" ("company_" +:+ pretty i +:+ "_main_html") = true)
    as Hmain by (rewrite <- append_assoc; apply endswith_append).
  assert (PyStr.endswith "_about_html" ("company_" +:+ pretty i +:+ "_about_html") = true)
    as Habout by (rewrite <- append_assoc; apply endswith_append).
  pose proof (not_endswith_after_digit i "_mai" "n" eq_refl) as Hmain'.
  pose proof (not_endswith_after_digit i "_abou" "t" eq_refl) as Habout'.
  change ("_mai" +:+ String "n" "_html") with "_main_html" in Hmain'.
  change ("_abou" +:+ String "t" "_html") with "_about_html" in Habout'.
  assert (PyStr.endswith "_main_html" ("company_" +:+ pretty i +:+ "_about_html") = false)
    as Hcross.
  { replace ("company_" +:+ pretty i +:+ "_about_html")
      with (("company_" +:+ pretty i +:+ "_abou") +:+ String "t" "_html")
      by (now rewrite !append_assoc).
    apply (not_endswith_letter "_mai" _ "_html" "n" "t"). discriminate. }
  split; [|split]; intros E.
  - rewrite E in Hmain. congruence.
  - rewrite E in Hmain. congruence.
  - rewrite E in Habout. congruence.
Qed.

(** X20.  The controller and the assembler agree on the keys.  Among the
    keys the controller writes, the assembler's [extract_companies] picks
    exactly the resolved company documents "company_<i>_html": it passes
    over "profile_html", the expanded sections, and the main and about
    pages "company_<i>_main_html" and "company_<i>_about_html". *)
Theorem assembler_reads_resolved_company_keys (self : ProfileBuilder.t) (key : string) :
  Forall Frame.document_key (PyDict.keys (ProfileBuilder.html_content_dict self)) ->
  In key (ProfileBuilder.company_keys self)
  <-> In key (PyDict.keys (ProfileBuilder.html_content_dict self))
      /\ exists i : nat, key = "company_" +:+ pretty i +:+ "_html".
Proof.
  intros Hkeys. unfold ProfileBuilder.company_keys.
  rewrite filter_In. split.
  - intros [Hin Htest]. split; [exact Hin|].
    rewrite Forall_forall in Hkeys. specialize (Hkeys key).
    specialize (Hkeys (proj2 (list_elem_of_In _ _) Hin)).
    destruct Hkeys as [-> | [(section & Hsection & ->) | (i & [-> | [-> | ->]])]].
    + discriminate.
    + simpl in Hsection.
      destruct Hsection as [<- | [<- | [<- | [<- | [<- | [<- | []]]]]]]; discriminate.
    + exfalso. apply andb_prop in Htest. destruct Htest as [Htest _].
      apply andb_prop in Htest. destruct Htest as [_ Hmain].
      rewrite <- append_assoc, endswith_append in Hmain. discriminate.
    + exfalso. apply andb_prop in Htest. destruct Htest as [_ Habout].
      rewrite <- append_assoc, endswith_append in Habout. discriminate.
    + now exists i.
  - intros [Hin [i ->]]. split; [exact Hin|].
    assert (PyStr.endswith "_html" ("company_" +:+ pretty i +:+ "_html") = true) as Hhtml
      by (apply endswith_spec; exists ("company_" +:+ pretty i); now rewrite append_assoc).
    pose proof (not_endswith_after_digit i "_mai" "n" eq_refl) as Hmain.
    pose proof (not_endswith_after_digit i "_abou" "t" eq_refl) as Habout.
    change ("_mai" +:+ String "n" "_html") with "_main_html" in Hmain.
    change ("_abou" +:+ String "t" "_html") with "_about_html" in Habout.
    now rewrite startswith_append, Hhtml, Hmain, Habout.
Qed.

Lemma assembler_reads_resolved_company_keys_witness :
  In "company_1_html"
     (ProfileBuilder.company_keys (Sample.assembler Sample.captured_companies None))
  /\ ~ In "company_1_main_html"
       (ProfileBuilder.company_keys (Sample.assembler Sample.captured_companies None)).
Proof.
  assert (Forall Frame.document_key
            (PyDict.keys (ProfileBuilder.html_content_dict
                            (Sample.assembler Sample.captured_companies None)))) as Hkeys.
  { unfold Sample.assembler, Sample.captured_companies. simpl.
    repeat match goal with
           | |- Forall _ (_ :: _) => apply Forall_cons_2
           | |- Forall _ [] => apply Forall_nil_2
           end.
    - left. reflexivity.
    - right. right. exists 0. left. reflexivity.
    - right. right. exists 0. right. left. reflexivity.
    - right. right. exists 0. right. right. reflexivity.
    - right. right. exists 1. left. reflexivity.
    - right. right. exists 1. right. right. reflexivity.
    - right. right. exists 2. right. right. reflexivity. }
  split.
  - apply (assembler_reads_resolved_company_keys _ "company_1_html" Hkeys).
    split; [simpl; tauto|]. exists 1. reflexivity.
  - intros Hin.
    apply (assembler_reads_resolved_company_keys _ "company_1_main_html" Hkeys) in Hin.
    destruct Hin as [_ [i Hi]].
    destruct (company_keys_distinct 1) as (_ & Hmb & _).
    apply (f_equal (PyStr.endswith "_main_html")) in Hi.
    pose proof (not_endswith_after_digit i "_mai" "n" eq_refl) as Hnot.
    change ("_mai" +:+ String "n" "_html") with "_main_html" in Hnot.
    rewrite Hnot in Hi. vm_compute in Hi. discriminate.
Defined.

(** ** The section methods of the assembler, block by block *)

Lemma collecting_loop (E : option (list string)) (hm : Bs.node -> bool)
    (loop : list Bs.node -> list string -> list string) :
  (forall acc, loop [] acc = acc) ->
  (forall section rest acc,
     loop (section :: rest) acc
     = if hm section
       then match (if Shape.says_show_all section then E else None) with
            | Some l => l
            | None => loop rest (acc ++ [ProfileBuilder.full_text_of section])
            end
       else loop rest acc) ->
  forall sections acc,
    loop sections acc
    = match E with
      | Some items =>
          if existsb Shape.says_show_all (List.filter hm sections) then items
          else acc ++ map ProfileBuilder.full_text_of (List.filter hm sections)
      | None => acc ++ map ProfileBuilder.full_text_of (List.filter hm sections)
      end.
Proof.
  intros Hnil Hcons sections.
  induction sections as [|section rest IH]; intros acc.
  - rewrite Hnil. simpl. rewrite app_nil_r. now destruct E.
  - rewrite Hcons. simpl. destruct (hm section); [|apply IH].
    simpl. destruct (Shape.says_show_all section); simpl.
    + destruct E; [reflexivity|]. rewrite IH. now rewrite <- app_assoc.
    + rewrite IH. destruct E; now rewrite <- app_assoc.
Qed.

Lemma first_block_loop (E : option (list string)) (hm : Bs.node -> bool)
    (loop : list Bs.node -> list string -> list string) :
  (forall acc, loop [] acc = acc) ->
  (forall section rest acc,
     loop (section :: rest) acc
     = if hm section
       then match (if Shape.says_show_all section then E else None) with
            | Some l => l
            | None => acc ++ [ProfileBuilder.full_text_of section]
            end
       else loop rest acc) ->
  forall sections acc,
    loop sections acc
    = match List.filter hm sections with
      | [] => acc
      | block :: _ =>
          match E with
          | Some items =>
              if Shape.says_show_all block then items
              else acc ++ [ProfileBuilder.full_text_of block]
          | None => acc ++ [ProfileBuilder.full_text_of block]
          end
      end.
Proof.
  intros Hnil Hcons sections acc.
  induction sections as [|section rest IH].
  - now rewrite Hnil.
  - rewrite Hcons. simpl. destruct (hm section); [|apply IH].
    destruct (Shape.says_show_all section), E; reflexivity.
Qed.

(** The six loops in closed form, from any list of cards and any list built
    so far. *)
Lemma loop_outcome (parse : string -> Bs.node) (fs : gmap string Py.entry)
    (k : Props.section_kind) (self : ProfileBuilder.t)
    (sections : list Bs.node) (acc : list string) :
  let matching := List.filter (Props.heading_matches k) sections in
  let expansion := Shape.expansion parse fs k self in
  Shape.loop parse fs k self sections acc
  = if Shape.collects_all k
    then
      match expansion with
      | Some items =>
          if existsb Shape.says_show_all matching then items
          else acc ++ map ProfileBuilder.full_text_of matching
      | None => acc ++ map ProfileBuilder.full_text_of matching
      end
    else
      match matching with
      | [] => acc
      | block :: _ =>
          match expansion with
          | Some items =>
              if Shape.says_show_all block then items
              else acc ++ [ProfileBuilder.full_text_of block]
          | None => acc ++ [ProfileBuilder.full_text_of block]
          end
      end.
Proof.
  cbv zeta. destruct k.
  - exact (collecting_loop (Shape.expansion parse fs Props.Experiences self)
             (Props.heading_matches Props.Experiences)
             (ProfileBuilder.experiences_loop parse fs self)
             (fun _ => eq_refl) (fun _ _ _ => eq_refl) sections acc).
  - exact (collecting_loop (Shape.expansion parse fs Props.Education self)
             (Props.heading_matches Props.Education)
             (ProfileBuilder.education_loop parse fs self)
             (fun _ => eq_refl) (fun _ _ _ => eq_refl) sections acc).
  - exact (first_block_loop (Shape.expansion parse fs Props.Skills self)
             (Props.heading_matches Props.Skills)
             (ProfileBuilder.skills_loop parse fs self)
             (fun _ => eq_refl) (fun _ _ _ => eq_refl) sections acc).
  - exact (first_block_loop (Shape.expansion parse fs Props.Languages self)
             (Props.heading_matches Props.Languages)
             (ProfileBuilder.languages_loop parse fs self)
             (fun _ => eq_refl) (fun _ _ _ => eq_refl) sections acc).
  - exact (first_block_loop (Shape.expansion parse fs Props.Licenses self)
             (Props.heading_matches Props.Licenses)
             (ProfileBuilder.licenses_loop parse fs self)
             (fun _ => eq_refl) (fun _ _ _ => eq_refl) sections acc).
  - exact (first_block_loop (Shape.expansion parse fs Props.Projects self)
             (Props.heading_matches Props.Projects)
             (ProfileBuilder.projects_loop parse fs self)
             (fun _ => eq_refl) (fun _ _ _ => eq_refl) sections acc).
Qed.

Lemma assembled_loop (parse : string -> Bs.node) (fs : gmap string Py.entry)
    (k : Props.section_kind) (self : ProfileBuilder.t) :
  Props.assembled parse fs k self
  = Shape.loop parse fs k self (ProfileBuilder.all_sections self) [].
Proof. destruct k; reflexivity. Qed.

(** X1.  Each of the six section methods of the assembler is determined by
    the profile cards whose heading matches and by what its [try] block
    returns.  [extract_experiences] and [extract_education] return the
    expanded items as soon as one matching card says "Show all" and the
    [try] block returns, and otherwise the flattened text of every matching
    card, in document order.  The four other methods look at the first
    matching card only: the expanded items if it says "Show all" and the
    [try] block returns, its flattened text otherwise, and the empty list
    when no card matches. *)
Theorem section_method_outcome (parse : string -> Bs.node) (fs : gmap string Py.entry)
    (k : Props.section_kind) (self : ProfileBuilder.t) :
  Props.assembled parse fs k self
  = Shape.outcome k self (Shape.expansion parse fs k self).
Proof.
  rewrite assembled_loop, loop_outcome.
  unfold Shape.outcome, Shape.inline, Shape.blocks.
  destruct (Shape.collects_all k); [reflexivity|].
  destruct (List.filter _ _); reflexivity.
Qed.

Lemma blocks_of_section_block (k : Props.section_kind) (self : ProfileBuilder.t)
    (block : Bs.node) :
  Props.section_block k self block -> exists rest, Shape.blocks k self = block :: rest.
Proof.
  intros (before & after & Hall & Hbefore & Hblock).
  unfold Shape.blocks. rewrite Hall. clear Hall.
  induction Hbefore as [|x before Hx _ IH]; simpl.
  - rewrite Hblock. eauto.
  - rewrite Hx. exact IH.
Qed.

Lemma loop_expanded (parse : string -> Bs.node) (fs : gmap string Py.entry)
    (k : Props.section_kind) (self : ProfileBuilder.t)
    (block : Bs.node) (items : list string) :
  Props.section_block k self block -> Props.truncated block ->
  Shape.expansion parse fs k self = Some items ->
  Props.assembled parse fs k self = items.
Proof.
  intros Hblock Htrunc Hexpansion.
  destruct (blocks_of_section_block _ _ _ Hblock) as [rest Hrest].
  unfold Shape.blocks in Hrest.
  rewrite assembled_loop, loop_outcome. cbv zeta. rewrite Hexpansion, Hrest. simpl.
  unfold Props.truncated in Htrunc. unfold Shape.says_show_all. rewrite Htrunc.
  now destruct (Shape.collects_all k).
Qed.

Lemma loop_inline (parse : string -> Bs.node) (fs : gmap string Py.entry)
    (k : Props.section_kind) (self : ProfileBuilder.t) :
  Shape.expansion parse fs k self = None
  \/ Forall (fun block => Shape.says_show_all block = false) (Shape.blocks k self) ->
  Props.assembled parse fs k self
  = if Shape.collects_all k then Shape.inline k self else firstn 1 (Shape.inline k self).
Proof.
  intros H. rewrite assembled_loop, loop_outcome. cbv zeta.
  unfold Shape.inline, Shape.blocks in *.
  destruct H as [-> | Hnone].
  - destruct (Shape.collects_all k); [reflexivity|].
    now destruct (List.filter _ _).
  - assert (existsb Shape.says_show_all
              (List.filter (Props.heading_matches k) (ProfileBuilder.all_sections self))
            = false) as Hex.
    { induction Hnone as [|x l Hx _ IH]; simpl; [reflexivity|]. now rewrite Hx. }
    rewrite Hex. destruct (Shape.collects_all k).
    + now destruct (Shape.expansion parse fs k self).
    + destruct Hnone as [|x l Hx _]; [reflexivity|]. rewrite Hx. simpl.
      now destruct (Shape.expansion parse fs k self).
Qed.

Lemma join_truthy (c : ascii) (r file_name : string) :
  exists c' r', Py.join (String c r) file_name = String c' r'.
Proof.
  unfold Py.join. simpl PyStr.truthy. cbv iota.
  destruct (PyStr.endswith "/" (String c r)); simpl; eauto.
Qed.

(** With no document under the key, a session directory and the section's
    file in it, the [try] block returns what the scraper extracts from the
    file. *)
Lemma expansion_from_file (parse : string -> Bs.node) (fs : gmap string Py.entry)
    (k : Props.section_kind) (self : ProfileBuilder.t) (dir content : string) :
  PyDict.get (Props.expanded_key k) (ProfileBuilder.html_content_dict self) = None ->
  ProfileBuilder.session_dir self = Some dir -> dir <> "" ->
  fs !! Py.join dir (Shape.expanded_file k) = Some (Py.File content) ->
  Shape.expansion parse fs k self
  = Some (Props.extractor k (SectionScraper.Build content (parse content))).
Proof.
  intros Hget Hdir Hne Hfile. unfold Shape.expansion, ProfileBuilder.expanded.
  unfold PyDict.mem. rewrite Hget, andb_false_r, Hdir.
  destruct dir as [|c r]; [congruence|].
  unfold Py.exists_. rewrite Hfile.
  destruct (join_truthy c r (Shape.expanded_file k)) as (c' & r' & Hjoin).
  rewrite Hjoin in *.
  destruct k; simpl; unfold SectionScraper.init, Py.read; rewrite Hfile; reflexivity.
Qed.

(** X2.  The session directory is the fallback of the mapping.  When the
    section block of the profile says "Show all", the mapping has no
    document under the section's key, and the session directory holds the
    file "<section>_expanded_html.txt", the method returns what the
    section's scraper extracts from that file, not the inline text. *)
Theorem session_file_fallback (parse : string -> Bs.node) (fs : gmap string Py.entry)
    (k : Props.section_kind) (self : ProfileBuilder.t) (block : Bs.node)
    (dir content : string) :
  Props.section_block k self block ->
  Props.truncated block ->
  PyDict.get (Props.expanded_key k) (ProfileBuilder.html_content_dict self) = None ->
  ProfileBuilder.session_dir self = Some dir -> dir <> "" ->
  fs !! Py.join dir (Shape.expanded_file k) = Some (Py.File content) ->
  Props.assembled parse fs k self
  = Props.extractor k (SectionScraper.Build content (parse content)).
Proof.
  intros Hblock Htrunc Hget Hdir Hne Hfile.
  apply (loop_expanded parse fs k self block); [exact Hblock|exact Htrunc|].
  now apply (expansion_from_file parse fs k self dir content).
Qed.

Lemma session_file_fallback_witness :
  Props.assembled Sample.parse
    {[ "session/experiences_expanded_html.txt" := Py.File Sample.experience_text ]}
    Props.Experiences
    (Sample.assembler [("profile_html", Sample.profile_text)] (Some "session"))
  = ["Acme | Jan 2020 - Present | Babbage | Mar 2015 - Dec 2019 | Acme | Feb 2021 - Present"].
Proof.
  refine (eq_trans (session_file_fallback Sample.parse _ Props.Experiences _
                      Sample.experience_block "session" Sample.experience_text
                      _ _ _ _ _ _) _).
  - apply sample_experience_block.
  - reflexivity.
  - reflexivity.
  - reflexivity.
  - discriminate.
  - vm_compute. reflexivity.
  - vm_compute. reflexivity.
Defined.

(** X3.  An empty document in the mapping hides the session file.  When
    the mapping has the section's key with an empty document, the scraper's
    constructor rejects it, the handler logs the error, and the session
    directory is not looked at: whatever the files, the method returns the
    inline text, of every matching card for experiences and education, of
    the first one for the other sections. *)
Theorem empty_document_hides_session_file (parse : string -> Bs.node)
    (fs : gmap string Py.entry) (k : Props.section_kind) (self : ProfileBuilder.t) :
  PyDict.get (Props.expanded_key k) (ProfileBuilder.html_content_dict self) = Some "" ->
  Props.assembled parse fs k self
  = if Shape.collects_all k then Shape.inline k self else firstn 1 (Shape.inline k self).
Proof.
  intros Hget. apply loop_inline. left.
  unfold Shape.expansion, ProfileBuilder.expanded.
  destruct (dict_get_mem _ _ _ Hget) as [-> ->]. rewrite Hget.
  destruct k; reflexivity.
Qed.

Lemma empty_document_hides_session_file_witness :
  Props.assembled Sample.parse
    {[ "session/experiences_expanded_html.txt" := Py.File Sample.experience_text ]}
    Props.Experiences (Sample.assembler Sample.captured_empty (Some "session"))
  = ["Experience | Engineer at Acme | Show all 5 experiences"].
Proof.
  refine (eq_trans (empty_document_hides_session_file Sample.parse _ Props.Experiences
                      _ _) _).
  - reflexivity.
  - vm_compute. reflexivity.
Defined.

(** X4.  The expanded documents are consulted only for a card that says
    "Show all".  When no card of the section does, the method returns the
    inline text, of every matching card for experiences and education, of
    the first one for the other sections, whatever the mapping, the session
    directory and the files hold. *)
Theorem complete_sections_stay_inline (parse : string -> Bs.node)
    (fs : gmap string Py.entry) (k : Props.section_kind) (self : ProfileBuilder.t) :
  Forall (fun block => Shape.says_show_all block = false) (Shape.blocks k self) ->
  Props.assembled parse fs k self
  = (if Shape.collects_all k then Shape.inline k self else firstn 1 (Shape.inline k self))
  /\ forall fs' documents dir,
       Props.assembled parse fs' k
         (ProfileBuilder.Build documents (ProfileBuilder.html_content self)
            (ProfileBuilder.soup self) dir)
       = Props.assembled parse fs k self.
Proof.
  intros Hnone. split.
  - apply loop_inline. now right.
  - intros fs' documents dir.
    rewrite (loop_inline parse fs k self) by (right; exact Hnone).
    rewrite (loop_inline parse fs' k) by (right; exact Hnone).
    reflexivity.
Qed.

Lemma complete_sections_stay_inline_witness :
  Props.assembled Sample.parse ∅ Props.Education Cases.complete
  = ["Education | Cambridge"; "Continuing Education | Turin"]
  /\ Props.assembled Sample.parse ∅ Props.Skills Cases.complete = ["Skills | Analysis"].
Proof.
  split.
  - refine (eq_trans (proj1 (complete_sections_stay_inline Sample.parse ∅ Props.Education
                               Cases.complete _)) _).
    + vm_compute. repeat constructor.
    + vm_compute. reflexivity.
  - refine (eq_trans (proj1 (complete_sections_stay_inline Sample.parse ∅ Props.Skills
                               Cases.complete _)) _).
    + vm_compute. repeat constructor.
    + vm_compute. reflexivity.
Defined.

(** ** The assembler's constructor *)

(** X5.  Built from a profile file, the assembler parses the file and makes
    sure the mapping has a "profile_html" entry: the file's text is stored
    under that key unless the mapping already has one, which is then kept as
    it is; no other key changes. *)
Theorem init_from_file_registers_profile (parse : string -> Bs.node)
    (fs : gmap string Py.entry) (path content : string)
    (session_dir html_content : option string)
    (html_content_dict : option (list (string * string))) :
  Props.falsy html_content -> path <> "" ->
  fs !! path = Some (Py.File content) ->
  let given := default [] html_content_dict in
  exists self,
    ProfileBuilder.init parse fs (Some path) session_dir html_content html_content_dict
    = Py.Ok self
    /\ ProfileBuilder.html_content self = content
    /\ ProfileBuilder.soup self = parse content
    /\ ProfileBuilder.session_dir self = session_dir
    /\ PyDict.get "profile_html" (ProfileBuilder.html_content_dict self)
       = Some (default content (PyDict.get "profile_html" given))
    /\ forall k, k <> "profile_html" ->
         PyDict.get k (ProfileBuilder.html_content_dict self) = PyDict.get k given.
Proof.
  intros Hfalsy Hpath Hfile. cbv zeta.
  assert (match html_content_dict with Some (x :: r) => x :: r | _ => [] end
          = default [] html_content_dict) as Hgiven
    by (destruct html_content_dict as [[|x r]|]; reflexivity).
  unfold ProfileBuilder.init. rewrite Hgiven.
  destruct path as [|c r]; [congruence|].
  unfold Py.read. rewrite Hfile. cbn [mbind result_bind Py.bind].
  destruct Hfalsy as [-> | ->]; eexists; (split; [reflexivity|]); cbn;
    (split; [reflexivity|]); (split; [reflexivity|]); (split; [reflexivity|]);
    unfold PyDict.mem;
    destruct (PyDict.get "profile_html" (default [] html_content_dict)) eqn:Hget; cbn;
    (split; [first [exact Hget|apply dict_get_set]|]);
    intros k Hk; first [reflexivity|now apply dict_get_set_other].
Qed.

Lemma init_from_file_registers_profile_witness :
  exists self,
    ProfileBuilder.init Sample.parse {[ "profile.html" := Py.File Sample.profile_text ]}
      (Some "profile.html") None None (Some [("profile_html", Sample.blank_text)])
    = Py.Ok self
    /\ ProfileBuilder.soup self = Sample.profile_tree
    /\ PyDict.get "profile_html" (ProfileBuilder.html_content_dict self)
       = Some Sample.blank_text.
Proof.
  destruct (init_from_file_registers_profile Sample.parse
              {[ "profile.html" := Py.File Sample.profile_text ]}
              "profile.html" Sample.profile_text None None
              (Some [("profile_html", Sample.blank_text)]))
    as (self & Hinit & _ & Hsoup & _ & Hget & _).
  - left. reflexivity.
  - discriminate.
  - vm_compute. reflexivity.
  - exists self. split; [exact Hinit|]. split; [rewrite Hsoup; vm_compute; reflexivity|].
    exact Hget.
Defined.

(** ** The section scrapers: what they return on their anchor *)

(** X9.  A section scraper returns the whole section as one item.  The
    labels it accepts on [<main aria-label=...>] are tried in order; for the
    first label that some [<main>] carries, the result is the one-item list
    holding that element's text, its strings stripped and joined by " | ".
    So the result never has more than one item. *)
Theorem section_extractor_single_item (k : Props.section_kind) (self : SectionScraper.t)
    (before after : list string) (label : string) (main_section : Bs.node) :
  Props.anchors k = before ++ label :: after ->
  Anchor.unlabelled (SectionScraper.soup self) before ->
  SectionScraper.find_main label (SectionScraper.soup self) = Some main_section ->
  Props.extractor k self = [Bs.get_text_strip " | " main_section]
  /\ forall self', length (Props.extractor k self') <= 1.
Proof.
  intros Hsplit Hbefore Hfind. split.
  - destruct k; simpl in Hsplit;
      repeat (destruct before as [|? before];
              [injection Hsplit as <- <-
              |injection Hsplit as <- Hsplit; try (destruct before; discriminate)]);
      unfold Anchor.unlabelled in Hbefore;
      repeat match goal with
             | H : Forall _ (_ :: _) |- _ =>
                 apply Forall_cons in H; destruct H as [? H]
             end;
      cbv [Props.extractor ExperienceScraper.extract_experience
             EducationScraper.scrape_education EducationScraper.extract_education
             SkillsScraper.scrape_skills SkillsScraper.extract_skills
             LanguageScraper.scrape_languages LanguageScraper.extract_languages
             LicenseCertificationScraper.extract_licenses_certifications
             ProjectScraper.scrape_projects ProjectScraper.extract_projects];
      repeat match goal with
             | H : SectionScraper.find_main _ _ = _ |- _ => rewrite H; clear H
             end;
      reflexivity.
  - intros self'.
    destruct k;
      cbv [Props.extractor ExperienceScraper.extract_experience
             EducationScraper.scrape_education EducationScraper.extract_education
             SkillsScraper.scrape_skills SkillsScraper.extract_skills
             LanguageScraper.scrape_languages LanguageScraper.extract_languages
             LicenseCertificationScraper.extract_licenses_certifications
             ProjectScraper.scrape_projects ProjectScraper.extract_projects];
      repeat match goal with
             | |- context [match ?x with _ => _ end] => destruct x
             end; simpl; lia.
Qed.

Lemma section_extractor_single_item_witness :
  Props.extractor Props.Experiences
    (SectionScraper.Build Sample.experience_text Sample.experience_tree)
  = ["Acme | Jan 2020 - Present | Babbage | Mar 2015 - Dec 2019 | Acme | Feb 2021 - Present"].
Proof.
  refine (eq_trans (proj1 (section_extractor_single_item Props.Experiences
                             (SectionScraper.Build Sample.experience_text
                                Sample.experience_tree)
                             [] [] "Experience" _ eq_refl _ _)) _).
  - constructor.
  - vm_compute. reflexivity.
  - vm_compute. reflexivity.
Defined.

(** ** The scalars of a profile *)

Lemma lstrip_head (s : string) :
  PyStr.lstrip s = "" \/ exists c r, PyStr.lstrip s = String c r /\ PyStr.isspace c = false.
Proof.
  induction s as [|c r IH]; simpl; [now left|].
  destruct (PyStr.isspace c) eqn:E; [exact IH|right; eauto].
Qed.

Lemma rstrip_head (c : ascii) (r : string) :
  PyStr.isspace c = false -> exists r', PyStr.rstrip (String c r) = String c r'.
Proof. intros H. simpl. rewrite H. destruct (PyStr.rstrip r); eauto. Qed.

Lemma rstrip_idempotent (s : string) : PyStr.rstrip (PyStr.rstrip s) = PyStr.rstrip s.
Proof.
  induction s as [|c r IH]; [reflexivity|]. simpl.
  destruct (PyStr.rstrip r) as [|c' r'] eqn:E.
  - destruct (PyStr.isspace c) eqn:Hc; simpl; [reflexivity|now rewrite Hc].
  - change (PyStr.rstrip (String c (String c' r'))) with
      (match PyStr.rstrip (String c' r') with
       | EmptyString => if PyStr.isspace c then EmptyString else String c EmptyString
       | r'' => String c r''
       end).
    now rewrite IH.
Qed.

Lemma strip_stripped (s : string) : Text.stripped (PyStr.strip s).
Proof.
  unfold Text.stripped, PyStr.strip.
  destruct (lstrip_head s) as [->|(c & r & -> & Hc)]; [reflexivity|].
  destruct (rstrip_head c r Hc) as [r' Hr]. rewrite Hr. simpl PyStr.lstrip. rewrite Hc.
  rewrite <- Hr. apply rstrip_idempotent.
Qed.

Lemma clean_text_stripped (text value : string) :
  ProfileBuilder.clean_text text = Some value -> Text.stripped value.
Proof.
  unfold ProfileBuilder.clean_text. destruct (negb (PyStr.truthy text)); [discriminate|].
  intros H. injection H as <-. apply strip_stripped.
Qed.

(** X6.  The three scalars of a profile come out trimmed: when
    [extract_name], [extract_headline] or [extract_about] returns a string,
    it neither starts nor ends with white space; and [extract_about] never
    returns the empty string. *)
Theorem scalars_are_stripped (self : ProfileBuilder.t) (value : string) :
  ProfileBuilder.extract_name self = Some value
  \/ ProfileBuilder.extract_headline self = Some value
  \/ ProfileBuilder.extract_about self = Some value ->
  Text.stripped value
  /\ (ProfileBuilder.extract_about self = Some value -> value <> "").
Proof.
  intros H. split.
  - destruct H as [H|[H|H]].
    + unfold ProfileBuilder.extract_name in H.
      repeat (match type of H with
              | context [match ?x with _ => _ end] => destruct x
              end; try discriminate);
        injection H as <-; apply strip_stripped.
    + unfold ProfileBuilder.extract_headline in H.
      repeat (match type of H with
              | context [match ?x with _ => _ end] => destruct x
              end; try discriminate);
        injection H as <-; apply strip_stripped.
    + unfold ProfileBuilder.extract_about in H.
      repeat (match type of H with
              | context [match ?x with _ => _ end] => destruct x eqn:?
              end; try discriminate).
      injection H as <-.
      match goal with
      | E : match ProfileBuilder.clean_text ?v with _ => _ end = Some _ |- _ =>
          destruct (ProfileBuilder.clean_text v) as [[|c r]|] eqn:Hvisible;
            cbv iota in E;
            [| injection E as <- <-; exact (clean_text_stripped _ _ Hvisible) |];
            exact (clean_text_stripped _ _ E)
      end.
  - intros Habout. unfold ProfileBuilder.extract_about in Habout.
    repeat (match type of Habout with
            | context [match ?x with _ => _ end] => destruct x
            end; try discriminate);
      injection Habout as <-; discriminate.
Qed.

Lemma scalars_are_stripped_witness :
  ProfileBuilder.extract_name (Sample.assembler Sample.captured None) = Some "Ada Lovelace"
  /\ Text.stripped "Ada Lovelace".
Proof.
  split; [vm_compute; reflexivity|].
  apply (scalars_are_stripped (Sample.assembler Sample.captured None) "Ada Lovelace").
  left. vm_compute. reflexivity.
Defined.

Lemma skip_digits_count (digits rest : string) :
  Text.all PyStr.isdigit digits = true ->
  ProfileBuilder.skip_digits (digits +:+ ")" +:+ rest)
  = (String.length digits, ")" +:+ rest).
Proof.
  induction digits as [|c r IH]; intros H; [reflexivity|].
  simpl in H. apply andb_prop in H. destruct H as [Hc Hr].
  simpl. rewrite Hc, (IH Hr). reflexivity.
Qed.

(** X7.  The notification counter in front of a page title is dropped.  For
    a non-empty run of digits, "(digits)" at the start of the text and the
    white space after it are removed and the rest is left as it is; a text
    that does not start with "(" is left untouched. *)
Theorem leading_count_dropped (digits rest : string) :
  digits <> "" -> Text.all PyStr.isdigit digits = true ->
  ProfileBuilder.drop_leading_count ("(" +:+ digits +:+ ")" +:+ rest) = PyStr.lstrip rest
  /\ (PyStr.startswith "(" rest = false -> ProfileBuilder.drop_leading_count rest = rest).
Proof.
  intros Hne Hdigits. split.
  - change ("(" +:+ digits +:+ ")" +:+ rest) with (String "(" (digits +:+ ")" +:+ rest)).
    unfold ProfileBuilder.drop_leading_count.
    rewrite (skip_digits_count digits rest Hdigits).
    destruct digits; [congruence|reflexivity].
  - intros Hstart. destruct rest as [|c r]; [reflexivity|].
    unfold PyStr.startswith in Hstart. simpl in Hstart.
    unfold ProfileBuilder.drop_leading_count.
    destruct (Ascii.ascii_dec "(" c) as [<-|Hc].
    + simpl in Hstart. destruct r; discriminate.
    + destruct c as [[] [] [] [] [] [] [] []]; try reflexivity. congruence.
Qed.

Lemma leading_count_dropped_witness :
  ProfileBuilder.drop_leading_count "(12)  Ada Lovelace" = "Ada Lovelace".
Proof.
  apply (proj1 (leading_count_dropped "12" "  Ada Lovelace" ltac:(discriminate) eq_refl)).
Defined.

(** ** The about text: white space *)

Lemma all_app (p : ascii -> bool) (a b : string) :
  Text.all p (a +:+ b) = Text.all p a && Text.all p b.
Proof.
  induction a as [|c r IH]; [reflexivity|].
  rewrite append_cons. simpl. now rewrite IH, andb_assoc.
Qed.

Lemma all_of_list (p : ascii -> bool) (l : list ascii) :
  Text.all p (String.string_of_list_ascii l) = forallb p l.
Proof. induction l as [|c r IH]; simpl; [reflexivity|now rewrite IH]. Qed.

Lemma of_list_nonempty (c : ascii) (l : list ascii) :
  String.string_of_list_ascii (rev (c :: l)) <> "".
Proof. simpl. destruct (rev l); simpl; discriminate. Qed.

Lemma forallb_rev {A} (p : A -> bool) (l : list A) : forallb p (rev l) = forallb p l.
Proof.
  induction l as [|x l IH]; [reflexivity|].
  simpl. rewrite forallb_app, IH. simpl. now rewrite andb_true_r, andb_comm.
Qed.

(** The words [split] gives are not empty and hold no white space. *)
Lemma split_from_words (s : string) (cur : list ascii) :
  forallb (fun c => negb (PyStr.isspace c)) cur = true ->
  Forall (fun word => word <> "" /\ Text.all (fun c => negb (PyStr.isspace c)) word = true)
         (PyStr.split_from s cur).
Proof.
  revert cur. induction s as [|c r IH]; intros cur Hcur; simpl.
  - destruct cur as [|x cur]; [constructor|].
    constructor; [|constructor]. split; [apply of_list_nonempty|].
    rewrite all_of_list, forallb_rev. exact Hcur.
  - destruct (PyStr.isspace c) eqn:Hc.
    + destruct cur as [|x cur]; [now apply IH|].
      constructor; [|now apply IH]. split; [apply of_list_nonempty|].
      rewrite all_of_list, forallb_rev. exact Hcur.
    + apply IH. simpl. now rewrite Hc.
Qed.

Lemma split_from_word (word s : string) (cur : list ascii) :
  Text.all (fun c => negb (PyStr.isspace c)) word = true ->
  PyStr.split_from (word +:+ s) cur
  = PyStr.split_from s (rev (String.list_ascii_of_string word) ++ cur).
Proof.
  revert cur. induction word as [|c r IH]; intros cur H; [reflexivity|].
  simpl in H. apply andb_prop in H. destruct H as [Hc Hr].
  rewrite append_cons. cbn [PyStr.split_from].
  apply negb_true_iff in Hc. rewrite Hc, (IH _ Hr). simpl.
  now rewrite <- app_assoc.
Qed.

Lemma of_list_rev_rev (word : string) :
  String.string_of_list_ascii (rev (rev (String.list_ascii_of_string word) ++ [])) = word.
Proof.
  rewrite app_nil_r, rev_involutive. apply String.string_of_list_ascii_of_string.
Qed.

Lemma append_empty (s : string) : s +:+ "" = s.
Proof. induction s as [|c r IH]; [reflexivity|]. now rewrite append_cons, IH. Qed.

Lemma split_join (words : list string) :
  Forall (fun word => word <> "" /\ Text.all (fun c => negb (PyStr.isspace c)) word = true)
         words ->
  PyStr.split (PyStr.join " " words) = words.
Proof.
  unfold PyStr.split. intros H. induction H as [|word rest [Hne Hword] Hrest IH].
  - reflexivity.
  - destruct rest as [|next rest].
    + simpl PyStr.join. rewrite <- (append_empty word) at 1.
      rewrite (split_from_word word "" [] Hword). cbn [PyStr.split_from].
      destruct (rev (String.list_ascii_of_string word) ++ []) as [|x l] eqn:E.
      * exfalso. rewrite app_nil_r in E. apply (f_equal (@rev ascii)) in E.
        rewrite rev_involutive in E. simpl in E.
        apply Hne. rewrite <- (String.string_of_list_ascii_of_string word), E. reflexivity.
      * rewrite <- E, of_list_rev_rev. reflexivity.
    + change (PyStr.join " " (word :: next :: rest))
        with (word +:+ String " " (PyStr.join " " (next :: rest))).
      rewrite (split_from_word word _ [] Hword). cbn [PyStr.split_from].
      change (PyStr.isspace " ") with true. cbv iota.
      destruct (rev (String.list_ascii_of_string word) ++ []) as [|x l] eqn:E.
      * exfalso. rewrite app_nil_r in E. apply (f_equal (@rev ascii)) in E.
        rewrite rev_involutive in E. simpl in E.
        apply Hne. rewrite <- (String.string_of_list_ascii_of_string word), E. reflexivity.
      * rewrite <- E, of_list_rev_rev, IH. reflexivity.
Qed.

Lemma rstrip_word (text word : string) :
  word <> "" -> Text.all (fun c => negb (PyStr.isspace c)) word = true ->
  PyStr.rstrip (text +:+ word) = text +:+ word.
Proof.
  intros Hne Hword. induction text as [|x text IH].
  - change ("" +:+ word) with word. clear Hne.
    induction word as [|c r IH]; [reflexivity|].
    simpl in Hword. apply andb_prop in Hword. destruct Hword as [Hc Hr].
    apply negb_true_iff in Hc. simpl. rewrite (IH Hr), Hc. now destruct r.
  - rewrite append_cons. simpl. rewrite IH.
    destruct (text +:+ word) eqn:E; [|reflexivity].
    exfalso. apply (f_equal String.length) in E. rewrite length_append in E.
    destruct word; [congruence|simpl in E; lia].
Qed.

Lemma join_last (word : string) (rest : list string) :
  Forall (fun word => word <> "" /\ Text.all (fun c => negb (PyStr.isspace c)) word = true)
         (word :: rest) ->
  exists text last,
    PyStr.join " " (word :: rest) = text +:+ last
    /\ last <> "" /\ Text.all (fun c => negb (PyStr.isspace c)) last = true.
Proof.
  revert word. induction rest as [|next rest IH]; intros word H.
  - apply Forall_cons in H. destruct H as [[Hne Hword] _].
    exists "", word. auto.
  - apply Forall_cons in H. destruct H as [_ H].
    destruct (IH next H) as (text & last & Hjoin & Hlast).
    exists (word +:+ " " +:+ text), last. split; [|exact Hlast].
    change (PyStr.join " " (word :: next :: rest))
      with (word +:+ " " +:+ PyStr.join " " (next :: rest)).
    now rewrite Hjoin, !append_assoc.
Qed.

Lemma join_words_stripped (words : list string) :
  Forall (fun word => word <> "" /\ Text.all (fun c => negb (PyStr.isspace c)) word = true)
         words ->
  PyStr.strip (PyStr.join " " words) = PyStr.join " " words.
Proof.
  intros H. destruct words as [|word rest]; [reflexivity|].
  unfold PyStr.strip.
  assert (PyStr.lstrip (PyStr.join " " (word :: rest)) = PyStr.join " " (word :: rest))
    as ->.
  { pose proof H as H'. apply Forall_cons in H'. destruct H' as [[Hne Hword] _].
    destruct word as [|c r]; [congruence|]. simpl in Hword.
    apply andb_prop in Hword. destruct Hword as [Hc _]. apply negb_true_iff in Hc.
    destruct rest; simpl; now rewrite Hc. }
  destruct (join_last word rest H) as (text & last & -> & Hne & Hlast).
  now apply rstrip_word.
Qed.

(** X8.  The about text is normalised.  Whatever text it is given,
    [clean_text] returns a text in which the words are separated by single
    spaces, with no white space at either end: splitting the result on
    white space and joining the words with one space gives the result
    back.  So does [extract_about], which returns what [clean_text] gives
    for the visible or for the hidden text. *)
Theorem about_text_is_normalised (self : ProfileBuilder.t) (text value : string) :
  ProfileBuilder.clean_text text = Some value
  \/ ProfileBuilder.extract_about self = Some value ->
  PyStr.join " " (PyStr.split value) = value.
Proof.
  assert (forall t v, ProfileBuilder.clean_text t = Some v ->
                      PyStr.join " " (PyStr.split v) = v) as Hclean.
  { intros t v. unfold ProfileBuilder.clean_text.
    destruct (negb (PyStr.truthy t)); [discriminate|]. intros H. injection H as <-.
    pose proof (split_from_words (PyStr.replace "&amp;" "&" t) [] eq_refl) as Hwords.
    fold (PyStr.split (PyStr.replace "&amp;" "&" t)) in Hwords.
    rewrite (join_words_stripped _ Hwords), (split_join _ Hwords). reflexivity. }
  intros [H|H]; [exact (Hclean _ _ H)|].
  unfold ProfileBuilder.extract_about in H.
  repeat (match type of H with
          | context [match ?x with _ => _ end] => destruct x eqn:?
          end; try discriminate).
  injection H as <-.
  match goal with
  | E : match ProfileBuilder.clean_text ?v with _ => _ end = Some _ |- _ =>
      destruct (ProfileBuilder.clean_text v) as [[|c r]|] eqn:Hvisible;
        cbv iota in E;
        [| injection E as <- <-; exact (Hclean _ _ Hvisible) |];
        exact (Hclean _ _ E)
  end.
Qed.

Lemma about_text_is_normalised_witness :
  ProfileBuilder.clean_text "  Builds   engines &amp; looms  " = Some "Builds engines & looms"
  /\ PyStr.join " " (PyStr.split "Builds engines & looms") = "Builds engines & looms".
Proof.
  split; [vm_compute; reflexivity|].
  apply (about_text_is_normalised (Sample.assembler Sample.captured None)
           "  Builds   engines &amp; looms  " "Builds engines & looms").
  left. vm_compute. reflexivity.
Defined.

(** ** Company records: where the fields come from *)

Lemma string_of_rev_nonempty (c : ascii) (cur : list ascii) :
  String.string_of_list_ascii (rev (c :: cur)) <> "".
Proof.
  simpl. destruct (rev cur) as [|x l]; simpl; discriminate.
Qed.

Lemma split_on_from_head (sep s : string) (skip : nat) (c : ascii) (cur : list ascii) :
  hd "" (PyStr.split_on_from sep s skip (c :: cur)) <> "".
Proof.
  revert skip c cur. induction s as [|x r IH]; intros skip c cur.
  - cbn [PyStr.split_on_from hd]. apply string_of_rev_nonempty.
  - cbn [PyStr.split_on_from]. destruct skip as [|k]; [|apply IH].
    destruct (String.prefix sep (String x r)); [|apply IH].
    cbn [hd]. apply string_of_rev_nonempty.
Qed.

Lemma split_on_head (sep s : string) :
  s <> "" -> PyStr.startswith sep s = false ->
  hd "" (PyStr.split_on sep s) <> "".
Proof.
  intros Hne Hstart. destruct s as [|c r]; [congruence|].
  unfold PyStr.split_on, PyStr.startswith in *. cbn [PyStr.split_on_from].
  rewrite Hstart. apply split_on_from_head.
Qed.

Lemma replace_nonempty (new s : string) (c : ascii) :
  s <> "" -> PyStr.replace (String c "") (String " " new) s <> "".
Proof.
  intros Hne. destruct s as [|x r]; [congruence|].
  unfold PyStr.replace. cbn [PyStr.replace_from].
  destruct (String.prefix (String c "") (String x r)); discriminate.
Qed.

Lemma title_nonempty (s : string) : s <> "" -> PyStr.title s <> "".
Proof. intros Hne. destruct s; [congruence|discriminate]. Qed.

Lemma contains_nonempty (sub s : string) :
  sub <> "" -> PyStr.contains sub s = true -> s <> "".
Proof.
  intros Hsub H ->. destruct sub; [congruence|discriminate].
Qed.

(** What [process_about_file] does with a path that names a file with some
    text: the record of the text, tagged with the file's name, and named
    after the file when the text gave neither name nor overview. *)
Lemma process_file (parse : string -> Bs.node) (fs : gmap string Py.entry)
    (path : string) (c : ascii) (r : string) :
  fs !! path = Some (Py.File (String c r)) ->
  exists info,
    About.process_about_file parse fs path = Some info
    /\ About.source info = Some (Py.basename path)
    /\ (PyStr.contains "_" (Py.basename path) = true ->
        PyStr.startswith "_" (Py.basename path) = false ->
        Py.basename path <> "in_memory_content" ->
        About.name info <> "" \/ About.overview info <> "").
Proof.
  intros Hfile. unfold About.process_about_file, Py.exists_, Py.read.
  rewrite Hfile. cbn [mbind result_bind Py.bind PyStr.truthy negb].
  set (info := About.extract_company_info parse (String c r)).
  cbn [About.set_source About.name About.overview].
  destruct (PyStr.truthy (About.name info)) eqn:Hname; cbn [negb andb].
  { eexists. split; [reflexivity|]. split; [reflexivity|].
    intros _ _ _. left. cbn. intros E. now rewrite E in Hname. }
  destruct (PyStr.truthy (About.overview info)) eqn:Hoverview; cbn [negb andb].
  { eexists. split; [reflexivity|]. split; [reflexivity|].
    intros _ _ _. right. cbn. intros E. now rewrite E in Hoverview. }
  destruct (negb (String.eqb (Py.basename path) "in_memory_content")
            && PyStr.contains "_" (Py.basename path)) eqn:Htest.
  - destruct (PyStr.truthy (PyStr.title _)) eqn:Htitle.
    + eexists. split; [reflexivity|]. split; [reflexivity|].
      intros _ _ _. left. cbn. intros E. now rewrite E in Htitle.
    + eexists. split; [reflexivity|]. split; [reflexivity|].
      intros Hcontains Hstart _. exfalso.
      apply truthy_false in Htitle. revert Htitle.
      apply title_nonempty, replace_nonempty, split_on_head; [|exact Hstart].
      exact (contains_nonempty "_" _ ltac:(discriminate) Hcontains).
  - eexists. split; [reflexivity|]. split; [reflexivity|].
    intros Hcontains _ Hother. exfalso.
    rewrite Hcontains, andb_true_r in Htest.
    apply negb_false_iff, String.eqb_eq in Htest. contradiction.
Qed.

(** X10.  A record read from a file always says what it is about.  For a
    file with some text whose name holds a "_", does not start with one and
    is not "in_memory_content", [process_about_file] returns a record tagged
    with the file's name in which the name or the overview is not empty:
    when the page gave neither, the name is made from the file's name. *)
Theorem file_record_is_named (parse : string -> Bs.node) (fs : gmap string Py.entry)
    (path content : string) :
  fs !! path = Some (Py.File content) -> content <> "" ->
  PyStr.contains "_" (Py.basename path) = true ->
  PyStr.startswith "_" (Py.basename path) = false ->
  Py.basename path <> "in_memory_content" ->
  exists info,
    About.process_about_file parse fs path = Some info
    /\ About.source info = Some (Py.basename path)
    /\ (About.name info <> "" \/ About.overview info <> "").
Proof.
  intros Hfile Hcontent Hcontains Hstart Hother.
  destruct content as [|c r]; [congruence|].
  destruct (process_file parse fs path c r Hfile) as (info & Hinfo & Hsource & Hnamed).
  exists info. auto.
Qed.

Lemma file_record_is_named_witness :
  exists info,
    About.process_about_file Sample.parse Sample.session_files
      "session/company_about_pages/acme-corp_about.txt" = Some info
    /\ About.source info = Some "acme-corp_about.txt"
    /\ (About.name info <> "" \/ About.overview info <> "").
Proof.
  apply (file_record_is_named Sample.parse Sample.session_files
           "session/company_about_pages/acme-corp_about.txt" Sample.blank_text).
  - vm_compute. reflexivity.
  - discriminate.
  - vm_compute. reflexivity.
  - vm_compute. reflexivity.
  - discriminate.
Defined.

Lemma about_loop_spec (parse : string -> Bs.node) (fs : gmap string Py.entry)
    (paths : list string) (acc : list About.CompanyInfo) :
  AboutDirectory.about_loop parse fs paths acc
  = acc ++ omap (About.process_about_file parse fs) paths.
Proof.
  revert acc. induction paths as [|p rest IH]; intros acc; simpl.
  - now rewrite app_nil_r.
  - destruct (About.process_about_file parse fs p); rewrite IH; [|reflexivity].
    now rewrite <- app_assoc.
Qed.

Lemma process_unreadable (parse : string -> Bs.node) (fs : gmap string Py.entry)
    (path : string) :
  Py.exists_ fs path = true -> AboutDirectory.readable fs path = false ->
  About.process_about_file parse fs path = None.
Proof.
  unfold Py.exists_, AboutDirectory.readable, About.process_about_file, Py.exists_, Py.read.
  destruct (fs !! path) as [[[|c r]|names]|]; try discriminate; reflexivity.
Qed.

Lemma sources_of_files (parse : string -> Bs.node) (fs : gmap string Py.entry)
    (paths : list string) :
  Forall (fun path => Py.exists_ fs path = true) paths ->
  map About.source ([] ++ omap (About.process_about_file parse fs) paths)
  = map (fun path => Some (Py.basename path))
        (List.filter (AboutDirectory.readable fs) paths).
Proof.
  intros Hpaths. rewrite app_nil_l.
  induction Hpaths as [|p rest Hp _ IH]; [reflexivity|].
  cbn [omap list_omap List.filter].
  destruct (AboutDirectory.readable fs p) eqn:Hreadable.
  - unfold AboutDirectory.readable in Hreadable.
    destruct (fs !! p) as [[[|c r]|names]|] eqn:Hfile; try discriminate.
    destruct (process_file parse fs p c r Hfile) as (info & -> & Hsource & _).
    cbn [map]. now rewrite Hsource, IH.
  - now rewrite (process_unreadable parse fs p Hp Hreadable).
Qed.

(** X11.  [process_all_about_files] gives one record for each file of the
    directory whose name ends in "_about.txt" and that holds some text, in
    the order of the listing, each tagged with its file's name; empty files
    and entries that cannot be read give nothing.  A directory that does not
    exist gives the empty list. *)
Theorem about_directory_records (parse : string -> Bs.node) (fs : gmap string Py.entry)
    (directory : string) :
  Forall (fun path => Py.exists_ fs path = true) (ProfileBuilder.glob_about fs directory) ->
  map About.source (AboutDirectory.process_all_about_files parse fs directory)
  = map (fun path => Some (Py.basename path))
        (List.filter (AboutDirectory.readable fs) (ProfileBuilder.glob_about fs directory))
  /\ (fs !! directory = None ->
      AboutDirectory.process_all_about_files parse fs directory = []).
Proof.
  intros Hglob. split.
  - unfold AboutDirectory.process_all_about_files. rewrite about_loop_spec.
    apply sources_of_files, Hglob.
  - intros Hnone. unfold AboutDirectory.process_all_about_files, ProfileBuilder.glob_about.
    now rewrite Hnone.
Qed.

Lemma about_directory_records_witness :
  map About.source
    (AboutDirectory.process_all_about_files Sample.parse Sample.session_files
       "session/company_about_pages")
  = [Some "acme-corp_about.txt"; Some "babbage_about.txt"].
Proof.
  refine (eq_trans (proj1 (about_directory_records Sample.parse Sample.session_files
                             "session/company_about_pages" _)) _).
  - vm_compute. repeat constructor.
  - vm_compute. reflexivity.
Defined.

Lemma extract_name_first (soup : Bs.node) (before after : list (string * list string))
    (tag : string) (cls : list string) (node : Bs.node) (c : About.CompanyInfo) :
  Anchor.unmatched soup before ->
  Bs.find (Bs.css tag cls) soup = Some node ->
  About.name (About.extract_name soup (before ++ (tag, cls) :: after) c)
  = Bs.get_text_strip "" node.
Proof.
  intros Hbefore Hfind.
  induction Hbefore as [|[t k] before Hx _ IH]; simpl.
  - now rewrite Hfind.
  - now rewrite Hx.
Qed.

Lemma extract_name_none (soup : Bs.node) (selectors : list (string * list string))
    (c : About.CompanyInfo) :
  Anchor.unmatched soup selectors ->
  About.extract_name soup selectors c = c.
Proof.
  intros H. induction H as [|[t k] selectors Hx _ IH]; simpl; [reflexivity|].
  now rewrite Hx.
Qed.

Lemma extract_overview_keeps (soup : Bs.node) (selectors : list (string * list string))
    (c : About.CompanyInfo) :
  About.name (About.extract_overview soup selectors c) = About.name c
  /\ About.verified_date (About.extract_overview soup selectors c) = About.verified_date c.
Proof.
  induction selectors as [|[tag cls] rest IH]; simpl; [auto|].
  destruct (Bs.find_all (Bs.css tag cls) soup); [exact IH|].
  destruct (PyStr.truthy _); [auto|exact IH].
Qed.

Lemma dl_assign_keeps (label value : string) (c : About.CompanyInfo) :
  About.name (About.dl_assign label value c) = About.name c
  /\ (About.verified_date (About.dl_assign label value c) = About.verified_date c
      \/ (PyStr.contains "verified" label = true
          /\ About.verified_date (About.dl_assign label value c) = value)).
Proof.
  unfold About.dl_assign.
  repeat match goal with
         | |- context [if ?b then _ else _] => destruct b eqn:?
         end; simpl; auto.
Qed.

Lemma extract_details_keeps (pairs : list (string * string)) (c : About.CompanyInfo) :
  let info := fold_left (fun c '(label, value) => About.dl_assign label value c) pairs c in
  About.name info = About.name c
  /\ (About.verified_date info = About.verified_date c
      \/ exists label value,
           In (label, value) pairs /\ PyStr.contains "verified" label = true
           /\ About.verified_date info = value).
Proof.
  cbv zeta. revert c. induction pairs as [|[label value] pairs IH]; intros c; simpl.
  - auto.
  - destruct (IH (About.dl_assign label value c)) as [Hname Hdate].
    destruct (dl_assign_keeps label value c) as [Hname' Hdate'].
    split; [congruence|].
    destruct Hdate as [Hdate|(l & v & Hin & Hl & Hv)].
    + destruct Hdate' as [Hdate'|[Hl Hv]].
      * left. congruence.
      * right. exists label, value. split; [now left|]. split; [exact Hl|congruence].
    + right. exists l, v. split; [now right|]. auto.
Qed.

Lemma heading_step_keeps (c : About.CompanyInfo) (section : Bs.node) :
  About.name (About.heading_step c section) = About.name c
  /\ About.verified_date (About.heading_step c section) = About.verified_date c.
Proof.
  unfold About.heading_step, About.heading_assign.
  repeat match goal with
         | |- context [match ?x with _ => _ end] => destruct x
         end; simpl; auto.
Qed.

Lemma heading_pass_keeps (sections : list Bs.node) (c : About.CompanyInfo) :
  About.name (fold_left About.heading_step sections c) = About.name c
  /\ About.verified_date (fold_left About.heading_step sections c) = About.verified_date c.
Proof.
  revert c. induction sections as [|section rest IH]; intros c; simpl; [auto|].
  destruct (IH (About.heading_step c section)) as [Hname Hdate].
  destruct (heading_step_keeps c section) as [Hname' Hdate'].
  split; congruence.
Qed.

Lemma company_info_name_date (soup : Bs.node) :
  let info := About.extract_company_info_soup soup in
  About.name info = About.name (About.extract_name soup About.name_selectors About.empty)
  /\ (About.verified_date info = ""
      \/ exists label value,
           In (label, value) (About.dl_pairs soup)
           /\ PyStr.contains "verified" label = true
           /\ About.verified_date info = value).
Proof.
  cbv zeta. unfold About.extract_company_info_soup, About.selector_passes, About.extract_details.
  set (c1 := About.extract_name soup About.name_selectors About.empty).
  set (c2 := About.extract_overview soup About.overview_selectors c1).
  destruct (extract_overview_keeps soup About.overview_selectors c1) as [Hname2 Hdate2].
  fold c2 in Hname2, Hdate2.
  destruct (extract_details_keeps (About.dl_pairs soup) c2) as [Hname3 Hdate3].
  cbv zeta in Hname3, Hdate3.
  set (c3 := fold_left _ (About.dl_pairs soup) c2) in *.
  assert (About.verified_date c1 = "") as Hdate1.
  { unfold c1. generalize About.name_selectors.
    intros l. induction l as [|[t k] l IH]; simpl; [reflexivity|].
    destruct (Bs.find (Bs.css t k) soup); [reflexivity|exact IH]. }
  assert (About.name c3 = About.name c1
          /\ (About.verified_date c3 = ""
              \/ exists label value,
                   In (label, value) (About.dl_pairs soup)
                   /\ PyStr.contains "verified" label = true
                   /\ About.verified_date c3 = value)) as [Hname Hdate].
  { split; [congruence|]. destruct Hdate3 as [H|H]; [left; congruence|right; exact H]. }
  destruct (negb (About.any_value c3)); [|auto].
  destruct (heading_pass_keeps (About.labelled_sections soup) c3) as [Hn Hd].
  rewrite Hn, Hd. auto.
Qed.

(** X12.  The name and the verification date of a company have one source
    each.  The name is the text of the first match of the first name
    selector that matches anything, and is empty when none matches; the
    verification date, when not empty, is the value paired with a
    definition-list label that says "verified".  The overview pass, the
    definition-list pass and the heading pass never set the name, and the
    heading pass never sets the verification date. *)
Theorem name_and_verified_date_sources (parse : string -> Bs.node) (html_content : string) :
  let soup := parse html_content in
  let info := About.extract_company_info parse html_content in
  (forall before tag cls after node,
     About.name_selectors = before ++ (tag, cls) :: after ->
     Anchor.unmatched soup before ->
     Bs.find (Bs.css tag cls) soup = Some node ->
     About.name info = Bs.get_text_strip "" node)
  /\ (Anchor.unmatched soup About.name_selectors -> About.name info = "")
  /\ (About.verified_date info <> "" ->
      exists label value,
        In (label, value) (About.dl_pairs soup)
        /\ PyStr.contains "verified" label = true
        /\ About.verified_date info = value).
Proof.
  cbv zeta. unfold About.extract_company_info.
  destruct (company_info_name_date (parse html_content)) as [Hname Hdate].
  cbv zeta in Hname, Hdate. split; [|split].
  - intros before tag cls after node Hsplit Hbefore Hfind.
    rewrite Hname, Hsplit. now apply extract_name_first.
  - intros Hnone. rewrite Hname. now rewrite extract_name_none.
  - intros Hne. destruct Hdate as [H|H]; [contradiction|exact H].
Qed.

Lemma name_and_verified_date_sources_witness :
  About.name (About.extract_company_info Sample.parse Sample.about_named_text) = "Acme"
  /\ About.name (About.extract_company_info Sample.parse Sample.about_dl_text) = "".
Proof.
  split.
  - refine (eq_trans (proj1 (name_and_verified_date_sources Sample.parse
                               Sample.about_named_text) [] _ _ _ _ eq_refl _ _) _).
    + constructor.
    + vm_compute. reflexivity.
    + vm_compute. reflexivity.
  - apply (proj1 (proj2 (name_and_verified_date_sources Sample.parse Sample.about_dl_text))).
    vm_compute. repeat constructor.
Defined.

(** A block whose handler only logs returns, whatever happens in it. *)
Lemma guarded_returns (m : Nav.M unit) (s : Nav.state) :
  fst (Nav.try_except m (fun _ => Nav.ret tt) s) = Py.Ok tt.
Proof. unfold Nav.try_except. destruct (m s) as [[[]|e] s1]; reflexivity. Qed.

(** X13.  Expanding a section never raises, whatever the browser does: it
    returns [None].  It can change the mapping under the key
    "<section>_expanded_html" only; every other key keeps its document, and
    no key is lost. *)
Theorem expand_and_capture_is_contained (w : Nav.world) (debug_mode : bool)
    (html_pages_dir section : string) (s : Nav.state) :
  let run := Nav._expand_and_capture_section w debug_mode html_pages_dir section s in
  fst run = Py.Ok tt
  /\ Frame.same_outside (eq (section +:+ "_expanded_html")) s (snd run)
  /\ Frame.keeps_keys s (snd run).
Proof.
  cbv zeta. split; [apply guarded_returns|]. split.
  - apply (stable_expand w debug_mode html_pages_dir _ _ (same_outside_invariant _)).
    reflexivity.
  - now apply (stable_expand w debug_mode html_pages_dir _ _ keeps_keys_invariant).
Qed.

(** X14.  Visiting the company pages never raises.  It writes under the keys
    "company_<i>_main_html", "company_<i>_about_html" and "company_<i>_html"
    only: the profile and the expanded sections keep their documents, and no
    key is lost. *)
Theorem company_pages_are_contained (w : Nav.world) (parse : string -> Bs.node)
    (debug_mode : bool) (html_pages_dir : string) (s : Nav.state) :
  let run := Nav.scrape_company_about_pages w parse debug_mode html_pages_dir s in
  fst run = Py.Ok tt
  /\ Frame.same_outside Frame.company_key s (snd run)
  /\ Frame.keeps_keys s (snd run).
Proof.
  cbv zeta. split; [apply guarded_returns|]. split.
  - apply (stable_scrape_company_about_pages w parse debug_mode html_pages_dir _ _
             (same_outside_invariant _)). auto.
  - apply (stable_scrape_company_about_pages w parse debug_mode html_pages_dir _ _
             keeps_keys_invariant). auto.
Qed.

Lemma guarded_returns_company (w : Nav.world) (debug_mode : bool)
    (html_pages_dir : string) (i : nat) (company_url : string) (s : Nav.state) :
  fst (Nav.scrape_company w debug_mode html_pages_dir i company_url s) = Py.Ok tt.
Proof. apply guarded_returns. Qed.

Lemma extends_In (s s' : Nav.state) (c : Nav.call) :
  Frame.extends s s' -> In c (Nav.trace s) -> In c (Nav.trace s').
Proof. intros [calls ->] H. apply in_or_app. now left. Qed.

(** X15.  The loop over the company URLs goes through all of them: a failure
    at one company is logged and the next one is tried, so every URL of the
    list is navigated to, and the loop returns. *)
Theorem every_company_is_visited (w : Nav.world) (debug_mode : bool)
    (html_pages_dir : string) (i : nat) (company_urls : list string) (s : Nav.state) :
  let run := Nav.scrape_companies_from w debug_mode html_pages_dir i company_urls s in
  fst run = Py.Ok tt
  /\ forall company_url, In company_url company_urls ->
       In (Nav.Goto company_url) (Nav.trace (snd run)).
Proof.
  cbv zeta. revert i s. induction company_urls as [|url rest IH]; intros i s.
  - split; [reflexivity|intros ? []].
  - simpl. unfold Nav.bind.
    pose proof (guarded_returns_company w debug_mode html_pages_dir i url s) as Hok.
    pose proof (scrape_company_after_goto w debug_mode html_pages_dir _ _
                  extends_invariant i url s (fun _ _ => I)) as Hgoto.
    destruct (Nav.scrape_company w debug_mode html_pages_dir i url s) as [r s1].
    simpl in Hok, Hgoto. subst r.
    destruct (IH (S i) s1) as [IHok IHin]. split; [exact IHok|].
    intros company_url [<-|Hin]; [|apply IHin, Hin].
    eapply extends_In.
    + apply (stable_scrape_companies_from w debug_mode html_pages_dir _ _
               extends_invariant). auto.
    + eapply extends_In; [exact Hgoto|]. simpl. apply in_or_app. right. now left.
Qed.

Lemma scrape_profile_result (w : Nav.world) (parse : string -> Bs.node)
    (debug_mode : bool) (html_pages_dir profile_url : string)
    (email password : option string) (scrape_companies : bool)
    (s s' : Nav.state) (b : bool) (d : list (string * string)) :
  Nav.scrape_profile w parse debug_mode html_pages_dir profile_url email password
    scrape_companies s = (Py.Ok (b, d), s') ->
  b = true /\ d = Nav.html_content s' /\ PyDict.mem "profile_html" d = true.
Proof.
  intros H.
  destruct (scrape_profile_after_store w parse debug_mode html_pages_dir _ _
              keeps_keys_invariant _ _ _ _ _ _ _ _ (fun _ _ => I) H)
    as (Hb & Hd & s3 & v & Hkeeps).
  split; [exact Hb|]. split; [exact Hd|]. subst d.
  apply Hkeeps. simpl. unfold PyDict.mem. now rewrite dict_get_set.
Qed.

(** X17.  When [scrape_profile] returns, its flag is [True] (a failure is an
    exception, never a [False]), the mapping it returns is the controller's
    own, and that mapping holds the profile under "profile_html".  Every key
    it holds was there before the run or is one of the controller's
    document keys: "profile_html", "<section>_expanded_html" for one of the
    six sections, or "company_<i>_main_html", "company_<i>_about_html",
    "company_<i>_html" for some index [i]. *)
Theorem scrape_profile_returns_documents (w : Nav.world) (parse : string -> Bs.node)
    (debug_mode : bool) (html_pages_dir profile_url : string)
    (email password : option string) (scrape_companies : bool)
    (s : Nav.state) (b : bool) (d : list (string * string)) :
  let run := Nav.scrape_profile w parse debug_mode html_pages_dir profile_url
               email password scrape_companies s in
  fst run = Py.Ok (b, d) ->
  b = true
  /\ d = Nav.html_content (snd run)
  /\ PyDict.mem "profile_html" d = true
  /\ forall k, PyDict.mem k d = true ->
       PyDict.mem k (Nav.html_content s) = true \/ Frame.document_key k.
Proof.
  cbv zeta. intros H.
  pose proof (stable_scrape_profile w parse debug_mode html_pages_dir _ _
                (adds_only_invariant Frame.document_key) profile_url email password
                scrape_companies (fun _ Hk => Hk) s) as Hadds.
  destruct (Nav.scrape_profile w parse debug_mode html_pages_dir profile_url email
              password scrape_companies s) as [r s'] eqn:Hrun.
  simpl in H, Hadds. subst r.
  destruct (scrape_profile_result _ _ _ _ _ _ _ _ _ _ _ _ Hrun) as (Hb & Hd & Hmem).
  repeat split; try assumption. subst d. exact Hadds.
Qed.

Lemma scrape_profile_returns_documents_witness :
  fst (Props.sample_run Sample.world_ok) = Py.Ok (true, [("profile_html", Sample.blank_text)])
  /\ PyDict.mem "profile_html" [("profile_html", Sample.blank_text)] = true.
Proof.
  split; [vm_compute; reflexivity|].
  refine (proj1 (proj2 (proj2
            (scrape_profile_returns_documents Sample.world_ok Sample.parse false ""
               Sample.profile_url (Some "ada@example.com") (Some "secret") true
               (Nav.start ∅) true [("profile_html", Sample.blank_text)] _)))).
  vm_compute. reflexivity.
Defined.

(** X18.  Without both credentials, given or in the environment,
    [scrape_profile] raises [ValueError] before anything else happens: no
    call is made to the browser and the state is untouched.  With both, the
    first thing it does is to start the browser driver, so the trace
    grows; hence the trace is unchanged exactly when a credential is
    missing. *)
Theorem missing_credentials_stop_the_run (w : Nav.world) (parse : string -> Bs.node)
    (debug_mode : bool) (html_pages_dir profile_url : string)
    (email password : option string) (scrape_companies : bool) (s : Nav.state) :
  let run := Nav.scrape_profile w parse debug_mode html_pages_dir profile_url
               email password scrape_companies s in
  let missing := Nav.credential w email "LINKEDIN_EMAIL" = None
                 \/ Nav.credential w password "LINKEDIN_PASSWORD" = None in
  (missing ->
   run = (Py.Raise (Py.ValueError
     "LinkedIn credentials must be provided either as arguments or through LINKEDIN_EMAIL and LINKEDIN_PASSWORD environment variables"), s))
  /\ (~ missing ->
      exists calls, Nav.trace (snd run) = Nav.trace s ++ Nav.StartPlaywright :: calls).
Proof.
  cbv zeta. unfold Nav.scrape_profile.
  destruct (Nav.credential w email "LINKEDIN_EMAIL") as [e|] eqn:He;
    [destruct (Nav.credential w password "LINKEDIN_PASSWORD") as [p|] eqn:Hp|].
  - split; [intros [H|H]; discriminate|intros _].
    destruct (scrape_profile_after_start w parse debug_mode html_pages_dir _ _
                extends_invariant profile_url email password scrape_companies e p s
                (fun _ _ => I) He Hp) as [calls Hcalls].
    exists calls. unfold Nav.scrape_profile in Hcalls. rewrite He, Hp in Hcalls.
    rewrite Hcalls. simpl. now rewrite <- app_assoc.
  - split; [reflexivity|intros H; exfalso; apply H; now right].
  - split; [reflexivity|intros H; exfalso; apply H; now left].
Qed.

Lemma missing_credentials_stop_the_run_witness :
  Nav.scrape_profile (Sample.calm (fun _ _ => None)) Sample.parse false ""
    Sample.profile_url (Some "ada@example.com") None true (Nav.start ∅)
  = (Py.Raise (Py.ValueError
      "LinkedIn credentials must be provided either as arguments or through LINKEDIN_EMAIL and LINKEDIN_PASSWORD environment variables"),
     Nav.start ∅).
Proof.
  apply (proj1 (missing_credentials_stop_the_run (Sample.calm (fun _ _ => None))
                  Sample.parse false "" Sample.profile_url (Some "ada@example.com") None
                  true (Nav.start ∅))).
  right. reflexivity.
Defined.

Lemma try_except_cases {A} (m : Nav.M A) (h : Py.exn -> Nav.M A) (s : Nav.state) :
  (exists a s1, m s = (Py.Ok a, s1) /\ Nav.try_except m h s = (Py.Ok a, s1))
  \/ (exists e s1, m s = (Py.Raise e, s1) /\ Nav.try_except m h s = h e s1).
Proof.
  unfold Nav.try_except. destruct (m s) as [[a|e] s1]; [left|right]; eauto.
Qed.

(** X19.  [login] fails in two ways only.  Without an e-mail address or a
    password it raises [ValueError] at once, the state untouched.  Any other
    failure, of the browser or of a page, comes out as a [RuntimeError]
    whose message starts with "LinkedIn login failed: ".  And it returns
    only if the address of the page reached after the form was submitted,
    the last thing it reads, holds neither "checkpoint" nor "login". *)
Theorem login_outcome (w : Nav.world) (email password : option string) (s : Nav.state) :
  match Nav.login w email password s with
  | (Py.Ok _, s') =>
      exists calls,
        Nav.trace s' = calls ++ [Nav.PageUrl]
        /\ PyStr.contains "checkpoint" (Nav.page_url w calls) = false
        /\ PyStr.contains "login" (Nav.page_url w calls) = false
  | (Py.Raise e, s') =>
      (e = Py.ValueError "LinkedIn credentials are required" /\ s' = s)
      \/ exists msg, e = Py.RuntimeError ("LinkedIn login failed: " +:+ msg)
  end.
Proof.
  unfold Nav.login.
  destruct (Nav.credential w email "LINKEDIN_EMAIL") as [e|];
    [destruct (Nav.credential w password "LINKEDIN_PASSWORD") as [p|]|];
    try (left; split; reflexivity).
  match goal with
  | |- context [Nav.try_except ?m ?h s] =>
      destruct (try_except_cases m h s) as [(a & s1 & H & ->)|(err & s1 & _ & ->)]
  end; [|right; eexists; reflexivity].
  repeat (apply bind_returns in H; destruct H as (? & ? & ? & H)).
  injection H as Ha Hs1. subst.
  match goal with
  | Hin : Nav.bind _ _ _ = _ |- _ => rename Hin into H
  end.
  repeat (apply bind_returns in H; destruct H as (? & ? & ? & H)).
  match goal with
  | Hurl : Nav.url _ _ = _ |- _ => unfold Nav.url, Nav.bind, Nav.perform, Nav.ret in Hurl;
      destruct (Nav.raises w _ Nav.PageUrl); [discriminate|];
      injection Hurl as Hu Hs
  end.
  subst.
  destruct (PyStr.contains "checkpoint" _) eqn:Hc; [discriminate|].
  destruct (PyStr.contains "login" _) eqn:Hl; [discriminate|].
  simpl in H. injection H as _ <-. simpl. eexists. split; [reflexivity|]. split; assumption.
Qed.

(** ** The controller: the documents of a company *)

Lemma guarded_state (m : Nav.M unit) (s : Nav.state) :
  snd (Nav.try_except m (fun _ => Nav.ret tt) s) = snd (m s).
Proof. unfold Nav.try_except. destruct (m s) as [[[]|e] s1]; reflexivity. Qed.

Lemma bind_state {A B} (m : Nav.M A) (k : A -> Nav.M B) (s : Nav.state)
    (Q : Nav.state -> Prop) :
  (forall e s1, m s = (Py.Raise e, s1) -> Q s1) ->
  (forall a s1, m s = (Py.Ok a, s1) -> Q (snd (k a s1))) ->
  Q (snd (Nav.bind m k s)).
Proof.
  intros Hraise Hok. unfold Nav.bind.
  destruct (m s) as [[a|e] s1]; simpl; [exact (Hok a s1 eq_refl)|exact (Hraise e s1 eq_refl)].
Qed.

Lemma same_mapping_invariant :
  Frame.invariant (fun s s' => Nav.html_content s' = Nav.html_content s) (fun _ => False).
Proof. split; simpl; try congruence; try reflexivity. intros s k v []. Qed.

(** A computation that leaves the mapping alone, run from [s]. *)
Lemma quiet {A} (m : Nav.M A) (s s1 : Nav.state) (r : Py.result A) :
  Frame.stable (fun s s' => Nav.html_content s' = Nav.html_content s) m ->
  m s = (r, s1) -> Nav.html_content s1 = Nav.html_content s.
Proof. intros Hm H. specialize (Hm s). now rewrite H in Hm. Qed.

(** Before the resolved document is written, the key holds what it held. *)
Lemma resolved_before (i : nat) (s s1 : Nav.state) :
  PyDict.get ("company_" +:+ pretty i +:+ "_html") (Nav.html_content s1)
  = PyDict.get ("company_" +:+ pretty i +:+ "_html") (Nav.html_content s) ->
  Frame.resolved i s s1.
Proof. intros H. left. exact H. Qed.

(** The last two steps: the resolved document is written, then a pause. *)
Lemma resolved_after (w : Nav.world) (i : nat) (s s7 : Nav.state)
    (about_html : option string) (main_company_html : string) :
  PyDict.get ("company_" +:+ pretty i +:+ "_main_html") (Nav.html_content s7)
  = Some main_company_html ->
  (forall c r, about_html = Some (String c r) ->
     PyDict.get ("company_" +:+ pretty i +:+ "_about_html") (Nav.html_content s7)
     = Some (String c r)) ->
  Frame.resolved i s
    (snd (Nav.bind
            match about_html with
            | Some (String c r) => Nav.store ("company_" +:+ pretty i +:+ "_html") (String c r)
            | _ => Nav.store ("company_" +:+ pretty i +:+ "_html") main_company_html
            end
            (fun _ => Nav.perform w Nav.WaitForTimeout) s7)).
Proof.
  intros Hmain Habout.
  destruct (company_keys_distinct i) as (Hma & Hmb & Hab).
  assert (forall v,
            Nav.html_content
              (snd (Nav.bind (Nav.store ("company_" +:+ pretty i +:+ "_html") v)
                      (fun _ => Nav.perform w Nav.WaitForTimeout) s7))
            = PyDict.set ("company_" +:+ pretty i +:+ "_html") v (Nav.html_content s7))
    as Hend.
  { intros v. unfold Nav.bind, Nav.store, Nav.perform. simpl.
    now destruct (Nav.raises w (Nav.trace s7) Nav.WaitForTimeout). }
  destruct about_html as [[|c r]|].
  - right. left. exists main_company_html. cbv zeta. rewrite Hend.
    rewrite dict_get_set, dict_get_set_other by congruence. auto.
  - right. right. exists (String c r). cbv zeta. rewrite Hend.
    rewrite dict_get_set, dict_get_set_other by congruence.
    split; [discriminate|]. split; [now apply Habout|reflexivity].
  - right. left. exists main_company_html. cbv zeta. rewrite Hend.
    rewrite dict_get_set, dict_get_set_other by congruence. auto.
Qed.

(** The about page: when it could be loaded it is stored under its key,
    whether or not the debug copy could be written. *)
Lemma about_page_stored (w : Nav.world) (key : string) (b : bool) (path : string)
    (h : string) (s : Nav.state) :
  let run := Nav.try_except
               (Nav.bind (Nav.store key h) (fun _ => Nav.when b (Nav.write w path h)))
               (fun _ => Nav.ret tt) s in
  fst run = Py.Ok tt
  /\ Nav.html_content (snd run) = PyDict.set key h (Nav.html_content s).
Proof.
  cbv zeta. unfold Nav.try_except, Nav.bind, Nav.store, Nav.when, Nav.write, Nav.bind,
    Nav.perform, Nav.ret.
  destruct b; simpl; [|auto].
  destruct (Nav.raises w _ _); simpl; auto.
Qed.

Lemma about_page_post (nav : Nav.M (option string)) (store_it : string -> Nav.M unit)
    (key : string) (s6 s7 : Nav.state) (r : Py.result (option string)) :
  Frame.stable (fun s s' => Nav.html_content s' = Nav.html_content s) nav ->
  (forall h s, fst (store_it h s) = Py.Ok tt
               /\ Nav.html_content (snd (store_it h s))
                  = PyDict.set key h (Nav.html_content s)) ->
  Nav.bind nav
    (fun about_html =>
       match about_html with
       | Some h => Nav.bind (store_it h) (fun _ => Nav.ret (Some h))
       | None => Nav.ret None
       end) s6 = (r, s7) ->
  match r with
  | Py.Ok (Some h) => Nav.html_content s7 = PyDict.set key h (Nav.html_content s6)
  | _ => Nav.html_content s7 = Nav.html_content s6
  end.
Proof.
  intros Hnav Hstore. unfold Nav.bind. specialize (Hnav s6).
  destruct (nav s6) as [[[h|]|e] s6a]; simpl in Hnav.
  - destruct (Hstore h s6a) as [Hok Hset].
    destruct (store_it h s6a) as [[[]|e] s6b]; simpl in *; [|discriminate].
    unfold Nav.ret. intros H. injection H as <- <-. congruence.
  - unfold Nav.ret. intros H. injection H as <- <-. exact Hnav.
  - intros H. injection H as <- <-. exact Hnav.
Qed.

(** X16.  The document the assembler reads for a company is one of the pages
    the controller saw there.  After the visit of the [i]-th company, the
    key "company_<i>_html" holds a copy of the non-empty about page stored
    under "company_<i>_about_html", or else a copy of the main page stored
    under "company_<i>_main_html"; if the visit failed before that, it holds
    what it held before the visit. *)
Theorem best_company_document (w : Nav.world) (debug_mode : bool)
    (html_pages_dir : string) (i : nat) (company_url : string) (s : Nav.state) :
  Frame.resolved i s (snd (Nav.scrape_company w debug_mode html_pages_dir i company_url s)).
Proof.
  destruct (company_keys_distinct i) as (Hma & Hmb & Hab).
  pose proof same_mapping_invariant as HI.
  unfold Nav.scrape_company. cbv zeta. rewrite guarded_state.
  apply bind_state; [intros e s1 H1|intros [] s1 H1];
    apply (quiet _ _ _ _ (stable_perform w _ _ HI _)) in H1;
    [apply resolved_before; congruence|].
  apply bind_state; [intros e s2 H2|intros [] s2 H2];
    apply (quiet _ _ _ _ (stable_perform w _ _ HI _)) in H2;
    [apply resolved_before; congruence|].
  apply bind_state; [intros e s3 H3|intros main_company_html s3 H3];
    apply (quiet (Nav.content w) _ _ _ (stable_reads w _ _ HI Nav.Content _)) in H3;
    [apply resolved_before; congruence|].
  apply bind_state; [intros e s4 H4; discriminate|intros [] s4 H4].
  injection H4 as <-.
  assert (forall s5,
            Nav.html_content s5
            = PyDict.set ("company_" +:+ pretty i +:+ "_main_html") main_company_html
                (Nav.html_content s3) ->
            PyDict.get ("company_" +:+ pretty i +:+ "_html") (Nav.html_content s5)
            = PyDict.get ("company_" +:+ pretty i +:+ "_html") (Nav.html_content s)
            /\ PyDict.get ("company_" +:+ pretty i +:+ "_main_html") (Nav.html_content s5)
               = Some main_company_html) as Hstored.
  { intros s5 ->. rewrite dict_get_set, dict_get_set_other by congruence.
    split; [congruence|reflexivity]. }
  apply bind_state; [intros e s5 H5|intros [] s5 H5];
    apply (quiet _ _ _ _ (stable_when _ _ HI _ _ (stable_write w _ _ HI _ _))) in H5;
    simpl in H5; [apply resolved_before, Hstored, H5|].
  apply bind_state; [intros e s6 H6|intros about_url s6 H6];
    apply (quiet _ _ _ _ (stable_about_link w _ _ HI _)) in H6;
    rewrite H5 in H6; [apply resolved_before, Hstored, H6|].
  assert (PyDict.get ("company_" +:+ pretty i +:+ "_html") (Nav.html_content s6)
          = PyDict.get ("company_" +:+ pretty i +:+ "_html") (Nav.html_content s)
          /\ PyDict.get ("company_" +:+ pretty i +:+ "_main_html") (Nav.html_content s6)
             = Some main_company_html) as [Hbest Hmain] by exact (Hstored s6 H6).
  clear Hstored H1 H2 H3 H5 H6 s1 s2 s3 s5.
  match goal with
  | |- Frame.resolved _ _ (snd (Nav.bind (match ?x with _ => _ end) _ _)) =>
      destruct x as [u|]
  end.
  - assert (forall r s7,
              Nav.bind
                (Nav.try_except
                   (Nav.bind (Nav.perform w (Nav.Goto u))
                      (fun _ => Nav.bind (Nav.perform w Nav.WaitForTimeout)
                         (fun _ => Nav.bind (Nav.content w)
                            (fun about_html => Nav.ret (Some about_html)))))
                   (fun _ => Nav.ret None))
                (fun about_html =>
                   match about_html with
                   | Some h =>
                       Nav.bind
                         (Nav.try_except
                            (Nav.bind
                               (Nav.store ("company_" +:+ pretty i +:+ "_about_html") h)
                               (fun _ =>
                                  Nav.when debug_mode
                                    (Nav.write w
                                       (Py.join (Py.join html_pages_dir "company_about_pages")
                                          ((if PyStr.contains "/company/" company_url
                                            then hd "" (PyStr.split_on "/"
                                                          (nth 1 (PyStr.split_on "/company/"
                                                                    company_url) ""))
                                            else "unknown_company") +:+ "_about.txt")) h)))
                            (fun _ => Nav.ret tt))
                         (fun _ => Nav.ret (Some h))
                   | None => Nav.ret None
                   end) s6 = (r, s7) ->
              match r with
              | Py.Ok (Some h) =>
                  Nav.html_content s7
                  = PyDict.set ("company_" +:+ pretty i +:+ "_about_html") h
                      (Nav.html_content s6)
              | _ => Nav.html_content s7 = Nav.html_content s6
              end) as Hpost.
    { intros r s7.
      apply (about_page_post _
               (fun h => Nav.try_except
                           (Nav.bind
                              (Nav.store ("company_" +:+ pretty i +:+ "_about_html") h)
                              (fun _ => Nav.when debug_mode (Nav.write w _ h)))
                           (fun _ => Nav.ret tt))).
      - apply (stable_try_except _ _ HI); [|intros _; apply (stable_ret _ _ HI)].
        repeat (apply (stable_bind _ _ HI); [apply (stable_perform w _ _ HI)|intros _]).
        apply (stable_bind _ _ HI);
          [apply (stable_reads w _ _ HI Nav.Content)|intros ?; apply (stable_ret _ _ HI)].
      - intros h s0. apply about_page_stored. }
    apply bind_state; [intros e s7 H7|intros about_html s7 H7]; apply Hpost in H7.
    + apply resolved_before. congruence.
    + apply (resolved_after w i s s7 about_html main_company_html).
      * destruct about_html as [h|]; rewrite H7;
          [rewrite dict_get_set_other by congruence|]; exact Hmain.
      * intros c r ->. rewrite H7. apply dict_get_set.
  - apply bind_state; [intros e s7 H7; discriminate|intros about_html s7 H7].
    unfold Nav.ret in H7. injection H7 as <- <-.
    apply (resolved_after w i s s6 None main_company_html); [exact Hmain|discriminate].
Qed.

Example best_company_document_sample :
  PyDict.get "company_0_html"
    (Nav.html_content
       (snd (Nav.scrape_company Sample.world_ok false "" 0
               "https://www.linkedin.com/company/acme/" (Nav.start ∅))))
  = Some Sample.blank_text.
Proof. vm_compute. reflexivity. Qed.

(** ** The controller: where the company scraper navigates *)

Section flow.
Context (R : Nav.state -> Nav.state -> Prop)
        (R_refl : forall s, R s s)
        (R_trans : forall s1 s2 s3, R s1 s2 -> R s2 s3 -> R s1 s3).

Lemma flow_ret {A} (a : A) : Frame.stable R (Nav.ret a).
Proof. intros s. apply R_refl. Qed.

Lemma flow_bind_post {A B} (m : Nav.M A) (k : A -> Nav.M B) (Post : A -> Prop) :
  Frame.stable R m ->
  (forall s a s', m s = (Py.Ok a, s') -> Post a) ->
  (forall a, Post a -> Frame.stable R (k a)) ->
  Frame.stable R (Nav.bind m k).
Proof.
  intros Hm Hpost Hk s. unfold Nav.bind. specialize (Hm s). specialize (Hpost s).
  destruct (m s) as [[a|e] s1]; simpl in *; [|exact Hm].
  eapply R_trans; [exact Hm|]. apply Hk. now apply (Hpost a s1).
Qed.

Lemma flow_bind {A B} (m : Nav.M A) (k : A -> Nav.M B) :
  Frame.stable R m -> (forall a, Frame.stable R (k a)) -> Frame.stable R (Nav.bind m k).
Proof.
  intros Hm Hk. apply (flow_bind_post m k (fun _ => True)); auto.
Qed.

Lemma flow_try_except {A} (m : Nav.M A) (h : Py.exn -> Nav.M A) :
  Frame.stable R m -> (forall e, Frame.stable R (h e)) ->
  Frame.stable R (Nav.try_except m h).
Proof.
  intros Hm Hh s. unfold Nav.try_except. specialize (Hm s).
  destruct (m s) as [[a|e] s1]; simpl in *; [exact Hm|].
  eapply R_trans; [exact Hm|apply Hh].
Qed.

Lemma flow_when (b : bool) (m : Nav.M unit) :
  Frame.stable R m -> Frame.stable R (Nav.when b m).
Proof. intros H. destruct b; [exact H|apply flow_ret]. Qed.

End flow.

Lemma absolutely_refl (s : Nav.state) : Frame.navigates_absolutely s s.
Proof. exists []. now rewrite app_nil_r. Qed.

Lemma absolutely_trans (s1 s2 s3 : Nav.state) :
  Frame.navigates_absolutely s1 s2 -> Frame.navigates_absolutely s2 s3 ->
  Frame.navigates_absolutely s1 s3.
Proof.
  intros (c1 & E1 & F1) (c2 & E2 & F2). exists (c1 ++ c2).
  now rewrite E2, E1, app_assoc, forallb_app, F1, F2.
Qed.

Section absolute.
Context (w : Nav.world) (parse : string -> Bs.node)
        (debug_mode : bool) (html_pages_dir : string).

Lemma calm_perform (c : Nav.call) :
  Frame.absolute_goto c = true -> Frame.stable Frame.navigates_absolutely (Nav.perform w c).
Proof.
  intros Hc s. exists [c]. unfold Nav.perform.
  destruct (Nav.raises w (Nav.trace s) c); simpl; now rewrite Hc.
Qed.

Lemma calm_reads {A} (c : Nav.call) (f : Nav.state -> A) :
  Frame.absolute_goto c = true ->
  Frame.stable Frame.navigates_absolutely (fun s => Nav.bind (Nav.perform w c) (fun _ => Nav.ret (f s)) s).
Proof.
  intros Hc s.
  exact (flow_bind _ absolutely_trans (Nav.perform w c)
           (fun _ => Nav.ret (f s)) (calm_perform c Hc)
           (fun _ => flow_ret _ absolutely_refl _) s).
Qed.

Lemma calm_state {A} (f : Nav.state -> A) (g : Nav.state -> Nav.state) :
  (forall s, Nav.trace (g s) = Nav.trace s) -> Frame.stable Frame.navigates_absolutely (fun s => (Py.Ok (f s), g s)).
Proof. intros H s. exists []. simpl. now rewrite H, app_nil_r. Qed.

Ltac calm_step :=
  first
    [ apply (flow_ret _ absolutely_refl)
    | apply calm_perform; reflexivity
    | apply calm_reads; reflexivity
    | apply calm_state; reflexivity
    | apply (flow_when _ absolutely_refl)
    | apply (flow_bind _ absolutely_trans); [|intros ?]
    | apply (flow_try_except _ absolutely_trans); [|intros ?]
    | assumption
    | match goal with
      | |- Frame.stable _ (match ?x with _ => _ end) => destruct x
      | |- Frame.stable _ (let _ := _ in _) => cbv zeta
      end ].

Ltac calm_auto := repeat calm_step.

Lemma calm_write (path text : string) : Frame.stable Frame.navigates_absolutely (Nav.write w path text).
Proof. unfold Nav.write. calm_auto. Qed.

Lemma calm_store (k v : string) : Frame.stable Frame.navigates_absolutely (Nav.store k v).
Proof. unfold Nav.store. calm_auto. Qed.

Lemma calm_about_link (selectors : list string) : Frame.stable Frame.navigates_absolutely (Nav.about_link w selectors).
Proof.
  induction selectors as [|selector rest IH]; simpl.
  - calm_auto.
  - unfold Nav.about_link_with, Nav.query_selector, Nav.query_selector_all,
      Nav.get_attribute.
    calm_auto.
Qed.

Lemma prefixed_absolute (href : string) :
  PyStr.startswith "http"
    (if negb (PyStr.startswith "http" href) then "https://www.linkedin.com" +:+ href
     else href) = true.
Proof. destruct (PyStr.startswith "http" href) eqn:E; [exact E|reflexivity]. Qed.

(** The address [about_link] finds is absolute. *)
Lemma about_link_absolute (selectors : list string) (s s' : Nav.state) (url : string) :
  Nav.about_link w selectors s = (Py.Ok (Some url), s') ->
  PyStr.startswith "http" url = true.
Proof.
  revert s. induction selectors as [|selector rest IH]; intros s; simpl.
  - discriminate.
  - intros H. apply bind_returns in H. destruct H as ([u|] & s1 & Hwith & H).
    + injection H as <- <-. clear IH.
      destruct (try_except_cases (Nav.about_link_with w selector)
                  (fun _ => Nav.ret None) s)
        as [(a & s2 & Hrun & Heq)|(e & s2 & _ & Heq)];
        rewrite Heq in Hwith; [|discriminate].
      injection Hwith as -> ->. unfold Nav.about_link_with in Hrun.
      apply bind_returns in Hrun. destruct Hrun as ([|] & s3 & _ & Hrun);
        [|discriminate].
      apply bind_returns in Hrun. destruct Hrun as ([[|c r]|] & s4 & _ & Hrun);
        try discriminate.
      unfold Nav.ret in Hrun. injection Hrun as Hurl _.
      exact (eq_ind _ (fun x => PyStr.startswith "http" x = true)
               (prefixed_absolute (String c r)) _ Hurl).
    + exact (IH _ H).
Qed.

Lemma rstrip_char_cons (ch c : ascii) (r : string) :
  c <> ch -> PyStr.rstrip_char ch (String c r) = String c (PyStr.rstrip_char ch r).
Proof.
  intros Hc. simpl. destruct (Ascii.eqb_spec c ch); [contradiction|].
  now destruct (PyStr.rstrip_char ch r).
Qed.

Lemma of_list_app (a b : list ascii) :
  String.string_of_list_ascii (a ++ b)
  = String.string_of_list_ascii a +:+ String.string_of_list_ascii b.
Proof. induction a as [|c r IH]; [reflexivity|]. simpl. now rewrite IH. Qed.

Lemma split_on_from_prefix (sep s : string) (skip : nat) (cur : list ascii) :
  exists tail,
    hd "" (PyStr.split_on_from sep s skip cur)
    = String.string_of_list_ascii (rev cur) +:+ tail.
Proof.
  revert skip cur. induction s as [|c r IH]; intros skip cur.
  - exists "". cbn [PyStr.split_on_from hd]. now rewrite append_empty.
  - cbn [PyStr.split_on_from]. destruct skip as [|k]; [|apply IH].
    destruct (String.prefix sep (String c r)).
    + exists "". cbn [hd]. now rewrite append_empty.
    + destruct (IH 0 (c :: cur)) as [tail ->]. exists (String c tail).
      simpl rev. now rewrite of_list_app, append_assoc.
Qed.

Lemma prefix_cons_inv (a b : ascii) (p s : string) :
  String.prefix (String a p) (String b s) = true -> a = b /\ String.prefix p s = true.
Proof. simpl. destruct (ascii_dec a b); [auto|discriminate]. Qed.

(** The address made from an absolute company address is absolute. *)
Lemma constructed_about_absolute (url : string) :
  PyStr.startswith "http" url = true ->
  PyStr.startswith "http"
    (PyStr.rstrip_char "/" (hd "" (PyStr.split_on "?" url)) +:+ "/about/") = true.
Proof.
  unfold PyStr.startswith. intros H.
  destruct url as [|c1 url]; [discriminate|].
  apply prefix_cons_inv in H. destruct H as [<- H].
  destruct url as [|c2 url]; [discriminate|].
  apply prefix_cons_inv in H. destruct H as [<- H].
  destruct url as [|c3 url]; [discriminate|].
  apply prefix_cons_inv in H. destruct H as [<- H].
  destruct url as [|c4 rest]; [discriminate|].
  apply prefix_cons_inv in H. destruct H as [<- _].
  unfold PyStr.split_on.
  change (PyStr.split_on_from "?" (String "h" (String "t" (String "t" (String "p" rest))))
            0 [])
    with (PyStr.split_on_from "?" rest 0 ["p"; "t"; "t"; "h"]%char).
  destruct (split_on_from_prefix "?" rest 0 ["p"; "t"; "t"; "h"]%char) as [tail ->].
  simpl String.string_of_list_ascii.
  change ("http" +:+ tail) with (String "h" (String "t" (String "t" (String "p" tail)))).
  rewrite !rstrip_char_cons by discriminate.
  rewrite !append_cons.
  exact (startswith_append "http" (PyStr.rstrip_char "/" tail +:+ "/about/")).
Qed.

Lemma calm_scrape_company (i : nat) (company_url : string) :
  PyStr.startswith "http" company_url = true ->
  Frame.stable Frame.navigates_absolutely
    (Nav.scrape_company w debug_mode html_pages_dir i company_url).
Proof.
  intros Hurl. unfold Nav.scrape_company, Nav.content. cbv zeta.
  apply (flow_try_except _ absolutely_trans);
    [|intros _; apply (flow_ret _ absolutely_refl)].
  apply (flow_bind _ absolutely_trans); [apply calm_perform; exact Hurl|intros _].
  apply (flow_bind _ absolutely_trans); [apply calm_perform; reflexivity|intros _].
  apply (flow_bind _ absolutely_trans); [apply calm_reads; reflexivity|intros main].
  apply (flow_bind _ absolutely_trans); [apply calm_store|intros _].
  apply (flow_bind _ absolutely_trans);
    [apply (flow_when _ absolutely_refl), calm_write|intros _].
  apply (flow_bind_post _ absolutely_trans _ _
           (fun about_url => forall u, about_url = Some u ->
                                       PyStr.startswith "http" u = true)).
  - apply calm_about_link.
  - intros s about_url s' H u ->. exact (about_link_absolute _ _ _ _ H).
  - intros about_url Hfound.
    apply (flow_bind _ absolutely_trans).
    + match goal with
      | |- Frame.stable _ (match ?x with _ => _ end) =>
          assert (forall u, x = Some u -> PyStr.startswith "http" u = true) as Habout;
            [|destruct x as [u|]; [specialize (Habout u eq_refl)|calm_auto]]
      end.
      * intros u. destruct about_url as [u'|].
        -- intros [= <-]. now apply Hfound.
        -- destruct (PyStr.contains "/company/" company_url); [|discriminate].
           intros [= <-]. now apply constructed_about_absolute.
      * apply (flow_bind _ absolutely_trans).
        -- apply (flow_try_except _ absolutely_trans);
             [|intros _; apply (flow_ret _ absolutely_refl)].
           apply (flow_bind _ absolutely_trans); [apply calm_perform; exact Habout|intros _].
           calm_auto.
        -- intros [h|]; [|calm_auto].
           apply (flow_bind _ absolutely_trans);
             [|intros _; apply (flow_ret _ absolutely_refl)].
           apply (flow_try_except _ absolutely_trans);
             [|intros _; apply (flow_ret _ absolutely_refl)].
           apply (flow_bind _ absolutely_trans); [apply calm_store|intros _].
           apply (flow_when _ absolutely_refl), calm_write.
    + intros about_html. apply (flow_bind _ absolutely_trans).
      * destruct about_html as [[|c r]|]; apply calm_store.
      * intros _. apply calm_perform. reflexivity.
Qed.

Lemma calm_scrape_companies_from (i : nat) (company_urls : list string) :
  Forall (fun url => PyStr.startswith "http" url = true) company_urls ->
  Frame.stable Frame.navigates_absolutely
    (Nav.scrape_companies_from w debug_mode html_pages_dir i company_urls).
Proof.
  intros H. revert i. induction H as [|url rest Hurl _ IH]; intros i; simpl.
  - apply (flow_ret _ absolutely_refl).
  - apply (flow_bind _ absolutely_trans); [now apply calm_scrape_company|intros _; apply IH].
Qed.

(** The addresses [extract_current_companies] gives are absolute. *)
Lemma company_urls_absolute (fs : gmap string Py.entry) (source : string) :
  Forall (fun url => PyStr.startswith "http" url = true)
    match fst (CurrentCompanies.extract_current_companies parse fs
                 (CurrentCompanies.Str source)) with
    | Py.Ok (CurrentCompanies.UrlSet urls) => elements urls
    | Py.Ok (CurrentCompanies.UrlList urls) => urls
    | Py.Raise _ => []
    end.
Proof.
  unfold CurrentCompanies.extract_current_companies, CurrentCompanies.body.
  destruct (CurrentCompanies.load fs (CurrentCompanies.Str source)) as [html|e];
    simpl; [|constructor].
  apply Forall_forall. intros url Hin.
  rewrite elem_of_elements, elem_of_list_to_set, collect_spec, app_nil_l,
    list_elem_of_omap in Hin.
  destruct Hin as (item & _ & Hitem). apply item_url_iff in Hitem.
  destruct Hitem as (_ & href & _ & ->). apply absolute_is_absolute.
Qed.

End absolute.

(** X23.  The company scraper only ever navigates to absolute addresses.
    Whatever the pages hold and whatever the browser answers, every
    [page.goto] made by [scrape_company_about_pages] is to an address that
    starts with "http": the company addresses come from
    [extract_current_companies], which makes them absolute; an "About" link
    found on the page is prefixed with "https://www.linkedin.com" unless it
    starts with "http"; and the address made from a company address keeps
    its beginning. *)
Theorem company_pages_navigate_absolutely (w : Nav.world) (parse : string -> Bs.node)
    (debug_mode : bool) (html_pages_dir : string) (s : Nav.state) :
  exists calls,
    Nav.trace (snd (Nav.scrape_company_about_pages w parse debug_mode html_pages_dir s))
    = Nav.trace s ++ calls
    /\ forall url, In (Nav.Goto url) calls -> PyStr.startswith "http" url = true.
Proof.
  assert (Frame.stable Frame.navigates_absolutely
            (Nav.scrape_company_about_pages w parse debug_mode html_pages_dir)) as Hcalm.
  { unfold Nav.scrape_company_about_pages.
    apply (flow_try_except _ absolutely_trans);
      [|intros _; apply (flow_ret _ absolutely_refl)].
    apply (flow_bind _ absolutely_trans); [now apply calm_state|intros d].
    apply (flow_bind _ absolutely_trans); [now apply calm_state|intros fs]. cbv zeta.
    pose proof (company_urls_absolute parse fs
                  (if PyDict.mem "experiences_expanded_html" d
                   then default "" (PyDict.get "experiences_expanded_html" d)
                   else default "" (PyDict.get "profile_html" d))) as Hurls.
    match goal with
    | |- Frame.stable _ (match ?x with _ => _ end) => destruct x as [|url urls]
    end; [apply (flow_ret _ absolutely_refl)|].
    apply (flow_bind _ absolutely_trans).
    - apply (flow_when _ absolutely_refl), calm_perform. reflexivity.
    - intros _. now apply calm_scrape_companies_from. }
  destruct (Hcalm s) as (calls & Htrace & Hcalls).
  exists calls. split; [exact Htrace|].
  intros url Hin. rewrite forallb_forall in Hcalls. exact (Hcalls _ Hin).
Qed.

(** ** The pipeline *)

Lemma init_with_mapping (parse : string -> Bs.node) (fs : gmap string Py.entry)
    (d : list (string * string)) (content : string) :
  PyDict.get "profile_html" d = Some content ->
  ProfileBuilder.init parse fs None None None (Some d)
  = Py.Ok (ProfileBuilder.Build d content (parse content) None).
Proof.
  intros H. unfold ProfileBuilder.init.
  destruct d as [|x r]; [discriminate|]. now rewrite H.
Qed.

Lemma navigation_result (w : Nav.world) (parse : string -> Bs.node)
    (package_dir profile_url : string) (email password : option string)
    (debug_mode : bool) (fs : gmap string Py.entry)
    (b : bool) (d : list (string * string)) (s : Nav.state) :
  Main.navigation w parse package_dir profile_url email password debug_mode fs
  = (Py.Ok (b, d), s) ->
  b = true /\ exists profile_html, PyDict.get "profile_html" d = Some profile_html.
Proof.
  unfold Main.navigation. intros H.
  apply bind_returns in H. destruct H as (_ & s1 & _ & H).
  destruct (scrape_profile_result _ _ _ _ _ _ _ _ _ _ _ _ H) as (Hb & _ & Hmem).
  split; [exact Hb|]. unfold PyDict.mem in Hmem.
  destruct (PyDict.get "profile_html" d) as [profile_html|]; [eauto|discriminate].
Qed.

(** The pipeline gives a record, never an empty one, when the controller
    returns, and nothing when it raises. *)
Lemma pipeline_record (w : Nav.world) (parse : string -> Bs.node)
    (package_dir profile_url : string) (email password : option string)
    (debug_mode : bool) (fs : gmap string Py.entry) :
  match Main.navigation w parse package_dir profile_url email password debug_mode fs with
  | (Py.Ok _, s) =>
      exists entry entries,
        Main.scrape_linkedin_profile w parse package_dir profile_url email password
          debug_mode fs = (Some (entry :: entries), s)
  | (Py.Raise _, s) =>
      Main.scrape_linkedin_profile w parse package_dir profile_url email password
        debug_mode fs = (None, s)
  end.
Proof.
  unfold Main.scrape_linkedin_profile.
  destruct (Main.navigation w parse package_dir profile_url email password debug_mode fs)
    as [[[b d]|e] s] eqn:Hnav; [|reflexivity].
  destruct (navigation_result _ _ _ _ _ _ _ _ _ _ _ Hnav) as (-> & profile_html & Hget).
  rewrite (init_with_mapping parse (Nav.files s) d profile_html Hget).
  unfold ProfileBuilder.scrape_profile. eauto.
Qed.

(** X21.  [scrape_linkedin_profile] returns a record exactly when the
    controller's [scrape_profile] returns, and [None] exactly when it
    raises: building the record cannot fail, because the mapping handed
    over always holds the profile.  The record is the assembler's, built
    from that mapping alone, with the document under "profile_html" as the
    profile and no session directory. *)
Theorem pipeline_outcome (w : Nav.world) (parse : string -> Bs.node)
    (package_dir profile_url : string) (email password : option string)
    (debug_mode : bool) (fs : gmap string Py.entry) :
  let nav := Main.navigation w parse package_dir profile_url email password debug_mode fs in
  let run := Main.scrape_linkedin_profile w parse package_dir profile_url email password
               debug_mode fs in
  snd run = snd nav
  /\ match fst nav with
     | Py.Ok (_, documents) =>
         exists profile_html,
           PyDict.get "profile_html" documents = Some profile_html
           /\ fst run
              = Some (ProfileBuilder.scrape_profile parse (Nav.files (snd nav)) package_dir
                        (ProfileBuilder.Build documents profile_html (parse profile_html)
                           None))
     | Py.Raise _ => fst run = None
     end.
Proof.
  cbv zeta. unfold Main.scrape_linkedin_profile.
  destruct (Main.navigation w parse package_dir profile_url email password debug_mode fs)
    as [[[b d]|e] s] eqn:Hnav; [|split; reflexivity].
  destruct (navigation_result _ _ _ _ _ _ _ _ _ _ _ Hnav) as (-> & profile_html & Hget).
  rewrite (init_with_mapping parse (Nav.files s) d profile_html Hget). simpl.
  split; [reflexivity|]. exists profile_html. split; [exact Hget|reflexivity].
Qed.

(** X22.  [save_profile_to_json] answers [True] exactly when the controller
    returned and the output file could be opened for writing; the file then
    holds the serialised record.  In every other case it answers [False]
    and writes nothing. *)
Theorem save_profile_to_json_outcome (w : Nav.world) (parse : string -> Bs.node)
    (package_dir : string) (dumps : list (string * ProfileBuilder.value) -> string)
    (profile_url output_file : string) (email password : option string)
    (debug_mode : bool) (fs : gmap string Py.entry) :
  let nav := Main.navigation w parse package_dir profile_url email password debug_mode fs in
  let run := Main.scrape_linkedin_profile w parse package_dir profile_url email password
               debug_mode fs in
  let saved := Main.save_profile_to_json w parse package_dir dumps profile_url output_file
                 email password debug_mode fs in
  match fst nav, Nav.raises w (Nav.trace (snd nav)) (Nav.WriteFile output_file) with
  | Py.Ok _, None =>
      exists record,
        fst run = Some record
        /\ fst saved = true
        /\ Nav.files (snd saved) = <[output_file := Py.File (dumps record)]> (Nav.files (snd nav))
  | _, _ => fst saved = false /\ Nav.files (snd saved) = Nav.files (snd nav)
  end.
Proof.
  cbv zeta.
  pose proof (pipeline_record w parse package_dir profile_url email password debug_mode fs)
    as Hrun.
  unfold Main.save_profile_to_json.
  destruct (Main.navigation w parse package_dir profile_url email password debug_mode fs)
    as [[r|e] s]; simpl.
  - destruct Hrun as (entry & entries & ->). simpl.
    unfold Nav.write, Nav.bind, Nav.perform.
    destruct (Nav.raises w (Nav.trace s) (Nav.WriteFile output_file)); simpl.
    + split; reflexivity.
    + eexists. split; [reflexivity|]. split; reflexivity.
  - rewrite Hrun. split; reflexivity.
Qed.

(** X24.  The pipeline closes the browser exactly when it gives a record.  In
    every world where closing the context and closing the browser do not
    themselves fail: when [scrape_linkedin_profile] returns a record, the
    last two calls made were [context.close()] and [browser.close()]; when
    it returns [None], no close call was made at all, however far the run
    got. *)
Theorem pipeline_release (w : Nav.world) (parse : string -> Bs.node)
    (package_dir profile_url : string) (email password : option string)
    (debug_mode : bool) (fs : gmap string Py.entry) :
  (forall trace, Nav.raises w trace Nav.ContextClose = None) ->
  (forall trace, Nav.raises w trace Nav.BrowserClose = None) ->
  let run := Main.scrape_linkedin_profile w parse package_dir profile_url email password
               debug_mode fs in
  match fst run with
  | Some _ =>
      exists calls, Nav.trace (snd run) = calls ++ [Nav.ContextClose; Nav.BrowserClose]
  | None => Props.release_attempted (snd run) = false
  end.
Proof.
  intros Hcontext Hbrowser. cbv zeta.
  pose proof (pipeline_record w parse package_dir profile_url email password debug_mode fs)
    as Hrun.
  assert (Props.closes_iff_returns
            (Nav.bind (Main.scraper_init w package_dir debug_mode)
               (fun _ => Nav.scrape_profile w parse debug_mode
                           (Main.html_pages_dir package_dir) profile_url email password
                           true))) as Hcloses.
  { apply closes_after.
    - apply no_close_when, no_close_perform. reflexivity.
    - intros _. now apply scrape_profile_closes_iff_returns. }
  specialize (Hcloses (Nav.start fs) eq_refl).
  fold (Main.navigation w parse package_dir profile_url email password debug_mode fs)
    in Hcloses.
  destruct (Main.navigation w parse package_dir profile_url email password debug_mode fs)
    as [[r|e] s].
  - destruct Hrun as (entry & entries & ->). exact Hcloses.
  - rewrite Hrun. exact Hcloses.
Qed.

Lemma pipeline_release_witness :
  exists calls,
    Nav.trace (snd (Main.scrape_linkedin_profile Sample.world_ok Sample.parse "/pkg"
                      Sample.profile_url (Some "ada@example.com") (Some "secret")
                      false ∅))
    = calls ++ [Nav.ContextClose; Nav.BrowserClose].
Proof.
  pose proof (pipeline_release Sample.world_ok Sample.parse "/pkg" Sample.profile_url
                (Some "ada@example.com") (Some "secret") false ∅
                (fun _ => eq_refl) (fun _ => eq_refl)) as H.
  vm_compute in H. vm_compute. exact H.
Defined.
